(** * video_subtitles: command-line and drag-and-drop front ends

    A shallow embedding of [src/video_subtitles/cli.py] and
    [src/video_subtitles/gui.py].  Python values are embedded directly
    ([str] as [string], [list[str]] as [list string], [None | str] as
    [option string]); every call that leaves the two modules (the file
    system, [input], the CUDA query, the transcription pipeline [run], the
    speech helper [say], the settings store, the thread processor) is an
    explicit effect: it reads its outcome from a [world] record and leaves an
    event in a chronological trace.  Exceptions are values of [exn] and
    travel through a small state-and-exception monad, so that an effect that
    happened before a [raise] stays in the trace, as in Python. *)

From Stdlib Require Import String Ascii List Bool Arith ZArith Lia.
From Stdlib Require Import DecimalString.
Import ListNotations.
Open Scope string_scope.

(* ------------------------------------------------------------------ *)
(** ** The fragment of the Python runtime the two modules rely on *)

Module Py.

(** Exception classes that the front ends raise, catch or let through.
    [KeyboardInterrupt] and [SystemExit] derive from [BaseException] only;
    the others derive from [Exception].  [OtherException] stands for any
    further subclass of [Exception] raised by a collaborator. *)
Inductive exn : Type :=
| KeyboardInterrupt
| SystemExit (code : Z)
| RuntimeError (msg : string)
| FileNotFoundError (msg : string)
| ValueError (msg : string)
| ArgumentTypeError (msg : string)
| OtherException (msg : string).

(** [isinstance(e, Exception)] *)
Definition is_Exception (e : exn) : bool :=
  match e with
  | KeyboardInterrupt | SystemExit _ => false
  | _ => true
  end.

(** [isinstance(e, ValueError)] *)
Definition is_ValueError (e : exn) : bool :=
  match e with
  | ValueError _ => true
  | _ => false
  end.

(** [isinstance(e, KeyboardInterrupt)] *)
Definition is_KeyboardInterrupt (e : exn) : bool :=
  match e with
  | KeyboardInterrupt => true
  | _ => false
  end.

(** [str(e)] *)
Definition str_exn (e : exn) : string :=
  match e with
  | KeyboardInterrupt => ""
  | SystemExit c => NilZero.string_of_int (Z.to_int c)
  | RuntimeError m | FileNotFoundError m | ValueError m
  | ArgumentTypeError m | OtherException m => m
  end.

(** Outcome of a call: a value or a raised exception. *)
Inductive res (A : Type) : Type :=
| Ok (a : A)
| Raise (e : exn).
Arguments Ok {A} a.
Arguments Raise {A} e.

(** Computations over a state [S] that may raise.  The state survives a
    [Raise]. *)
Definition M (S A : Type) : Type := S -> res A * S.

Definition ret {S A} (a : A) : M S A := fun s => (Ok a, s).
Definition raise {S A} (e : exn) : M S A := fun s => (Raise e, s).
Definition bind {S A B} (c : M S A) (k : A -> M S B) : M S B :=
  fun s => match c s with
           | (Ok a, s') => k a s'
           | (Raise e, s') => (Raise e, s')
           end.
Definition lift {S A} (r : res A) : M S A := fun s => (r, s).

(** [try: c  except <cls> as e: h e], where [cls] is given by its
    [isinstance] test. *)
Definition try_except {S A} (c : M S A) (cls : exn -> bool)
           (h : exn -> M S A) : M S A :=
  fun s => match c s with
           | (Ok a, s') => (Ok a, s')
           | (Raise e, s') => if cls e then h e s' else (Raise e, s')
           end.

(** [for x in xs: body x] *)
Fixpoint for_each {S A} (xs : list A) (body : A -> M S unit) : M S unit :=
  match xs with
  | [] => ret tt
  | x :: xs' => bind (body x) (fun _ => for_each xs' body)
  end.

(** *** [str] methods *)

(** [s.split(sep)] for a one-character separator: never returns the empty
    list, and [''.split(sep) == ['']]. *)
Fixpoint split (sep : ascii) (s : string) : list string :=
  match s with
  | EmptyString => [EmptyString]
  | String c rest =>
      if Ascii.eqb c sep then EmptyString :: split sep rest
      else match split sep rest with
           | [] => [String c EmptyString]
           | w :: ws => String c w :: ws
           end
  end.

(** [sep.join(xs)] *)
Definition join (sep : string) (xs : list string) : string :=
  String.concat sep xs.

(** [c.isspace()] on the ASCII range: TAB, LF, VT, FF, CR, FS, GS, RS, US
    and SPACE. *)
Definition isspace (c : ascii) : bool :=
  let n := nat_of_ascii c in
  (Nat.leb 9 n && Nat.leb n 13) || (Nat.leb 28 n && Nat.leb n 32).

Fixpoint lstrip (s : string) : string :=
  match s with
  | EmptyString => EmptyString
  | String c rest => if isspace c then lstrip rest else s
  end.

Fixpoint rstrip (s : string) : string :=
  match s with
  | EmptyString => EmptyString
  | String c rest =>
      match rstrip rest with
      | EmptyString => if isspace c then EmptyString
                       else String c EmptyString
      | r => String c r
      end
  end.

(** [s.strip()] *)
Definition strip (s : string) : string := lstrip (rstrip s).

(** [s.replace(a, b)] for one-character [a] and [b]. *)
Fixpoint replace (a b : ascii) (s : string) : string :=
  match s with
  | EmptyString => EmptyString
  | String c rest =>
      String (if Ascii.eqb c a then b else c) (replace a b rest)
  end.

(** [x in xs] for a list of strings. *)
Definition mem (x : string) (xs : list string) : bool :=
  existsb (String.eqb x) xs.

(** [c in s] for a character [c]. *)
Fixpoint contains (c : ascii) (s : string) : bool :=
  match s with
  | EmptyString => false
  | String c' rest => Ascii.eqb c' c || contains c rest
  end.

(** Truthiness of a [str]: [not s] is [s == ""]. *)
Definition falsy (s : string) : bool :=
  match s with
  | EmptyString => true
  | _ => false
  end.

(** Truthiness of a [None | str] value. *)
Definition truthy (o : option string) : bool :=
  match o with
  | Some s => negb (falsy s)
  | None => false
  end.

(** [o == s] for a [None | str] value [o]. *)
Definition opt_eqb (o : option string) (s : string) : bool :=
  match o with
  | Some k => String.eqb k s
  | None => false
  end.

(** [str(n)] for a non-negative [int]. *)
Definition str_nat (n : nat) : string :=
  NilZero.string_of_uint (Nat.to_uint n).

(** *** [os.path] (POSIX flavour) *)

(** [s.rstrip('/')] *)
Fixpoint rstrip_sep (s : string) : string :=
  match s with
  | EmptyString => EmptyString
  | String c rest =>
      match rstrip_sep rest with
      | EmptyString => if Ascii.eqb c "/" then EmptyString
                       else String c EmptyString
      | r => String c r
      end
  end.

(** [p[:i]] and [p[i:]] for [i = p.rfind('/') + 1], as a pair. *)
Fixpoint split_last_sep (p : string) : string * string :=
  match p with
  | EmptyString => (EmptyString, EmptyString)
  | String c rest =>
      let (h, t) := split_last_sep rest in
      match h with
      | EmptyString =>
          if Ascii.eqb c "/" then (String c EmptyString, t)
          else (EmptyString, String c t)
      | _ => (String c h, t)
      end
  end.

(** [posixpath.dirname]: the head up to the last slash, with trailing
    slashes removed unless the head consists of slashes only. *)
Definition dirname (p : string) : string :=
  let head := fst (split_last_sep p) in
  match rstrip_sep head with
  | EmptyString => head
  | h => h
  end.

(** [posixpath.basename] *)
Definition basename (p : string) : string := snd (split_last_sep p).

(** [p.endswith('/')] *)
Fixpoint ends_with_sep (p : string) : bool :=
  match p with
  | EmptyString => false
  | String c EmptyString => Ascii.eqb c "/"
  | String _ rest => ends_with_sep rest
  end.

(** [posixpath.join(a, b)] *)
Definition path_join (a b : string) : string :=
  match b with
  | String "/" _ => b
  | _ => if falsy a || ends_with_sep a then a ++ b else a ++ "/" ++ b
  end.

End Py.

Import Py.

Declare Scope py_scope.
Delimit Scope py_scope with py.
Notation "x <- c ;; k" := (bind c (fun x => k))
  (at level 61, c at next level, right associativity) : py_scope.
Notation "c ;;; k" := (bind c (fun _ => k))
  (at level 61, right associativity) : py_scope.

(* ------------------------------------------------------------------ *)
(** ** [video_subtitles.util]: what the front ends import from it *)

Module Util.

(** Modelled from the spec: the constant [LANGUAGE_CODES] of
    [video_subtitles/util.py], which is not part of the sources at hand.
    The spec fixes the supported set as [{en, es, fr, de, it, pt, ru, zh}],
    the same set the [--languages] help text of [cli.py] prints. *)
Definition LANGUAGE_CODES : list string :=
  ["en"; "es"; "fr"; "de"; "it"; "pt"; "ru"; "zh"].

(** The fields of [util.GraphicsInfo] that [cli.main] prints.  [memory_gb]
    is kept as the text that the f-string renders. *)
Record GraphicsInfo : Type := {
  idx : nat;
  name : string;
  memory_gb : string
}.

(** [language in LANGUAGE_CODES] *)
Definition supported (language : string) : bool := mem language LANGUAGE_CODES.

(** The loop of [parse_languages]: the first code it stumbles on, if any. *)
Fixpoint first_unsupported (languages : list string) : option string :=
  match languages with
  | [] => None
  | language :: rest =>
      if negb (supported language) then Some language
      else first_unsupported rest
  end.

(** Modelled from the spec: [util.parse_languages], the validation the
    drag-and-drop front end calls, which is not part of the sources at
    hand.  The spec: a comma-separated set of codes; every non-empty list
    drawn from the supported set is accepted, any code outside it rejects
    the whole request.  The rejection is a [ValueError], the class
    [gui.py] catches around the call. *)
Definition parse_languages (languages_str : string) : res (list string) :=
  let languages := split "," languages_str in
  match first_unsupported languages with
  | Some language =>
      Raise (ValueError ("Invalid language code: " ++ language))
  | None => Ok languages
  end.

End Util.

(* ------------------------------------------------------------------ *)
(** ** [video_subtitles.cli] *)

Module Cli.

(** The keyword arguments of a call of [run]; [convert_to_webvtt] is
    [None] where the caller leaves it to the default. *)
Record run_args : Type := {
  ra_file : string;
  ra_deepl_api_key : option string;
  ra_out_languages : list string;
  ra_model : string;
  ra_convert_to_webvtt : option bool
}.

(** What the process does to the outside, in order. *)
Inductive event : Type :=
| EPrint (line : string)
| EStderr (line : string)
| EWarn (message : string)
| EInput (prompt : string)
| EWrite (path text : string)
| ERun (args : run_args).

(** Text files by path, and the trace so far. *)
Record state : Type := {
  fs : string -> option string;
  out : list event
}.

(** The command line, as [argparse] sees it (without [--version]). *)
Record argv : Type := {
  av_file : string;
  av_languages : option string;
  av_model : option string;
  av_api_key : option string
}.

(** [argparse.Namespace] after a successful parse. *)
Record Namespace : Type := {
  file : string;
  languages : list string;
  model : string;
  api_key : option string
}.

(** Outcomes of the calls that leave the module. *)
Record world : Type := {
  os_path_exists : string -> bool;
  query_cuda_video_cards : res (list Util.GraphicsInfo);
  ensure_transcribe_anything_installed : res unit;
  input : string -> res string;
  open_for_writing : string -> res unit;
  run : run_args -> res string
}.

Definition emit (e : event) : M state unit :=
  fun s => (Ok tt, {| fs := fs s; out := out s ++ [e] |}).

Definition print (line : string) : M state unit := emit (EPrint line).

Definition warnings_warn (message : string) : M state unit :=
  emit (EWarn message).

Section Program.

(** [HERE], [__version__] and the keys of [util.MODELS]: constants of
    the installation. *)
Variable HERE : string.
Variable version : string.
Variable MODELS : list string.
Variable w : world.

Definition API_KEY_FILE : string := path_join HERE "api_key.txt".

Definition read_utf8 (path : string) : M state string :=
  fun s => match fs s path with
           | Some text => (Ok text, s)
           | None =>
               (Raise (FileNotFoundError
                         ("[Errno 2] No such file or directory: '"
                            ++ path ++ "'")), s)
           end.

Definition write_utf8 (path text : string) : M state unit :=
  fun s => match open_for_writing w path with
           | Raise e => (Raise e, s)
           | Ok _ =>
               (Ok tt,
                {| fs := fun p => if String.eqb p path then Some text
                                   else fs s p;
                   out := out s ++ [EWrite path text] |})
           end.

Definition read_api_key : M state string :=
  (text <- read_utf8 API_KEY_FILE ;; ret (strip text))%py.

Definition write_api_key (api_key : string) : M state unit :=
  write_utf8 API_KEY_FILE api_key.

Definition parse_languages (languages_str : string) : res (list string) :=
  let languages := split "," languages_str in
  match Util.first_unsupported languages with
  | Some language =>
      Raise (ArgumentTypeError ("Invalid language code: " ++ language))
  | None => Ok languages
  end.

Definition ensure_dependencies : M state (list Util.GraphicsInfo) :=
  (cuda_cards <- lift (query_cuda_video_cards w) ;;
   match cuda_cards with
   | [] => raise (RuntimeError "No Nvidia/CUDA video cards found.")
   | _ =>
       lift (ensure_transcribe_anything_installed w) ;;;
       ret cuda_cards
   end)%py.

(** [parser.error(message)]: usage and message on stderr, exit status 2. *)
Definition parser_error {A} (message : string) : M state A :=
  (emit (EStderr message) ;;; raise (SystemExit 2))%py.

Definition parse_args (av : argv) : M state Namespace :=
  match av_languages av with
  | None =>
      parser_error "the following arguments are required: --languages"
  | Some languages_str =>
      match parse_languages languages_str with
      | Raise (ArgumentTypeError msg) =>
          parser_error ("argument --languages: " ++ msg)
      | Raise e => raise e
      | Ok langs =>
          let m := match av_model av with
                   | Some m => m
                   | None => "large"
                   end in
          if match av_model av with
             | Some m => negb (mem m MODELS)
             | None => false
             end
          then parser_error ("argument --model: invalid choice: " ++ m)
          else
            match langs with
            | [] => parser_error "You must provide at least one --languages"
            | _ =>
                ret {| file := av_file av;
                       languages := langs;
                       model := m;
                       api_key := av_api_key av |}
            end
      end
  end.

Definition validate_api_key : M state string :=
  (api_key <- read_api_key ;;
   if falsy api_key then
     emit (EInput "Enter your Transcribe Anything API key: ") ;;;
     key <- lift (input w "Enter your Transcribe Anything API key: ") ;;
     write_api_key key ;;;
     read_api_key
   else ret api_key)%py.

Definition card_line (card : Util.GraphicsInfo) : string :=
  "  [" ++ str_nat (Util.idx card) ++ "]: " ++ Util.name card ++ ", "
        ++ Util.memory_gb card ++ " GB".

Definition call_run (args : run_args) : M state string :=
  (emit (ERun args) ;;; lift (run w args))%py.

(** Lines 112-118 of [main]: the credential handed to the pipeline,
    from the flag if it is given (and not empty), else from the cache
    file. *)
Definition effective_api_key (args : Namespace) : M state (option string) :=
  (if truthy (api_key args) then
     let api_key := api_key args in
     if opt_eqb api_key "free" then ret None else ret api_key
   else
     k <- validate_api_key ;; ret (Some k))%py.

(** Lines 119-122 of [main]. *)
Definition warn_if_free (api_key : option string) : M state unit :=
  if opt_eqb api_key "free"
  then warnings_warn
         "Using free API key. Expect degraded results for large srt files"
  else ret tt.

(** The keyword arguments of the call of [run] in [main]. *)
Definition kwargs (args : Namespace) (api_key : option string) : run_args :=
  {| ra_file := file args;
     ra_deepl_api_key := api_key;
     ra_out_languages := languages args;
     ra_model := model args;
     ra_convert_to_webvtt := None |}.

(** The body of the [try] block of [main].  [Some r] is [return r]
    inside the block; [None] is falling off its end. *)
Definition main_try (av : argv) : M state (option Z) :=
  (args <- parse_args av ;;
   let file := file args in
   if negb (os_path_exists w file) then
     print ("Error - file does not exist: " ++ file) ;;;
     ret (Some 1%Z)
   else
     print ("videosubtitles version: " ++ version) ;;;
     cuda_cards <- ensure_dependencies ;;
     print "Found the following Nvidia/CUDA video cards:" ;;;
     for_each cuda_cards (fun card => print (card_line card)) ;;;
     api_key <- effective_api_key args ;;
     warn_if_free api_key ;;;
     call_run {| ra_file := file;
                 ra_deepl_api_key := api_key;
                 ra_out_languages := languages args;
                 ra_model := model args;
                 ra_convert_to_webvtt := None |} ;;;
     ret None)%py.

Definition main (av : argv) : M state Z :=
  (r <- try_except (main_try av) is_KeyboardInterrupt
          (fun _ => print "Exiting due to keyboard interrupt." ;;;
                    ret (Some 1%Z)) ;;
   match r with
   | Some code => ret code
   | None => ret 0%Z
   end)%py.

End Program.

(** [raise SystemExit(main())] under [if __name__ == "__main__"]: the exit
    status of the process.  An exception that reaches the top level other
    than [SystemExit] makes the interpreter print a traceback and exit
    with status 1 (a [KeyboardInterrupt] ends the process with the
    conventional 130). *)
Definition exit_status (r : res Z) : Z :=
  match r with
  | Ok code => code
  | Raise (SystemExit code) => code
  | Raise KeyboardInterrupt => 130
  | Raise _ => 1
  end.

(** The calls of [run] in a trace. *)
Fixpoint run_calls (tr : list event) : list run_args :=
  match tr with
  | [] => []
  | ERun a :: tr' => a :: run_calls tr'
  | _ :: tr' => run_calls tr'
  end.

Definition is_warning (e : event) : bool :=
  match e with
  | EWarn _ => true
  | _ => false
  end.

Definition warnings (tr : list event) : list event := filter is_warning tr.

(** What [main] returns or raises, given how its [try] block ended: a
    [return] inside the block, falling through to [return 0], the handler
    of [KeyboardInterrupt], or an exception the handler does not cover. *)
Definition handled (r : res (option Z)) : res Z :=
  match r with
  | Ok (Some code) => Ok code
  | Ok None => Ok 0%Z
  | Raise KeyboardInterrupt => Ok 1%Z
  | Raise e => Raise e
  end.

(** The state after [main] has printed its version line. *)
Definition greeted (version : string) (s : state) : state :=
  {| fs := fs s;
     out := out s ++ [EPrint ("videosubtitles version: " ++ version)] |}.

(** The state a process starts in: the files on disk, nothing done yet. *)
Definition initial (files : string -> option string) : state :=
  {| fs := files; out := [] |}.

End Cli.

(* ------------------------------------------------------------------ *)
(** ** [video_subtitles.gui] *)

Module Gui.

(** The four input widgets of [MainWidget], by their current text. *)
Record form : Type := {
  deepl_input : string;
  model_select : string;
  output_text : string;
  webvtt_select : string
}.

(** The values held by the settings store. *)
Record settings_values : Type := {
  s_deepl_key : string;
  s_model : string;
  s_languages : list string;
  s_subtitle_format : string
}.

(** The argument tuple of one background thread. *)
Record job : Type := {
  videofile : string;
  deepl_api_key : option string;
  languages : list string;
  model : string;
  convert_to_webvtt : bool
}.

(** What the GUI thread does to the outside, in order. *)
Inductive event : Type :=
| ESetDeeplKey (key : string)
| ESetModel (model : string)
| ESetLanguages (languages : list string)
| ESetSubtitleFormat (fmt : string)
| ESave (saved : settings_values)
| ECritical (title message : string)
| EAdd (thread : job).

(** State seen by the GUI thread: the settings object in memory, what
    [settings.save()] last wrote, the threads handed to the thread
    processor, and the trace. *)
Record state : Type := {
  settings : settings_values;
  saved : option settings_values;
  registered : list job;
  out : list event
}.

Definition emit (e : event) : M state unit :=
  fun s => (Ok tt, {| settings := settings s; saved := saved s;
                      registered := registered s;
                      out := out s ++ [e] |}).

Definition update_settings (f : settings_values -> settings_values)
  : M state unit :=
  fun s => (Ok tt, {| settings := f (settings s); saved := saved s;
                      registered := registered s; out := out s |}).

(** Modelled from the spec: the [Settings] object of
    [video_subtitles/settings.py], which is not part of the sources at
    hand.  The spec describes it as an opaque key/value store that
    persists the last-used credential, language set, model and format:
    each setter replaces one value, [save] writes the four values out. *)
Definition set_deepl_key (key : string) : M state unit :=
  (update_settings (fun v => {| s_deepl_key := key;
                                s_model := s_model v;
                                s_languages := s_languages v;
                                s_subtitle_format := s_subtitle_format v |}) ;;;
   emit (ESetDeeplKey key))%py.

(** Modelled from the spec: [Settings.set_model], as [set_deepl_key]. *)
Definition set_model (m : string) : M state unit :=
  (update_settings (fun v => {| s_deepl_key := s_deepl_key v;
                                s_model := m;
                                s_languages := s_languages v;
                                s_subtitle_format := s_subtitle_format v |}) ;;;
   emit (ESetModel m))%py.

(** Modelled from the spec: [Settings.set_languages], as [set_deepl_key]. *)
Definition set_languages (ls : list string) : M state unit :=
  (update_settings (fun v => {| s_deepl_key := s_deepl_key v;
                                s_model := s_model v;
                                s_languages := ls;
                                s_subtitle_format := s_subtitle_format v |}) ;;;
   emit (ESetLanguages ls))%py.

(** Modelled from the spec: [Settings.set_subtitle_format], as
    [set_deepl_key]. *)
Definition set_subtitle_format (fmt : string) : M state unit :=
  (update_settings (fun v => {| s_deepl_key := s_deepl_key v;
                                s_model := s_model v;
                                s_languages := s_languages v;
                                s_subtitle_format := fmt |}) ;;;
   emit (ESetSubtitleFormat fmt))%py.

(** Modelled from the spec: [Settings.save], which persists the values the
    object holds at the time of the call. *)
Definition settings_save : M state unit :=
  fun s => (Ok tt, {| settings := settings s;
                      saved := Some (settings s);
                      registered := registered s;
                      out := out s ++ [ESave (settings s)] |}).

(** [QMessageBox.critical(self, title, message)] *)
Definition QMessageBox_critical (title message : string) : M state unit :=
  emit (ECritical title message).

(** Modelled from the spec: [ThreadProcessor.add] of
    [video_subtitles/thread_processor.py], which is not part of the
    sources at hand.  The spec: submission schedules the job and returns
    at once; the thread is recorded, and runs later on its own. *)
Definition thread_processor_add (thread : job) : M state unit :=
  fun s => (Ok tt, {| settings := settings s; saved := saved s;
                      registered := registered s ++ [thread];
                      out := out s ++ [EAdd thread] |}).

(** What [dragEnterEvent] answers to a drag. *)
Inductive drag_reply : Type :=
| Accept
| Ignore.

(** [MainWidget.dragEnterEvent]: a drag is accepted as soon as its mime data
    carries URLs, of whatever scheme. *)
Definition dragEnterEvent (hasUrls : bool) : drag_reply :=
  if hasUrls then Accept else Ignore.

Section MainWidget.

(** [util.parse_languages], imported by [gui.py], and the callback given
    to the constructor. *)
Variable util_parse_languages : string -> res (list string).
Variable on_drop_callback :
  string -> option string -> list string -> string -> bool ->
  M state unit.

Definition save_settings (self : form) : M state unit :=
  (let deepl_api_key := strip (deepl_input self) in
   set_deepl_key deepl_api_key ;;;
   let model := strip (model_select self) in
   set_model model ;;;
   let languages := split "," (strip (output_text self)) in
   let languages := map strip languages in
   set_languages languages ;;;
   let subtitle_format := strip (webvtt_select self) in
   set_subtitle_format subtitle_format ;;;
   settings_save)%py.

(** [files] is [[u.toLocalFile() for u in event.mimeData().urls()]]. *)
Definition dropEvent (self : form) (files : list string) : M state unit :=
  (save_settings self ;;;
   let deepl_api_key := strip (deepl_input self) in
   let model := strip (model_select self) in
   parsed <- try_except
               (languages <- lift (util_parse_languages (output_text self)) ;;
                ret (Some languages))
               is_ValueError
               (fun ve => QMessageBox_critical "Error" (str_exn ve) ;;;
                          ret None) ;;
   match parsed with
   | None => ret tt
   | Some languages =>
       let languages := map strip languages in
       let convert_to_webvtt :=
         String.eqb (strip (webvtt_select self)) "WEBVTT" in
       for_each files
         (fun f => on_drop_callback f (Some deepl_api_key) languages
                                    model convert_to_webvtt)
   end)%py.

End MainWidget.

(** [callback] inside [run_gui], up to the creation and registration of
    the thread; the thread's target is [_generate_subtitles] below and its
    [args] are the fields of the [job]. *)
Definition callback (videofile : string) (deepl_api_key : option string)
           (languages : list string) (model : string)
           (convert_to_webvtt : bool) : M state unit :=
  let deepl_api_key :=
    if negb (truthy deepl_api_key) then None else deepl_api_key in
  let thread := {| videofile := videofile;
                   deepl_api_key := deepl_api_key;
                   languages := languages;
                   model := model;
                   convert_to_webvtt := convert_to_webvtt |} in
  thread_processor_add thread.

(** The values [save_settings] reads off the widgets. *)
Definition form_values (self : form) : settings_values :=
  {| s_deepl_key := strip (deepl_input self);
     s_model := strip (model_select self);
     s_languages := map strip (split "," (strip (output_text self)));
     s_subtitle_format := strip (webvtt_select self) |}.

(** The trace of one call of [save_settings]. *)
Definition save_trace (self : form) : list event :=
  [ESetDeeplKey (strip (deepl_input self));
   ESetModel (strip (model_select self));
   ESetLanguages (map strip (split "," (strip (output_text self))));
   ESetSubtitleFormat (strip (webvtt_select self));
   ESave (form_values self)].

(** The thread [callback] creates for file [f] when [dropEvent] calls it
    with the list [parsed] returned by the validation. *)
Definition thread_for (self : form) (parsed : list string) (f : string) : job :=
  {| videofile := f;
     deepl_api_key := if falsy (strip (deepl_input self)) then None
                      else Some (strip (deepl_input self));
     languages := map strip parsed;
     model := strip (model_select self);
     convert_to_webvtt := String.eqb (strip (webvtt_select self)) "WEBVTT" |}.

(** The threads registered by a trace. *)
Fixpoint added (tr : list event) : list job :=
  match tr with
  | [] => []
  | EAdd j :: tr' => j :: added tr'
  | _ :: tr' => added tr'
  end.

Definition initial (v : settings_values) : state :=
  {| settings := v; saved := None; registered := []; out := [] |}.

End Gui.

(* ------------------------------------------------------------------ *)
(** ** The background threads of [run_gui] *)

Module Worker.

Import Gui.

(** What the threads do to the outside, in order. *)
Inductive event : Type :=
| EChdir (path : string)
| ERun (cwd : string) (args : Cli.run_args)
| EPrint (line : string)
| ESay (text : string)
| EStartfile (path : string)
| EPopen (argv : list string).

(** What all threads of the process share: the current working directory
    and the outside.  Each event carries the index of its thread. *)
Record process : Type := {
  cwd : string;
  log : list (nat * event)
}.

(** Outcomes of the calls that leave the module.  The pipeline is handed
    a relative file name, so what it does depends on the working directory
    at the time of the call. *)
Record world : Type := {
  os_chdir : string -> res unit;
  run : string -> Cli.run_args -> res string;
  platform_system : string;
  os_startfile : string -> res unit;
  subprocess_Popen : list string -> res unit;
  say : string -> res unit
}.

Definition emit (tid : nat) (e : event) : M process unit :=
  fun s => (Ok tt, {| cwd := cwd s; log := log s ++ [(tid, e)] |}).

(** A call that leaves its event only when it returns. *)
Definition effect (tid : nat) (e : event) (r : res unit) : M process unit :=
  match r with
  | Ok _ => emit tid e
  | Raise x => raise x
  end.

Section Thread.

Variable w : world.
Variable tid : nat.

(** [os.chdir(path)]: a relative path is taken from the current working
    directory. *)
Definition chdir (path : string) : M process unit :=
  fun s => match os_chdir w path with
           | Ok _ => (Ok tt, {| cwd := path_join (cwd s) path;
                                log := log s ++ [(tid, EChdir path)] |})
           | Raise e => (Raise e, s)
           end.

Definition call_run (args : Cli.run_args) : M process string :=
  fun s => (run w (cwd s) args,
            {| cwd := cwd s; log := log s ++ [(tid, ERun (cwd s) args)] |}).

Definition print (line : string) : M process unit := emit tid (EPrint line).

Definition call_say (text : string) : M process unit :=
  effect tid (ESay text) (say w text).

Definition open_folder (path : string) : M process unit :=
  if String.eqb (platform_system w) "Windows" then
    effect tid (EStartfile path) (os_startfile w path)
  else if String.eqb (platform_system w) "Darwin" then
    effect tid (EPopen ["open"; path]) (subprocess_Popen w ["open"; path])
  else
    effect tid (EPopen ["xdg-open"; path])
           (subprocess_Popen w ["xdg-open"; path]).

Definition run_kwargs (j : job) : Cli.run_args :=
  {| Cli.ra_file := basename (videofile j);
     Cli.ra_deepl_api_key := deepl_api_key j;
     Cli.ra_out_languages := languages j;
     Cli.ra_model := model j;
     Cli.ra_convert_to_webvtt := Some (convert_to_webvtt j) |}.

Definition report_error (e : exn) : M process unit :=
  (print (str_exn e) ;;; call_say ("Error: " ++ str_exn e))%py.

Definition completion_text (j : job) : string :=
  let videofile := basename (videofile j) in
  let voicename :=
    replace "_" " " (hd EmptyString (split "." (basename videofile))) in
  let fmt := if convert_to_webvtt j then "WEBVTT" else "SRT" in
  "Attention: " ++ voicename ++ " has completed subtitle generation in "
                ++ fmt ++ " format".

Definition announce (j : job) : M process unit :=
  (print ("Generating subtitles for " ++ basename (videofile j)) ;;;
   call_say (completion_text j))%py.

(** The target of the thread, run from start to end. *)
Definition _generate_subtitles (j : job) : M process unit :=
  (chdir (dirname (videofile j)) ;;;
   r <- try_except
          (out <- call_run (run_kwargs j) ;; ret (Some out))
          is_Exception
          (fun e => report_error e ;;; ret None) ;;
   match r with
   | None => ret tt
   | Some out => open_folder out ;;; announce j
   end)%py.

(** The same body cut at its calls, for interleaving with other
    threads: where the thread stands. *)
Inductive pc : Type :=
| AtChdir
| AtRun
| AtExcept (e : exn)
| AtOpenFolder (out : string)
| AtAnnounce
| Returned
| Died (e : exn).

Definition after {A} (r : res A * process) (k : A -> pc) : pc * process :=
  match r with
  | (Ok a, s) => (k a, s)
  | (Raise e, s) => (Died e, s)
  end.

Definition step (j : job) (p : pc) (s : process) : pc * process :=
  match p with
  | AtChdir => after (chdir (dirname (videofile j)) s) (fun _ => AtRun)
  | AtRun =>
      match call_run (run_kwargs j) s with
      | (Ok out, s') => (AtOpenFolder out, s')
      | (Raise e, s') =>
          if is_Exception e then (AtExcept e, s') else (Died e, s')
      end
  | AtExcept e => after (report_error e s) (fun _ => Returned)
  | AtOpenFolder out => after (open_folder out s) (fun _ => AtAnnounce)
  | AtAnnounce => after (announce j s) (fun _ => Returned)
  | Returned => (Returned, s)
  | Died e => (Died e, s)
  end.

End Thread.

(** [n] consecutive steps of one thread. *)
Fixpoint steps (w : world) (tid : nat) (j : job) (n : nat) (p : pc)
         (s : process) : pc * process :=
  match n with
  | O => (p, s)
  | S n' => let (p', s') := step w tid j p s in steps w tid j n' p' s'
  end.

(** How the thread ended, as the outcome of its target. *)
Definition outcome (p : pc) : option (res unit) :=
  match p with
  | Returned => Some (Ok tt)
  | Died e => Some (Raise e)
  | _ => None
  end.

(** The pool: every started thread with its position. *)
Definition pool : Type := list (job * pc).

Definition start (jobs : list job) : pool :=
  map (fun j => (j, AtChdir)) jobs.

Fixpoint set_pc (ts : pool) (i : nat) (p : pc) : pool :=
  match ts, i with
  | [], _ => []
  | (j, _) :: ts', O => (j, p) :: ts'
  | t :: ts', S i' => t :: set_pc ts' i' p
  end.

(** One step of thread [i] (nothing happens if there is no such thread). *)
Definition schedule_one (w : world) (i : nat) (c : pool * process)
  : pool * process :=
  let (ts, s) := c in
  match nth_error ts i with
  | Some (j, p) =>
      let (p', s') := step w i j p s in (set_pc ts i p', s')
  | None => c
  end.

(** The threads advance in the order the scheduler picks them. *)
Fixpoint schedule (w : world) (order : list nat) (c : pool * process)
  : pool * process :=
  match order with
  | [] => c
  | i :: order' => schedule w order' (schedule_one w i c)
  end.

(** The events of one thread. *)
Definition events_of (tid : nat) (l : list (nat * event)) : list event :=
  map snd (filter (fun te => Nat.eqb (fst te) tid) l).

Definition is_say (e : event) : bool :=
  match e with
  | ESay _ => true
  | _ => false
  end.

(** The spoken notifications of one thread. *)
Definition notifications (tid : nat) (l : list (nat * event)) : list event :=
  filter is_say (events_of tid l).

(** The working directories in which the pipeline of one thread ran. *)
Fixpoint run_dirs (l : list event) : list string :=
  match l with
  | [] => []
  | ERun d _ :: l' => d :: run_dirs l'
  | _ :: l' => run_dirs l'
  end.

End Worker.

(* ------------------------------------------------------------------ *)
(** ** Concrete installations, command lines and outcomes *)

Module Scenario.

Definition HERE : string := "/opt/video_subtitles".
Definition version : string := "1.0.0".
Definition MODELS : list string := ["tiny"; "small"; "medium"; "large"].

Definition card : Util.GraphicsInfo :=
  {| Util.idx := 0; Util.name := "NVIDIA GeForce RTX 3080";
     Util.memory_gb := "10.0" |}.

(** [videosubtitles demo.mp4 --languages en,es [--api-key KEY]] *)
Definition demo (key : option string) : Cli.argv :=
  {| Cli.av_file := "demo.mp4";
     Cli.av_languages := Some "en,es";
     Cli.av_model := None;
     Cli.av_api_key := key |}.

(** [videosubtitles demo.mp4 --languages LANGS --api-key KEY] *)
Definition demo_in (langs : string) : Cli.argv :=
  {| Cli.av_file := "demo.mp4";
     Cli.av_languages := Some langs;
     Cli.av_model := None;
     Cli.av_api_key := Some "KEY" |}.

(** A machine with one card, the tool installed, [demo.mp4] in place and a
    pipeline that succeeds. *)
Definition healthy : Cli.world :=
  {| Cli.os_path_exists := fun p => String.eqb p "demo.mp4";
     Cli.query_cuda_video_cards := Ok [card];
     Cli.ensure_transcribe_anything_installed := Ok tt;
     Cli.input := fun _ => Ok "KEY";
     Cli.open_for_writing := fun _ => Ok tt;
     Cli.run := fun _ => Ok "demo" |}.

Definition no_video : Cli.world :=
  {| Cli.os_path_exists := fun _ => false;
     Cli.query_cuda_video_cards := Ok [card];
     Cli.ensure_transcribe_anything_installed := Ok tt;
     Cli.input := fun _ => Ok "KEY";
     Cli.open_for_writing := fun _ => Ok tt;
     Cli.run := fun _ => Ok "demo" |}.

Definition no_gpu : Cli.world :=
  {| Cli.os_path_exists := fun p => String.eqb p "demo.mp4";
     Cli.query_cuda_video_cards := Ok [];
     Cli.ensure_transcribe_anything_installed := Ok tt;
     Cli.input := fun _ => Ok "KEY";
     Cli.open_for_writing := fun _ => Ok tt;
     Cli.run := fun _ => Ok "demo" |}.

Definition tool_missing : Cli.world :=
  {| Cli.os_path_exists := fun p => String.eqb p "demo.mp4";
     Cli.query_cuda_video_cards := Ok [card];
     Cli.ensure_transcribe_anything_installed :=
       Raise (RuntimeError "transcribe-anything is not installed");
     Cli.input := fun _ => Ok "KEY";
     Cli.open_for_writing := fun _ => Ok tt;
     Cli.run := fun _ => Ok "demo" |}.

(** The user presses Ctrl-C while the pipeline runs. *)
Definition interrupted : Cli.world :=
  {| Cli.os_path_exists := fun p => String.eqb p "demo.mp4";
     Cli.query_cuda_video_cards := Ok [card];
     Cli.ensure_transcribe_anything_installed := Ok tt;
     Cli.input := fun _ => Ok "KEY";
     Cli.open_for_writing := fun _ => Ok tt;
     Cli.run := fun _ => Raise KeyboardInterrupt |}.

(** No text file at all, and a cache file holding [text]. *)
Definition no_files : string -> option string := fun _ => None.

Definition cached (text : string) : string -> option string :=
  fun p => if String.eqb p (Cli.API_KEY_FILE HERE) then Some text else None.

(** The window as the user left it: a key, the large model, two languages,
    SRT output. *)
Definition window : Gui.form :=
  {| Gui.deepl_input := "KEY";
     Gui.model_select := "large";
     Gui.output_text := "en,es";
     Gui.webvtt_select := "SRT" |}.

(** The same window with a code that is not supported. *)
Definition window_xx : Gui.form :=
  {| Gui.deepl_input := "KEY";
     Gui.model_select := "large";
     Gui.output_text := "en,xx";
     Gui.webvtt_select := "SRT" |}.

(** The same window with the key field left empty. *)
Definition window_no_key : Gui.form :=
  {| Gui.deepl_input := " ";
     Gui.model_select := "large";
     Gui.output_text := "en,es";
     Gui.webvtt_select := "SRT" |}.

Definition factory_settings : Gui.settings_values :=
  {| Gui.s_deepl_key := "";
     Gui.s_model := "large";
     Gui.s_languages := ["en"];
     Gui.s_subtitle_format := "WEBVTT" |}.

(** The videos on disk. *)
Definition videos : list string :=
  ["/videos/a/one.mp4"; "/videos/a/clip.mp4"; "/videos/b/clip.mp4"].

(** A Linux desktop.  [os.chdir] fails on the empty path, as it does on
    every platform.  The pipeline looks its relative file name up in the
    working directory and, as the spec lays the output out, writes into a
    directory named after the video beside it. *)
Definition desktop : Worker.world :=
  {| Worker.os_chdir := fun path =>
       if falsy path
       then Raise (FileNotFoundError "[Errno 2] No such file or directory: ''")
       else Ok tt;
     Worker.run := fun cwd args =>
       if mem (path_join cwd (Cli.ra_file args)) videos
       then Ok (path_join cwd (hd EmptyString (split "." (Cli.ra_file args))))
       else Raise (FileNotFoundError
                     ("[Errno 2] No such file or directory: '"
                        ++ Cli.ra_file args ++ "'"));
     Worker.platform_system := "Linux";
     Worker.os_startfile := fun _ => Ok tt;
     Worker.subprocess_Popen := fun _ => Ok tt;
     Worker.say := fun _ => Ok tt |}.

(** The process before any thread has run. *)
Definition at_home : Worker.process :=
  {| Worker.cwd := "/home/user"; Worker.log := [] |}.

(** The threads [callback] creates for three local files and for a dropped
    link, whose [toLocalFile()] is the empty string. *)
Definition job_one : Gui.job := Gui.thread_for window ["en"; "es"] "/videos/a/one.mp4".
Definition job_clip_a : Gui.job := Gui.thread_for window ["en"; "es"] "/videos/a/clip.mp4".
Definition job_clip_b : Gui.job := Gui.thread_for window ["en"; "es"] "/videos/b/clip.mp4".
Definition job_link : Gui.job := Gui.thread_for window ["en"; "es"] "".

End Scenario.

(* ------------------------------------------------------------------ *)
(** ** Reading a trace of the command line *)

Module Trace.

(** The prompts shown by [input]. *)
Fixpoint prompts (tr : list Cli.event) : list string :=
  match tr with
  | [] => []
  | Cli.EInput p :: tr' => p :: prompts tr'
  | _ :: tr' => prompts tr'
  end.

(** The files written, with their new text. *)
Fixpoint writes (tr : list Cli.event) : list (string * string) :=
  match tr with
  | [] => []
  | Cli.EWrite p t :: tr' => (p, t) :: writes tr'
  | _ :: tr' => writes tr'
  end.

(** What [main] prints between the existence check and the credential:
    its version, a header, and one line per card. *)
Definition card_report (version : string) (cards : list Util.GraphicsInfo)
  : list Cli.event :=
  Cli.EPrint ("videosubtitles version: " ++ version)
  :: Cli.EPrint "Found the following Nvidia/CUDA video cards:"
  :: map (fun card => Cli.EPrint (Cli.card_line card)) cards.

(** The advisory of [main]. *)
Definition advisory : Cli.event :=
  Cli.EWarn "Using free API key. Expect degraded results for large srt files".

(** What the handler of [main] prints when the exception is the
    interrupt. *)
Definition interrupt_note (e : exn) : list Cli.event :=
  match e with
  | KeyboardInterrupt => [Cli.EPrint "Exiting due to keyboard interrupt."]
  | _ => []
  end.

(** The same, after a call that returned or raised. *)
Definition interrupt_note_after {A} (r : res A) : list Cli.event :=
  match r with
  | Ok _ => []
  | Raise e => interrupt_note e
  end.

(** The warning of [main] for the credential [k]. *)
Definition advisory_for (k : option string) : list Cli.event :=
  if opt_eqb k "free" then [advisory] else [].

End Trace.

(* ------------------------------------------------------------------ *)
(** ** More machines and windows *)

Module Scenario2.

(** A machine on which the pipeline fails. *)
Definition failing : Cli.world :=
  {| Cli.os_path_exists := fun p => String.eqb p "demo.mp4";
     Cli.query_cuda_video_cards := Ok [Scenario.card];
     Cli.ensure_transcribe_anything_installed := Ok tt;
     Cli.input := fun _ => Ok "KEY";
     Cli.open_for_writing := fun _ => Ok tt;
     Cli.run := fun _ => Raise (RuntimeError "transcription failed") |}.

(** A healthy machine whose user answers the prompt with a blank line. *)
Definition silent_user : Cli.world :=
  {| Cli.os_path_exists := fun p => String.eqb p "demo.mp4";
     Cli.query_cuda_video_cards := Ok [Scenario.card];
     Cli.ensure_transcribe_anything_installed := Ok tt;
     Cli.input := fun _ => Ok " ";
     Cli.open_for_writing := fun _ => Ok tt;
     Cli.run := fun _ => Ok "demo" |}.

(** What [parse_args] returns for [Scenario.demo key]. *)
Definition demo_args (key : option string) : Cli.Namespace :=
  {| Cli.file := "demo.mp4";
     Cli.languages := ["en"; "es"];
     Cli.model := "large";
     Cli.api_key := key |}.

(** A desktop without [xdg-open]. *)
Definition no_opener : Worker.world :=
  {| Worker.os_chdir := Worker.os_chdir Scenario.desktop;
     Worker.run := Worker.run Scenario.desktop;
     Worker.platform_system := "Linux";
     Worker.os_startfile := fun _ => Ok tt;
     Worker.subprocess_Popen := fun _ =>
       Raise (FileNotFoundError "[Errno 2] No such file or directory: 'xdg-open'");
     Worker.say := fun _ => Ok tt |}.

(** The thread for a video that is not on disk. *)
Definition job_gone : Gui.job :=
  Gui.thread_for Scenario.window ["en"; "es"] "/videos/a/gone.mp4".

End Scenario2.

(* ------------------------------------------------------------------ *)
(** ** Reading what a thread did *)

Module Launch.

(** The launch [open_folder] attempts for [path] on the platform of [w]. *)
Definition event_for (w : Worker.world) (path : string) : Worker.event :=
  if String.eqb (Worker.platform_system w) "Windows" then Worker.EStartfile path
  else if String.eqb (Worker.platform_system w) "Darwin"
       then Worker.EPopen ["open"; path]
       else Worker.EPopen ["xdg-open"; path].

(** How that launch ends. *)
Definition outcome (w : Worker.world) (path : string) : res unit :=
  if String.eqb (Worker.platform_system w) "Windows" then Worker.os_startfile w path
  else if String.eqb (Worker.platform_system w) "Darwin"
       then Worker.subprocess_Popen w ["open"; path]
       else Worker.subprocess_Popen w ["xdg-open"; path].

(** The folders and files a thread asked the desktop to open. *)
Fixpoint opened (l : list Worker.event) : list Worker.event :=
  match l with
  | [] => []
  | Worker.EStartfile p :: l' => Worker.EStartfile p :: opened l'
  | Worker.EPopen a :: l' => Worker.EPopen a :: opened l'
  | _ :: l' => opened l'
  end.

(** The name spoken in the completion announcement of a job. *)
Definition voicename (j : Gui.job) : string :=
  replace "_" " "
    (hd EmptyString (split "." (basename (basename (Gui.videofile j))))).



End Launch.

(* ------------------------------------------------------------------ *)
(** ** The window and its threads in one process *)

Module App.

(** The process as a whole: what the GUI thread sees, what all threads
    share, and the threads that have been started, each with its
    position. *)
Record state : Type := {
  gui : Gui.state;
  process : Worker.process;
  started : Worker.pool
}.

(** [thread.start()]: the thread exists from now on and stands before its
    first instruction. *)
Definition Thread_start (thread : Gui.job) : M state unit :=
  fun s => (Ok tt, {| gui := gui s; process := process s;
                      started := (started s ++ [(thread, Worker.AtChdir)])%list |}).

(** [thread.join()] for the started thread number [i]: the caller waits, and
    the thread takes the steps that are left to it. *)
Definition Thread_join (w : Worker.world) (i : nat) : M state unit :=
  fun s => let (pool, p) :=
             Worker.schedule w [i; i; i; i] (started s, process s) in
           (Ok tt, {| gui := gui s; process := p; started := pool |}).

Section Callback.

(** [thread_processor.add], whatever it does. *)
Variable add : Gui.job -> M state unit.

(** [callback] inside [run_gui], with the process in view: the credential
    is normalised, the [Thread] object is built (not started), and it is
    handed to [thread_processor.add]. *)
Definition callback (videofile : string) (deepl_api_key : option string)
           (languages : list string) (model : string)
           (convert_to_webvtt : bool) : M state unit :=
  let deepl_api_key :=
    if negb (truthy deepl_api_key) then None else deepl_api_key in
  let thread := {| Gui.videofile := videofile;
                   Gui.deepl_api_key := deepl_api_key;
                   Gui.languages := languages;
                   Gui.model := model;
                   Gui.convert_to_webvtt := convert_to_webvtt |} in
  add thread.

End Callback.

(** Modelled from the spec: [ThreadProcessor.add] of
    [video_subtitles/thread_processor.py], which is not part of the
    sources at hand.  The spec: submission never blocks waiting for the
    job; it returns at once after scheduling the execution.  The thread is
    recorded, as in [Gui.thread_processor_add], and nothing else happens. *)
Definition thread_processor_add (thread : Gui.job) : M state unit :=
  fun s => let (r, g) := Gui.thread_processor_add thread (gui s) in
           (r, {| gui := g; process := process s; started := started s |}).

(** Modelled from the spec: the thread processor at work, on its own
    thread and after [add] has returned.  The spec: the coordinator spawns
    an independent execution of every submitted job.  Every recorded thread
    that has not been started is started, in the order recorded. *)
Definition thread_processor_dispatch (s : state) : state :=
  {| gui := gui s; process := process s;
     started := (started s
                 ++ Worker.start (skipn (length (started s))
                                        (Gui.registered (gui s))))%list |}.

(** A thread processor that would wait for the job, for comparison: [add]
    starts the thread and joins it. *)
Definition add_and_wait (w : Worker.world) (thread : Gui.job) : M state unit :=
  fun s => let (_, s1) := Thread_start thread s in
           Thread_join w (length (started s)) s1.

(** The process right after [run_gui] has built its window. *)
Definition initial (v : Gui.settings_values) (p : Worker.process) : state :=
  {| gui := Gui.initial v; process := p; started := [] |}.

End App.

(* ------------------------------------------------------------------ *)
(** ** Texts that a file keeps as they are *)

Module Text.

(** A character that [open(path, "w")] and [open(path, "r")] hand through
    unchanged on every platform: an ASCII character other than the carriage
    return.  (A carriage return is turned into a line feed when the file is
    read, and bytes beyond ASCII go through the UTF-8 codec.) *)
Definition plain_char (c : ascii) : bool :=
  Nat.ltb (nat_of_ascii c) 128 && negb (Ascii.eqb c "013").

(** A text of such characters only. *)
Fixpoint plain (s : string) : bool :=
  match s with
  | EmptyString => true
  | String c rest => plain_char c && plain rest
  end.

End Text.

(* ================================================================== *)
(** * Properties *)

Section TraceFacts.

Lemma run_calls_app (l1 l2 : list Cli.event) :
  Cli.run_calls (l1 ++ l2) = (Cli.run_calls l1 ++ Cli.run_calls l2)%list.
Proof.
  induction l1 as [|e l1 IH]; simpl; [reflexivity|].
  destruct e; simpl; rewrite ?IH; reflexivity.
Qed.

Lemma warnings_app (l1 l2 : list Cli.event) :
  Cli.warnings (l1 ++ l2) = (Cli.warnings l1 ++ Cli.warnings l2)%list.
Proof. unfold Cli.warnings. apply filter_app. Qed.

(** Printing the cards invokes nothing and cannot fail. *)
Lemma print_cards_spec (cards : list Util.GraphicsInfo) (s : Cli.state) :
  exists tr,
    for_each cards (fun card => Cli.print (Cli.card_line card)) s
    = (Ok tt, {| Cli.fs := Cli.fs s; Cli.out := Cli.out s ++ tr |})
    /\ Cli.run_calls tr = [] /\ Cli.warnings tr = [].
Proof.
  revert s. induction cards as [|c cards IH]; intros s; simpl.
  - exists []. rewrite app_nil_r. destruct s; auto.
  - unfold bind at 1. unfold Cli.print at 1, Cli.emit at 1.
    destruct (IH {| Cli.fs := Cli.fs s;
                    Cli.out := Cli.out s ++ [Cli.EPrint (Cli.card_line c)] |})
      as (tr & E & R & W).
    exists (Cli.EPrint (Cli.card_line c) :: tr).
    rewrite E. simpl. rewrite <- app_assoc. auto.
Qed.

End TraceFacts.

Ltac mstep :=
  unfold bind, ret, raise, lift, try_except; simpl.

Section CliFacts.

Variables (HERE version : string) (MODELS : list string) (w : Cli.world).

(** [parse_args] either returns without a trace or exits with status 2. *)
Lemma parse_args_cases (av : Cli.argv) (s : Cli.state) :
  (exists ns, Cli.parse_args MODELS av s = (Ok ns, s)
              /\ Cli.file ns = Cli.av_file av
              /\ Cli.api_key ns = Cli.av_api_key av
              /\ exists text, Cli.av_languages av = Some text
                              /\ Cli.parse_languages text = Ok (Cli.languages ns))
  \/ (exists m, Cli.parse_args MODELS av s
                = (Raise (SystemExit 2),
                   {| Cli.fs := Cli.fs s;
                      Cli.out := Cli.out s ++ [Cli.EStderr m] |})).
Proof.
  unfold Cli.parse_args, Cli.parser_error, Cli.emit.
  destruct (Cli.av_languages av) as [text|] eqn:L; [|right; eexists; reflexivity].
  destruct (Cli.parse_languages text) as [langs|e] eqn:P.
  - destruct (match Cli.av_model av with Some m => negb (mem m MODELS) | None => false end);
      [right; eexists; reflexivity|].
    destruct langs as [|l langs]; [right; eexists; reflexivity|].
    left. eexists. split; [reflexivity|]. simpl. repeat split; eauto.
  - unfold Cli.parse_languages in P.
    destruct (Util.first_unsupported _); inversion P; subst.
    right; eexists; reflexivity.
Qed.

(** Looking up the cached key invokes no pipeline and warns about nothing. *)
Lemma validate_api_key_quiet (s : Cli.state) :
  exists tr,
    Cli.out (snd (Cli.validate_api_key HERE w s)) = (Cli.out s ++ tr)%list
    /\ Cli.run_calls tr = [] /\ Cli.warnings tr = [].
Proof.
  unfold Cli.validate_api_key, Cli.read_api_key, Cli.read_utf8,
    Cli.write_api_key, Cli.write_utf8, Cli.emit.
  mstep.
  destruct (Cli.fs s (Cli.API_KEY_FILE HERE)) as [text|] eqn:F; simpl;
    [|exists []; rewrite app_nil_r; auto].
  destruct (falsy (strip text)); simpl; [|exists []; rewrite app_nil_r; auto].
  destruct (Cli.input w _) as [key|e]; simpl;
    [|eexists; split; [reflexivity|auto]].
  destruct (Cli.open_for_writing w _) as [u|e]; simpl;
    [|eexists; split; [reflexivity|auto]].
  rewrite String.eqb_refl. simpl.
  eexists. split; [rewrite <- app_assoc; reflexivity|auto].
Qed.

End CliFacts.

Section MonadFacts.

Context {S A B : Type}.

Lemma bind_ok (c : M S A) (k : A -> M S B) (s s' : S) (a : A) :
  c s = (Ok a, s') -> bind c k s = k a s'.
Proof. intros E. unfold bind. rewrite E. reflexivity. Qed.

Lemma bind_raise (c : M S A) (k : A -> M S B) (s s' : S) (e : exn) :
  c s = (Raise e, s') -> bind c k s = (Raise e, s').
Proof. intros E. unfold bind. rewrite E. reflexivity. Qed.

End MonadFacts.

Section MainFacts.

Variables (HERE version : string) (MODELS : list string) (w : Cli.world).


(** [main] is its [try] block followed by the handler and the final
    [return 0]; the handler prints one line and calls nothing. *)
Lemma main_of_try (av : Cli.argv) (s : Cli.state) :
  let t := Cli.main_try HERE version MODELS w av s in
  let r := Cli.main HERE version MODELS w av s in
  fst r = Cli.handled (fst t)
  /\ exists tr, Cli.out (snd r) = (Cli.out (snd t) ++ tr)%list
                /\ Cli.run_calls tr = [] /\ Cli.warnings tr = []
                /\ (tr = [] \/ fst t = Raise KeyboardInterrupt).
Proof.
  unfold Cli.main, try_except, bind, ret.
  destruct (Cli.main_try HERE version MODELS w av s) as [[[c|]|e] s']; simpl;
    try solve [split; [reflexivity|]; exists []; rewrite app_nil_r; auto].
  destruct e; simpl;
    try solve [split; [reflexivity|]; exists []; rewrite app_nil_r; auto].
  split; [reflexivity|]. eexists. split; [reflexivity|]. auto.
Qed.

Lemma main_try_parse_error (av : Cli.argv) (s s1 : Cli.state) (e : exn) :
  Cli.parse_args MODELS av s = (Raise e, s1) ->
  Cli.main_try HERE version MODELS w av s = (Raise e, s1).
Proof. intros E. unfold Cli.main_try, bind. rewrite E. reflexivity. Qed.

Lemma main_try_no_file (av : Cli.argv) (s : Cli.state) (ns : Cli.Namespace) :
  Cli.parse_args MODELS av s = (Ok ns, s) ->
  Cli.os_path_exists w (Cli.file ns) = false ->
  Cli.main_try HERE version MODELS w av s =
  (Ok (Some 1%Z),
   {| Cli.fs := Cli.fs s;
      Cli.out := Cli.out s
                 ++ [Cli.EPrint ("Error - file does not exist: " ++ Cli.file ns)] |}).
Proof.
  intros E X. unfold Cli.main_try, bind. rewrite E, X. reflexivity.
Qed.

Lemma main_try_preflight_error
      (av : Cli.argv) (s : Cli.state) (ns : Cli.Namespace) (e : exn) :
  Cli.parse_args MODELS av s = (Ok ns, s) ->
  Cli.os_path_exists w (Cli.file ns) = true ->
  fst (Cli.ensure_dependencies w (Cli.greeted version s)) = Raise e ->
  Cli.main_try HERE version MODELS w av s = (Raise e, Cli.greeted version s).
Proof.
  intros E X D. unfold Cli.main_try, bind at 1. rewrite E, X. cbn [negb].
  unfold bind at 1. unfold Cli.print at 1, Cli.emit at 1.
  unfold bind at 1.
  revert D. unfold Cli.ensure_dependencies, bind, lift, raise, ret.
  destruct (Cli.query_cuda_video_cards w) as [[|c cs]|e0]; simpl.
  - intros [= <-]. reflexivity.
  - destruct (Cli.ensure_transcribe_anything_installed w); simpl; [discriminate|].
    intros [= <-]. reflexivity.
  - intros [= <-]. reflexivity.
Qed.

(** Past the preflight, [main] resolves the credential, warns if it is
    ["free"], and calls [run]; nothing before that point calls [run] or
    warns. *)
Lemma main_try_after_preflight
      (av : Cli.argv) (s : Cli.state) (ns : Cli.Namespace)
      (cards : list Util.GraphicsInfo) :
  Cli.parse_args MODELS av s = (Ok ns, s) ->
  Cli.os_path_exists w (Cli.file ns) = true ->
  fst (Cli.ensure_dependencies w (Cli.greeted version s)) = Ok cards ->
  exists tr,
    Cli.run_calls tr = [] /\ Cli.warnings tr = [] /\
    Cli.main_try HERE version MODELS w av s =
    match Cli.effective_api_key HERE w ns
            {| Cli.fs := Cli.fs s; Cli.out := Cli.out s ++ tr |} with
    | (Raise e, s2) => (Raise e, s2)
    | (Ok k, s2) =>
        (match Cli.run w (Cli.kwargs ns k) with
         | Ok _ => Ok None
         | Raise e => Raise e
         end,
         {| Cli.fs := Cli.fs s2;
            Cli.out := Cli.out s2
                       ++ (if opt_eqb k "free"
                           then [Cli.EWarn "Using free API key. Expect degraded results for large srt files"]
                           else [])
                       ++ [Cli.ERun (Cli.kwargs ns k)] |})
    end.
Proof.
  intros E X D.
  destruct (print_cards_spec cards
              {| Cli.fs := Cli.fs s;
                 Cli.out := (Cli.out s ++ [Cli.EPrint ("videosubtitles version: " ++ version)])
                            ++ [Cli.EPrint "Found the following Nvidia/CUDA video cards:"] |})
    as (tr & P & R & W).
  exists ([Cli.EPrint ("videosubtitles version: " ++ version);
           Cli.EPrint "Found the following Nvidia/CUDA video cards:"] ++ tr)%list.
  split; [exact R|]. split; [exact W|].
  assert (Cli.ensure_dependencies w (Cli.greeted version s)
          = (Ok cards, Cli.greeted version s)) as D'.
  { revert D. unfold Cli.ensure_dependencies, bind, lift, raise, ret.
    destruct (Cli.query_cuda_video_cards w) as [[|c cs]|e0]; simpl; try discriminate.
    destruct (Cli.ensure_transcribe_anything_installed w); simpl; try discriminate.
    intros [= <-]. reflexivity. }
  unfold Cli.main_try.
  rewrite (bind_ok _ _ _ _ _ E). cbv beta zeta. rewrite X. cbn [negb].
  erewrite (bind_ok (Cli.print _)) by reflexivity. cbv beta.
  fold (Cli.greeted version s).
  rewrite (bind_ok _ _ _ _ _ D'). cbv beta.
  erewrite (bind_ok (Cli.print _)) by reflexivity. cbv beta.
  unfold Cli.greeted. cbn [Cli.fs Cli.out]. rewrite (bind_ok _ _ _ _ _ P). cbv beta.
  cbn [Cli.fs Cli.out]. rewrite <- !app_assoc. cbn [app].
  unfold bind at 1.
  destruct (Cli.effective_api_key HERE w ns _) as [[k|e] s2]; [|reflexivity].
  unfold Cli.warn_if_free, Cli.warnings_warn, Cli.call_run, Cli.emit, bind, ret, lift.
  fold (Cli.kwargs ns k).
  destruct (opt_eqb k "free"); cbn [Cli.fs Cli.out app];
    destruct (Cli.run w (Cli.kwargs ns k)); rewrite <- ?app_assoc; reflexivity.
Qed.

(** Resolving the credential calls no pipeline and warns about nothing. *)
Lemma effective_api_key_quiet (ns : Cli.Namespace) (s : Cli.state) :
  exists tr,
    Cli.out (snd (Cli.effective_api_key HERE w ns s)) = (Cli.out s ++ tr)%list
    /\ Cli.run_calls tr = [] /\ Cli.warnings tr = [].
Proof.
  unfold Cli.effective_api_key.
  destruct (truthy (Cli.api_key ns)).
  - exists []. rewrite app_nil_r.
    destruct (opt_eqb (Cli.api_key ns) "free"); auto.
  - destruct (validate_api_key_quiet HERE w s) as (tr & E & R & W).
    exists tr. unfold bind, ret.
    destruct (Cli.validate_api_key HERE w s) as [[k|e] s']; auto.
Qed.

End MainFacts.


(* ------------------------------------------------------------------ *)
(** ** The exit contract of the command-line front end *)

Section ExitContract.

Variables (HERE version : string) (MODELS : list string) (w : Cli.world).
Variables (av : Cli.argv) (files : string -> option string).

(** Every way the [try] block of [main] can end, started with nothing done
    yet: the command line is refused; the input file is missing; the
    preflight raises; the credential lookup raises; or [run] is called,
    exactly once, as the last thing. *)
Lemma main_try_cases :
  let s0 := Cli.initial files in
  let t := Cli.main_try HERE version MODELS w av s0 in
  (fst (Cli.parse_args MODELS av s0) = Raise (SystemExit 2)
   /\ fst t = Raise (SystemExit 2)
   /\ Cli.run_calls (Cli.out (snd t)) = [] /\ Cli.warnings (Cli.out (snd t)) = [])
  \/ exists ns,
      Cli.parse_args MODELS av s0 = (Ok ns, s0) /\
      ((Cli.os_path_exists w (Cli.file ns) = false
        /\ fst t = Ok (Some 1%Z)
        /\ Cli.out (snd t)
           = [Cli.EPrint ("Error - file does not exist: " ++ Cli.file ns)])
       \/ (Cli.os_path_exists w (Cli.file ns) = true /\
           ((exists e,
                fst (Cli.ensure_dependencies w (Cli.greeted version s0)) = Raise e
                /\ fst t = Raise e
                /\ Cli.run_calls (Cli.out (snd t)) = []
                /\ Cli.warnings (Cli.out (snd t)) = [])
            \/ (exists cards,
                   fst (Cli.ensure_dependencies w (Cli.greeted version s0)) = Ok cards /\
                   exists s1,
                     Cli.fs s1 = files /\
                     Cli.run_calls (Cli.out s1) = [] /\
                     Cli.warnings (Cli.out s1) = [] /\
                     match Cli.effective_api_key HERE w ns s1 with
                     | (Raise e, _) =>
                         fst t = Raise e
                         /\ Cli.run_calls (Cli.out (snd t)) = []
                         /\ Cli.warnings (Cli.out (snd t)) = []
                     | (Ok k, _) =>
                         fst t = match Cli.run w (Cli.kwargs ns k) with
                                 | Ok _ => Ok None
                                 | Raise e => Raise e
                                 end
                         /\ Cli.run_calls (Cli.out (snd t)) = [Cli.kwargs ns k]
                         /\ Cli.warnings (Cli.out (snd t))
                            = if opt_eqb k "free"
                              then [Cli.EWarn "Using free API key. Expect degraded results for large srt files"]
                              else []
                     end)))).
Proof.
  intros s0 t. subst t.
  destruct (parse_args_cases MODELS av s0) as [(ns & E & _)|(m & E)].
  2:{ left. rewrite (main_try_parse_error _ _ _ _ _ _ _ _ E), E. simpl. auto. }
  right. exists ns. split; [exact E|].
  destruct (Cli.os_path_exists w (Cli.file ns)) eqn:X.
  2:{ left. rewrite (main_try_no_file _ _ _ _ _ _ _ E X). simpl. auto. }
  right. split; [reflexivity|].
  destruct (fst (Cli.ensure_dependencies w (Cli.greeted version s0))) as [cards|e] eqn:D.
  2:{ left. exists e.
      rewrite (main_try_preflight_error HERE version MODELS w av s0 ns e E X D).
      simpl. auto. }
  right. exists cards. split; [reflexivity|].
  destruct (main_try_after_preflight HERE version MODELS w av s0 ns cards E X D)
    as (tr & R & W & T).
  exists {| Cli.fs := Cli.fs s0; Cli.out := Cli.out s0 ++ tr |}.
  simpl. repeat split; auto.
  rewrite T. clear T.
  destruct (effective_api_key_quiet HERE w ns
              {| Cli.fs := Cli.fs s0; Cli.out := Cli.out s0 ++ tr |})
    as (tr2 & O & R2 & W2).
  simpl in O.
  destruct (Cli.effective_api_key HERE w ns _) as [[k|e] s2]; simpl in *.
  - rewrite O, !run_calls_app, !warnings_app, R, R2, W, W2. simpl.
    repeat split.
    + destruct (opt_eqb k "free"); reflexivity.
    + destruct (opt_eqb k "free"); reflexivity.
  - rewrite O, !run_calls_app, !warnings_app, R, R2, W, W2. auto.
Qed.

(** The calls of [run] made by [main] are those of its [try] block. *)
Lemma main_run_calls :
  let s0 := Cli.initial files in
  Cli.run_calls (Cli.out (snd (Cli.main HERE version MODELS w av s0)))
  = Cli.run_calls (Cli.out (snd (Cli.main_try HERE version MODELS w av s0))).
Proof.
  intros s0.
  destruct (main_of_try HERE version MODELS w av s0) as (_ & tr & O & R & _).
  rewrite O, run_calls_app, R, app_nil_r. reflexivity.
Qed.

(** C1.  [main], started with nothing done yet:
    - returns 0 exactly when the pipeline was invoked (once) and returned;
    - returns 1, having printed the error and invoked no pipeline, when the
      command line parses and the input file does not exist;
    - ends with exit status 1, having invoked no pipeline, when the preflight
      fails: no CUDA card is found ([RuntimeError]), or the check for the
      transcription tool raises anything but [SystemExit];
    - returns 1 when the [try] block is interrupted by [KeyboardInterrupt],
      in particular when the interrupt arrives during the pipeline. *)
Theorem C1_main_exit_contract :
  let s0 := Cli.initial files in
  let r := Cli.main HERE version MODELS w av s0 in
  (fst r = Ok 0%Z <->
   exists args d, Cli.run_calls (Cli.out (snd r)) = [args]
                  /\ Cli.run w args = Ok d)
  /\ (forall ns,
        Cli.parse_args MODELS av s0 = (Ok ns, s0) ->
        Cli.os_path_exists w (Cli.file ns) = false ->
        fst r = Ok 1%Z
        /\ Cli.out (snd r)
           = [Cli.EPrint ("Error - file does not exist: " ++ Cli.file ns)])
  /\ (forall ns,
        Cli.parse_args MODELS av s0 = (Ok ns, s0) ->
        Cli.os_path_exists w (Cli.file ns) = true ->
        (Cli.query_cuda_video_cards w = Ok [] ->
         fst r = Raise (RuntimeError "No Nvidia/CUDA video cards found.")
         /\ Cli.exit_status (fst r) = 1%Z
         /\ Cli.run_calls (Cli.out (snd r)) = [])
        /\ (forall c cs e,
              Cli.query_cuda_video_cards w = Ok (c :: cs) ->
              Cli.ensure_transcribe_anything_installed w = Raise e ->
              (forall code, e <> SystemExit code) ->
              Cli.exit_status (fst r) = 1%Z
              /\ Cli.run_calls (Cli.out (snd r)) = []))
  /\ (fst (Cli.main_try HERE version MODELS w av s0) = Raise KeyboardInterrupt ->
      fst r = Ok 1%Z)
  /\ (forall args,
        Cli.run_calls (Cli.out (snd r)) = [args] ->
        Cli.run w args = Raise KeyboardInterrupt ->
        fst r = Ok 1%Z).
Proof.
  intros s0 r. subst r s0.
  destruct (main_of_try HERE version MODELS w av (Cli.initial files))
    as (Hr & tr & O & _ & _ & Htr).
  cbv zeta in Hr. rewrite Hr.
  pose proof main_run_calls as RC. cbv zeta in RC. rewrite RC. clear RC.
  pose proof main_try_cases as C. cbv zeta in C.
  split; [|split; [|split; [|split]]].
  - (* return 0 *)
    destruct C as [(_ & T & R & _)|(ns & E & [(X & T & Ot)|(X & [(e & D & T & R & _)|(cards & D & s1 & _ & _ & _ & K)])])].
    + rewrite T, R. simpl. split; [discriminate|]. intros (a & d & H & _). discriminate.
    + rewrite T, Ot. simpl. split; [discriminate|]. intros (a & d & H & _). discriminate.
    + rewrite T, R. split.
      * destruct e; discriminate.
      * intros (a & d & H & _). discriminate.
    + destruct (Cli.effective_api_key HERE w ns s1) as [[k|e] s2].
      * destruct K as (T & R & _). rewrite T, R.
        destruct (Cli.run w (Cli.kwargs ns k)) as [d|e] eqn:Rn; simpl.
        -- split; [|reflexivity]. intros _. exists (Cli.kwargs ns k), d. auto.
        -- split.
           ++ destruct e; discriminate.
           ++ intros (a & d & [= <-] & Hd). congruence.
      * destruct K as (T & R & _). rewrite T, R. split.
        -- destruct e; discriminate.
        -- intros (a & d & H & _). discriminate.
  - (* missing input file *)
    intros ns E X.
    destruct C as [(P & _)|(ns' & E' & [(X' & T & Ot)|(X' & _)])].
    + rewrite E in P. discriminate.
    + rewrite E in E'. injection E' as <-. rewrite T. split; [reflexivity|].
      rewrite O, Ot. destruct Htr as [->|Hk]; [reflexivity|].
      rewrite T in Hk. discriminate.
    + rewrite E in E'. injection E' as <-. congruence.
  - (* preflight *)
    intros ns E X.
    destruct C as [(P & _)|(ns' & E' & [(X' & _)|(X' & [(e & D & T & R & _)|(cards & D & _)])])].
    + rewrite E in P. discriminate.
    + rewrite E in E'. injection E' as <-. congruence.
    + rewrite T, R. clear E' X'.
      revert D. unfold Cli.ensure_dependencies, bind, lift, raise, ret.
      destruct (Cli.query_cuda_video_cards w) as [[|c cs]|e0]; simpl.
      * intros [= <-]. split; [auto|]. intros; discriminate.
      * destruct (Cli.ensure_transcribe_anything_installed w) as [u|e1]; simpl;
          [discriminate|].
        intros [= <-]. split; [discriminate|].
        intros c' cs' e' _ [= <-] NE. split; [|reflexivity].
        destruct e1; try reflexivity. exfalso. eapply NE. reflexivity.
      * intros _. split; [discriminate|]. intros; discriminate.
    + revert D. unfold Cli.ensure_dependencies, bind, lift, raise, ret.
      destruct (Cli.query_cuda_video_cards w) as [[|c cs]|e0]; simpl;
        try discriminate.
      destruct (Cli.ensure_transcribe_anything_installed w) as [u|e1]; simpl;
        try discriminate.
      intros _. split; [discriminate|]. intros; discriminate.
  - (* interrupted block *)
    intros ->. reflexivity.
  - (* interrupted pipeline *)
    intros args Hc Hk.
    destruct C as [(_ & T & R & _)|(ns & E & [(X & T & Ot)|(X & [(e & D & T & R & _)|(cards & D & s1 & _ & _ & _ & K)])])].
    + rewrite R in Hc. discriminate.
    + rewrite Ot in Hc. discriminate.
    + rewrite R in Hc. discriminate.
    + destruct (Cli.effective_api_key HERE w ns s1) as [[k|e] s2];
        destruct K as (T & R & _); rewrite R in Hc; [|discriminate].
      injection Hc as <-. rewrite T, Hk. reflexivity.
Qed.

End ExitContract.

(** The exit contract on five concrete invocations of
    [videosubtitles demo.mp4 --languages en,es --api-key KEY]. *)
Lemma C1_main_exit_contract_witness :
  let run_main w :=
    fst (Cli.main Scenario.HERE Scenario.version Scenario.MODELS w
                  (Scenario.demo (Some "KEY")) (Cli.initial Scenario.no_files)) in
  run_main Scenario.healthy = Ok 0%Z
  /\ run_main Scenario.no_video = Ok 1%Z
  /\ Cli.exit_status (run_main Scenario.no_gpu) = 1%Z
  /\ Cli.exit_status (run_main Scenario.tool_missing) = 1%Z
  /\ run_main Scenario.interrupted = Ok 1%Z.
Proof.
  cbv zeta. split; [|split; [|split; [|split]]].
  - pose proof (C1_main_exit_contract Scenario.HERE Scenario.version
                  Scenario.MODELS Scenario.healthy (Scenario.demo (Some "KEY"))
                  Scenario.no_files) as H.
    cbv zeta in H. destruct H as (H & _). apply H.
    eexists. exists "demo". vm_compute. split; reflexivity.
  - pose proof (C1_main_exit_contract Scenario.HERE Scenario.version
                  Scenario.MODELS Scenario.no_video (Scenario.demo (Some "KEY"))
                  Scenario.no_files) as H.
    cbv zeta in H. destruct H as (_ & H & _).
    eapply H; [vm_compute; reflexivity | reflexivity].
  - pose proof (C1_main_exit_contract Scenario.HERE Scenario.version
                  Scenario.MODELS Scenario.no_gpu (Scenario.demo (Some "KEY"))
                  Scenario.no_files) as H.
    cbv zeta in H. destruct H as (_ & _ & H & _).
    edestruct H as [H1 _]; [vm_compute; reflexivity | reflexivity |].
    destruct H1 as (_ & H1 & _); [reflexivity | exact H1].
  - pose proof (C1_main_exit_contract Scenario.HERE Scenario.version
                  Scenario.MODELS Scenario.tool_missing (Scenario.demo (Some "KEY"))
                  Scenario.no_files) as H.
    cbv zeta in H. destruct H as (_ & _ & H & _).
    edestruct H as [_ H2]; [vm_compute; reflexivity | reflexivity |].
    edestruct H2 as [H3 _]; [reflexivity | reflexivity | discriminate |].
    exact H3.
  - pose proof (C1_main_exit_contract Scenario.HERE Scenario.version
                  Scenario.MODELS Scenario.interrupted (Scenario.demo (Some "KEY"))
                  Scenario.no_files) as H.
    cbv zeta in H. destruct H as (_ & _ & _ & _ & H).
    eapply H; [vm_compute; reflexivity | reflexivity].
Defined.

(* ------------------------------------------------------------------ *)
(** ** Validation of the requested languages *)

Section Languages.

Lemma split_nonempty (sep : ascii) (s : string) : split sep s <> [].
Proof.
  destruct s as [|c s]; simpl; [discriminate|].
  destruct (Ascii.eqb c sep); [discriminate|].
  destruct (split sep s); discriminate.
Qed.

(** A string without the separator is one field. *)
Lemma split_one (sep : ascii) (x : string) :
  contains sep x = false -> split sep x = [x].
Proof.
  induction x as [|c x IH]; simpl; [reflexivity|].
  intros H. apply orb_false_elim in H as [Hc Hx].
  rewrite Hc, (IH Hx). reflexivity.
Qed.

(** Splitting after a first field and a separator. *)
Lemma split_field (sep : ascii) (x rest : string) :
  contains sep x = false ->
  split sep (x ++ String sep rest) = x :: split sep rest.
Proof.
  induction x as [|c x IH]; simpl.
  - intros _. rewrite Ascii.eqb_refl. reflexivity.
  - intros H. apply orb_false_elim in H as [Hc Hx].
    rewrite Hc, (IH Hx). reflexivity.
Qed.

(** [",".join(L).split(",") == L] for a non-empty list of fields. *)
Lemma split_join (sep : ascii) (L : list string) :
  L <> [] ->
  Forall (fun x => contains sep x = false) L ->
  split sep (join (String sep EmptyString) L) = L.
Proof.
  induction L as [|x L IH]; [congruence|].
  intros _ HF. inversion HF as [|? ? Hx HL]; subst.
  destruct L as [|y L].
  - simpl. apply split_one. exact Hx.
  - change (join (String sep EmptyString) (x :: y :: L))
      with (x ++ String sep (join (String sep EmptyString) (y :: L))).
    rewrite split_field by exact Hx.
    rewrite IH; [reflexivity|discriminate|exact HL].
Qed.

Lemma supported_no_comma (l : string) :
  Util.supported l = true -> contains "," l = false.
Proof.
  unfold Util.supported, mem, Util.LANGUAGE_CODES. simpl.
  rewrite !orb_true_iff.
  intros H.
  repeat (destruct H as [H|H]; [apply String.eqb_eq in H; subst; reflexivity|]).
  discriminate.
Qed.

(** The loop finds nothing exactly when every code is supported. *)
Lemma first_unsupported_none (L : list string) :
  Util.first_unsupported L = None <-> Forall (fun l => Util.supported l = true) L.
Proof.
  induction L as [|l L IH]; simpl.
  - split; auto.
  - destruct (Util.supported l) eqn:S; simpl.
    + rewrite IH. split; [auto|]. intros H; inversion H; auto.
    + split; [discriminate|]. intros H; inversion H; congruence.
Qed.

(** What the loop finds is in the list and is not supported. *)
Lemma first_unsupported_some (L : list string) (l : string) :
  Util.first_unsupported L = Some l -> In l L /\ Util.supported l = false.
Proof.
  induction L as [|x L IH]; simpl; [discriminate|].
  destruct (Util.supported x) eqn:S; simpl.
  - intros H. destruct (IH H). auto.
  - intros [= <-]. auto.
Qed.

Lemma first_unsupported_exists (L : list string) (l : string) :
  In l L -> Util.supported l = false ->
  exists l', Util.first_unsupported L = Some l'.
Proof.
  intros HI HS.
  destruct (Util.first_unsupported L) as [l'|] eqn:F; [eauto|].
  apply first_unsupported_none in F. rewrite Forall_forall in F.
  specialize (F l HI). congruence.
Qed.

End Languages.

(* ------------------------------------------------------------------ *)
(** ** The drop handler *)

Section DropFacts.

Lemma added_app (l1 l2 : list Gui.event) :
  Gui.added (l1 ++ l2) = (Gui.added l1 ++ Gui.added l2)%list.
Proof.
  induction l1 as [|e l1 IH]; simpl; [reflexivity|].
  destruct e; simpl; rewrite ?IH; reflexivity.
Qed.

Lemma added_map_EAdd (js : list Gui.job) :
  Gui.added (map Gui.EAdd js) = js.
Proof. induction js as [|j js IH]; simpl; [|rewrite IH]; reflexivity. Qed.

Lemma save_settings_spec (self : Gui.form) (s : Gui.state) :
  Gui.save_settings self s =
  (Ok tt, {| Gui.settings := Gui.form_values self;
             Gui.saved := Some (Gui.form_values self);
             Gui.registered := Gui.registered s;
             Gui.out := Gui.out s ++ Gui.save_trace self |}).
Proof.
  unfold Gui.save_settings, Gui.set_deepl_key, Gui.set_model, Gui.set_languages,
    Gui.set_subtitle_format, Gui.settings_save, Gui.update_settings, Gui.emit,
    bind, Gui.save_trace, Gui.form_values.
  cbn. rewrite <- !app_assoc. reflexivity.
Qed.

(** What [callback] does with the arguments [dropEvent] gives it. *)
Lemma callback_spec (self : Gui.form) (parsed : list string) (f : string)
      (s : Gui.state) :
  Gui.callback f (Some (strip (Gui.deepl_input self)))
    (map strip parsed) (strip (Gui.model_select self))
    (String.eqb (strip (Gui.webvtt_select self)) "WEBVTT") s
  = (Ok tt,
     {| Gui.settings := Gui.settings s;
        Gui.saved := Gui.saved s;
        Gui.registered := Gui.registered s ++ [Gui.thread_for self parsed f];
        Gui.out := Gui.out s ++ [Gui.EAdd (Gui.thread_for self parsed f)] |}).
Proof.
  unfold Gui.callback, Gui.thread_processor_add, Gui.thread_for, truthy.
  destruct (falsy (strip (Gui.deepl_input self))); reflexivity.
Qed.

(** The loop over the dropped files, with [callback] as the callback. *)
Lemma drop_loop_spec (self : Gui.form) (parsed files : list string) (s : Gui.state) :
  for_each files
    (fun f => Gui.callback f (Some (strip (Gui.deepl_input self)))
                (map strip parsed) (strip (Gui.model_select self))
                (String.eqb (strip (Gui.webvtt_select self)) "WEBVTT")) s
  = (Ok tt,
     {| Gui.settings := Gui.settings s;
        Gui.saved := Gui.saved s;
        Gui.registered :=
          Gui.registered s ++ map (Gui.thread_for self parsed) files;
        Gui.out :=
          Gui.out s ++ map Gui.EAdd (map (Gui.thread_for self parsed) files) |}).
Proof.
  revert s. induction files as [|f files IH]; intros s.
  - simpl. rewrite !app_nil_r. destruct s; reflexivity.
  - cbn [for_each]. unfold bind. rewrite callback_spec, IH.
    cbn [Gui.settings Gui.saved Gui.registered Gui.out map].
    rewrite <- !app_assoc. reflexivity.
Qed.

(** [dropEvent] with [callback] as its callback, in full: the settings are
    saved; then the language text either parses and one thread per file is
    registered, or is refused with a [ValueError] and a message box is
    shown, or the validation raises something else, which leaves the
    handler. *)
Lemma dropEvent_spec (parse : string -> res (list string))
      (self : Gui.form) (files : list string) (s : Gui.state) :
  Gui.dropEvent parse Gui.callback self files s =
  match parse (Gui.output_text self) with
  | Ok parsed =>
      (Ok tt,
       {| Gui.settings := Gui.form_values self;
          Gui.saved := Some (Gui.form_values self);
          Gui.registered :=
            Gui.registered s ++ map (Gui.thread_for self parsed) files;
          Gui.out :=
            Gui.out s ++ Gui.save_trace self
            ++ map Gui.EAdd (map (Gui.thread_for self parsed) files) |})
  | Raise e =>
      if is_ValueError e then
        (Ok tt,
         {| Gui.settings := Gui.form_values self;
            Gui.saved := Some (Gui.form_values self);
            Gui.registered := Gui.registered s;
            Gui.out :=
              Gui.out s ++ Gui.save_trace self
              ++ [Gui.ECritical "Error" (str_exn e)] |})
      else
        (Raise e,
         {| Gui.settings := Gui.form_values self;
            Gui.saved := Some (Gui.form_values self);
            Gui.registered := Gui.registered s;
            Gui.out := Gui.out s ++ Gui.save_trace self |})
  end.
Proof.
  unfold Gui.dropEvent.
  rewrite (bind_ok _ _ _ _ _ (save_settings_spec self s)). cbv beta zeta.
  unfold bind at 1, try_except, bind at 1, lift, ret.
  destruct (parse (Gui.output_text self)) as [parsed|e].
  - rewrite drop_loop_spec. cbn [Gui.settings Gui.saved Gui.registered Gui.out].
    rewrite <- app_assoc. reflexivity.
  - destruct (is_ValueError e); [|reflexivity].
    unfold Gui.QMessageBox_critical, Gui.emit, bind, ret.
    cbn [Gui.settings Gui.saved Gui.registered Gui.out].
    rewrite <- app_assoc. reflexivity.
Qed.

End DropFacts.

(* ------------------------------------------------------------------ *)
(** ** Rejection and acceptance of the language list, at both front ends *)

(** A request refused by [cli.parse_languages] never reaches the pipeline:
    [argparse] turns the refusal into exit status 2. *)
Lemma main_rejects (HERE version : string) (MODELS : list string)
      (w : Cli.world) (av : Cli.argv) (files : string -> option string) :
  fst (Cli.parse_args MODELS av (Cli.initial files)) = Raise (SystemExit 2) ->
  let r := Cli.main HERE version MODELS w av (Cli.initial files) in
  fst r = Raise (SystemExit 2) /\ Cli.run_calls (Cli.out (snd r)) = [].
Proof.
  intros P r. subst r.
  destruct (Cli.parse_args MODELS av (Cli.initial files)) as [p s1] eqn:E.
  simpl in P. subst p.
  destruct (main_of_try HERE version MODELS w av (Cli.initial files))
    as (Hr & tr & O & R & _).
  rewrite (main_try_parse_error _ _ _ _ _ _ _ _ E) in Hr, O.
  cbv zeta in Hr. simpl in Hr, O. split; [exact Hr|].
  rewrite O, run_calls_app, R, app_nil_r.
  destruct (parse_args_cases MODELS av (Cli.initial files)) as [(ns & E' & _)|(m & E')];
    rewrite E in E'; [discriminate|].
  injection E' as ->. reflexivity.
Qed.

(** C2.  A language text is refused, by either front end, as soon as one of
    its comma-separated codes is outside the supported set (the empty text
    has the one code [""], which is outside): the command line ends with
    exit status 2 without a call of [run], and the drop handler shows an
    error box and registers no thread, whatever was dropped.  Every
    non-empty list of supported codes, written with commas, is accepted as
    that list by both.  Whatever validation the drop handler is given, a
    text it refuses registers no thread. *)
Theorem C2_language_validation :
  (forall text l,
      In l (split "," text) -> Util.supported l = false ->
      (exists msg, Cli.parse_languages text = Raise (ArgumentTypeError msg))
      /\ (forall HERE version MODELS w av files,
             Cli.av_languages av = Some text ->
             let r := Cli.main HERE version MODELS w av (Cli.initial files) in
             fst r = Raise (SystemExit 2)
             /\ Cli.run_calls (Cli.out (snd r)) = [])
      /\ (forall self files s,
             Gui.output_text self = text ->
             let r := Gui.dropEvent Util.parse_languages Gui.callback
                                    self files s in
             fst r = Ok tt
             /\ Gui.registered (snd r) = Gui.registered s
             /\ exists msg,
                 Gui.out (snd r)
                 = (Gui.out s ++ Gui.save_trace self
                            ++ [Gui.ECritical "Error" msg])%list))
  /\ (forall parse self files s e,
         parse (Gui.output_text self) = Raise e ->
         Gui.registered (snd (Gui.dropEvent parse Gui.callback self files s))
         = Gui.registered s)
  /\ (In EmptyString (split "," EmptyString)
      /\ Util.supported EmptyString = false)
  /\ (forall L,
         L <> [] -> Forall (fun l => Util.supported l = true) L ->
         Cli.parse_languages (join "," L) = Ok L
         /\ Util.parse_languages (join "," L) = Ok L
         /\ (forall MODELS av s,
                Cli.av_languages av = Some (join "," L) ->
                Cli.av_model av = None ->
                exists ns, Cli.parse_args MODELS av s = (Ok ns, s)
                           /\ Cli.languages ns = L)
         /\ (forall self files s,
                Gui.output_text self = join "," L ->
                Gui.registered
                  (snd (Gui.dropEvent Util.parse_languages Gui.callback
                                      self files s))
                = (Gui.registered s ++ map (Gui.thread_for self L) files)%list)).
Proof.
  split; [|split; [|split]].
  - intros text l HI HS.
    destruct (first_unsupported_exists _ _ HI HS) as (l' & F).
    assert (PC : Cli.parse_languages text
                 = Raise (ArgumentTypeError ("Invalid language code: " ++ l'))).
    { unfold Cli.parse_languages. rewrite F. reflexivity. }
    split; [eauto|]. split.
    + intros HERE version MODELS w av files Hav.
      apply main_rejects.
      unfold Cli.parse_args. rewrite Hav, PC. reflexivity.
    + intros self files s Htext r. subst r.
      rewrite dropEvent_spec, Htext.
      unfold Util.parse_languages. rewrite F. simpl. eauto.
  - intros parse self files s e He.
    rewrite dropEvent_spec, He. destruct (is_ValueError e); reflexivity.
  - split; [left|]; reflexivity.
  - intros L HN HF.
    assert (SJ : split "," (join "," L) = L).
    { apply split_join; [exact HN|].
      eapply Forall_impl; [|exact HF]. apply supported_no_comma. }
    assert (FU : Util.first_unsupported L = None)
      by (apply first_unsupported_none; exact HF).
    assert (PC : Cli.parse_languages (join "," L) = Ok L).
    { unfold Cli.parse_languages. rewrite SJ, FU. reflexivity. }
    assert (PU : Util.parse_languages (join "," L) = Ok L).
    { unfold Util.parse_languages. rewrite SJ, FU. reflexivity. }
    split; [exact PC|]. split; [exact PU|]. split.
    + intros MODELS av s Hav Hm.
      unfold Cli.parse_args. rewrite Hav, PC, Hm.
      destruct L as [|l L]; [congruence|].
      eexists. split; reflexivity.
    + intros self files s Htext.
      rewrite dropEvent_spec, Htext, PU. reflexivity.
Qed.

(** The scenarios of the spec: [en,xx] is refused and [en,es] is accepted,
    at the command line and at the drop surface. *)
Lemma C2_language_validation_witness :
  fst (Cli.main Scenario.HERE Scenario.version Scenario.MODELS Scenario.healthy
                (Scenario.demo_in "en,xx") (Cli.initial Scenario.no_files))
  = Raise (SystemExit 2)
  /\ Cli.parse_languages (join "," ["en"; "es"]) = Ok ["en"; "es"]
  /\ Util.parse_languages (join "," ["en"; "es"]) = Ok ["en"; "es"].
Proof.
  destruct C2_language_validation as (Hrej & _ & _ & Hacc).
  split.
  - destruct (Hrej "en,xx" "xx") as (_ & Hcli & _);
      [ right; left; reflexivity | reflexivity | ].
    apply (Hcli Scenario.HERE Scenario.version Scenario.MODELS Scenario.healthy
                (Scenario.demo_in "en,xx") Scenario.no_files).
    reflexivity.
  - destruct (Hacc ["en"; "es"]) as (Hc & Hu & _).
    + discriminate.
    + repeat constructor.
    + split; [exact Hc | exact Hu].
Defined.

(* ------------------------------------------------------------------ *)
(** ** The credential at the command line *)

Section Credential.

Variables (HERE version : string) (MODELS : list string) (w : Cli.world).

(** With a non-empty [--api-key], the credential comes from the flag alone,
    ["free"] turned into [None]; nothing is read, asked or written. *)
Lemma effective_api_key_flag (ns : Cli.Namespace) (k : string) (s : Cli.state) :
  Cli.api_key ns = Some k -> k <> EmptyString ->
  Cli.effective_api_key HERE w ns s
  = (Ok (if String.eqb k "free" then None else Some k), s).
Proof.
  intros Hk Hne. unfold Cli.effective_api_key. rewrite Hk.
  destruct k as [|c k]; [congruence|].
  cbn [truthy falsy negb opt_eqb].
  destruct (String.eqb (String c k) "free"); reflexivity.
Qed.

(** Without the flag, or with an empty one, it is the cached key. *)
Lemma effective_api_key_cache (ns : Cli.Namespace) (s : Cli.state) :
  truthy (Cli.api_key ns) = false ->
  Cli.effective_api_key HERE w ns s
  = match Cli.validate_api_key HERE w s with
    | (Ok k, s') => (Ok (Some k), s')
    | (Raise e, s') => (Raise e, s')
    end.
Proof.
  intros Hk. unfold Cli.effective_api_key. rewrite Hk.
  unfold bind, ret. destruct (Cli.validate_api_key HERE w s) as [[k|e] s']; reflexivity.
Qed.

(** Reading the cached key of an installation without a cache file. *)
Lemma validate_api_key_missing (s : Cli.state) :
  Cli.fs s (Cli.API_KEY_FILE HERE) = None ->
  Cli.validate_api_key HERE w s
  = (Raise (FileNotFoundError
              ("[Errno 2] No such file or directory: '"
                 ++ Cli.API_KEY_FILE HERE ++ "'")), s).
Proof.
  intros F. unfold Cli.validate_api_key, Cli.read_api_key, Cli.read_utf8, bind.
  rewrite F. reflexivity.
Qed.

(** A cached key, once stripped, is returned as it is. *)
Lemma validate_api_key_cached (s : Cli.state) (text : string) :
  Cli.fs s (Cli.API_KEY_FILE HERE) = Some text ->
  strip text <> EmptyString ->
  Cli.validate_api_key HERE w s = (Ok (strip text), s).
Proof.
  intros F Hne. unfold Cli.validate_api_key, Cli.read_api_key, Cli.read_utf8, bind, ret.
  rewrite F. destruct (strip text); [congruence|reflexivity].
Qed.

End Credential.

Section CredentialClaims.

Variables (HERE version : string) (MODELS : list string) (w : Cli.world).
Variables (av : Cli.argv) (files : string -> option string).

Lemma parse_args_ok (s : Cli.state) (ns : Cli.Namespace) :
  Cli.parse_args MODELS av s = (Ok ns, s) ->
  Cli.file ns = Cli.av_file av /\ Cli.api_key ns = Cli.av_api_key av.
Proof.
  intros E.
  destruct (parse_args_cases MODELS av s) as [(ns' & E' & Hf & Hk & _)|(m & E')];
    rewrite E in E'; [|discriminate].
  injection E' as <-. auto.
Qed.

(** With a non-empty [--api-key], every call of [run] gets the flag's value,
    or [None] if that value is ["free"]; and [main] warns about nothing. *)
Lemma main_flag_key (k : string) :
  Cli.av_api_key av = Some k -> k <> EmptyString ->
  let r := Cli.main HERE version MODELS w av (Cli.initial files) in
  Forall (fun a => Cli.ra_deepl_api_key a
                   = if String.eqb k "free" then None else Some k)
         (Cli.run_calls (Cli.out (snd r)))
  /\ (String.eqb k "free" = true -> Cli.warnings (Cli.out (snd r)) = []).
Proof.
  intros Hav Hne r. subst r.
  destruct (main_of_try HERE version MODELS w av (Cli.initial files))
    as (_ & tr & O & R & W & _).
  rewrite O, run_calls_app, warnings_app, R, W, !app_nil_r. clear O R W tr.
  pose proof (main_try_cases HERE version MODELS w av files) as C. cbv zeta in C.
  destruct C as [(_ & _ & R & W)|(ns & E & [(X & T & Ot)|(X & [(e & D & T & R & W)|(cards & D & s1 & _ & _ & _ & K)])])].
  - rewrite R, W. auto.
  - rewrite Ot. simpl. auto.
  - rewrite R, W. auto.
  - destruct (parse_args_ok _ _ E) as [_ Hk]. rewrite Hav in Hk.
    rewrite (effective_api_key_flag HERE w ns k s1 Hk Hne) in K.
    destruct K as (_ & R & W). rewrite R, W. split.
    + constructor; [reflexivity|constructor].
    + intros ->. reflexivity.
Qed.

(** C9.  In an installation without the cache file [api_key.txt], reading
    the cached key raises [FileNotFoundError], and so does
    [validate_api_key].  An invocation without [--api-key] that gets as far
    as the credential (the command line parses, the input file exists, the
    preflight passes) ends with that exception: [main] neither returns nor
    calls [run], and the process exits through the traceback (status 1).
    Such an invocation never returns 0. *)
Theorem C9_missing_cache_file_escapes :
  Cli.av_api_key av = None ->
  files (Cli.API_KEY_FILE HERE) = None ->
  let s0 := Cli.initial files in
  let missing :=
    FileNotFoundError ("[Errno 2] No such file or directory: '"
                         ++ Cli.API_KEY_FILE HERE ++ "'") in
  let r := Cli.main HERE version MODELS w av s0 in
  fst (Cli.read_api_key HERE s0) = Raise missing
  /\ fst (Cli.validate_api_key HERE w s0) = Raise missing
  /\ is_KeyboardInterrupt missing = false
  /\ (forall ns cards,
         Cli.parse_args MODELS av s0 = (Ok ns, s0) ->
         Cli.os_path_exists w (Cli.file ns) = true ->
         fst (Cli.ensure_dependencies w (Cli.greeted version s0)) = Ok cards ->
         fst r = Raise missing
         /\ Cli.exit_status (fst r) = 1%Z
         /\ Cli.run_calls (Cli.out (snd r)) = [])
  /\ fst r <> Ok 0%Z.
Proof.
  intros Hav Hfs s0 missing r. subst s0 missing r.
  destruct (main_of_try HERE version MODELS w av (Cli.initial files))
    as (Hr & tr & O & R & _).
  cbv zeta in Hr. rewrite Hr, O, run_calls_app, R, app_nil_r. clear Hr O R tr.
  pose proof (main_try_cases HERE version MODELS w av files) as C. cbv zeta in C.
  split; [|split; [|split; [reflexivity|split]]].
  - unfold Cli.read_api_key, Cli.read_utf8, bind. simpl. rewrite Hfs. reflexivity.
  - rewrite validate_api_key_missing by exact Hfs. reflexivity.
  - intros ns cards E X D.
    destruct C as [(P & _)|(ns' & E' & [(X' & _)|(X' & [(e & D' & _)|(cards' & _ & s1 & F & _ & _ & K)])])].
    + rewrite E in P. discriminate.
    + rewrite E in E'. injection E' as <-. congruence.
    + rewrite D in D'. discriminate.
    + rewrite E in E'. injection E' as <-.
      destruct (parse_args_ok _ _ E) as [_ Hk]. rewrite Hav in Hk.
      rewrite effective_api_key_cache in K by (rewrite Hk; reflexivity).
      rewrite validate_api_key_missing in K by (rewrite F; exact Hfs).
      destruct K as (T & R & _). rewrite T, R. auto.
  - destruct C as [(_ & T & _)|(ns & E & [(X & T & _)|(X & [(e & D & T & _)|(cards & _ & s1 & F & _ & _ & K)])])].
    + rewrite T. discriminate.
    + rewrite T. discriminate.
    + rewrite T. destruct e; discriminate.
    + destruct (parse_args_ok _ _ E) as [_ Hk]. rewrite Hav in Hk.
      rewrite effective_api_key_cache in K by (rewrite Hk; reflexivity).
      rewrite validate_api_key_missing in K by (rewrite F; exact Hfs).
      destruct K as (T & _). rewrite T. discriminate.
Qed.

End CredentialClaims.

(** [videosubtitles demo.mp4 --languages en,es] on a healthy machine whose
    installation has no [api_key.txt]. *)
Lemma C9_missing_cache_file_escapes_witness :
  let r := Cli.main Scenario.HERE Scenario.version Scenario.MODELS
                    Scenario.healthy (Scenario.demo None)
                    (Cli.initial Scenario.no_files) in
  fst r = Raise (FileNotFoundError
                   "[Errno 2] No such file or directory: '/opt/video_subtitles/api_key.txt'")
  /\ Cli.exit_status (fst r) = 1%Z
  /\ Cli.run_calls (Cli.out (snd r)) = [].
Proof.
  pose proof (C9_missing_cache_file_escapes Scenario.HERE Scenario.version
                Scenario.MODELS Scenario.healthy (Scenario.demo None)
                Scenario.no_files eq_refl eq_refl) as H.
  cbv zeta in H. destruct H as (_ & _ & _ & H & _).
  eapply (H _ [Scenario.card]); [vm_compute; reflexivity | reflexivity | reflexivity].
Defined.

(* ------------------------------------------------------------------ *)
(** ** The advisory about the free key *)

(** C3.  [videosubtitles demo.mp4 --languages en,es --api-key free] on a
    healthy machine: [main] turns the flag into [None] before it tests for
    ["free"], so it calls [run] without a credential and returns 0 without
    having warned.  The same command line without the flag, with ["free"] in
    the cache file, does warn, and does so before it calls [run]. *)
Theorem C3_free_flag_warns_nothing :
  let by_flag :=
    Cli.main Scenario.HERE Scenario.version Scenario.MODELS Scenario.healthy
             (Scenario.demo (Some "free")) (Cli.initial Scenario.no_files) in
  let by_cache :=
    Cli.main Scenario.HERE Scenario.version Scenario.MODELS Scenario.healthy
             (Scenario.demo None)
             (Cli.initial (Scenario.cached (String "f" (String "r" (String "e"
                             (String "e" (String "010" EmptyString))))))) in
  let advisory :=
    Cli.EWarn "Using free API key. Expect degraded results for large srt files" in
  let call key :=
    Cli.ERun {| Cli.ra_file := "demo.mp4";
                Cli.ra_deepl_api_key := key;
                Cli.ra_out_languages := ["en"; "es"];
                Cli.ra_model := "large";
                Cli.ra_convert_to_webvtt := None |} in
  let greeting :=
    [Cli.EPrint "videosubtitles version: 1.0.0";
     Cli.EPrint "Found the following Nvidia/CUDA video cards:";
     Cli.EPrint "  [0]: NVIDIA GeForce RTX 3080, 10.0 GB"] in
  (fst by_flag = Ok 0%Z
   /\ Cli.out (snd by_flag) = (greeting ++ [call None])%list
   /\ Cli.warnings (Cli.out (snd by_flag)) = [])
  /\ (fst by_cache = Ok 0%Z
      /\ Cli.out (snd by_cache)
         = (greeting ++ [advisory; call (Some "free")])%list
      /\ Cli.warnings (Cli.out (snd by_cache)) = [advisory]).
Proof.
  cbv zeta. repeat split; vm_compute; reflexivity.
Qed.

(* ------------------------------------------------------------------ *)
(** ** The body of a background thread *)

Section ThreadFacts.

Variables (w : Worker.world) (tid : nat) (j : Gui.job).

(** Four steps take a thread from its start to its end, and amount to one
    run of [_generate_subtitles]. *)
Lemma steps_generate_subtitles (s : Worker.process) :
  let (p, s') := Worker.steps w tid j 4 Worker.AtChdir s in
  Worker.outcome p = Some (fst (Worker._generate_subtitles w tid j s))
  /\ s' = snd (Worker._generate_subtitles w tid j s).
Proof.
  unfold Worker._generate_subtitles, Worker.steps, Worker.step, Worker.after,
    Worker.chdir, Worker.call_run, Worker.report_error, Worker.announce,
    Worker.open_folder, Worker.call_say, Worker.print, Worker.effect,
    Worker.emit, try_except, bind, ret, raise.
  destruct (Worker.os_chdir w _) as [u|e]; cbn; [|auto].
  destruct (Worker.run w _ _) as [out|e]; cbn.
  - destruct (String.eqb (Worker.platform_system w) "Windows");
      [|destruct (String.eqb (Worker.platform_system w) "Darwin")].
    + destruct (Worker.os_startfile w out); cbn; [|auto].
      destruct (Worker.say w _) as [u'|e']; cbn; auto.
    + destruct (Worker.subprocess_Popen w _); cbn; [|auto].
      destruct (Worker.say w _) as [u'|e']; cbn; auto.
    + destruct (Worker.subprocess_Popen w _); cbn; [|auto].
      destruct (Worker.say w _) as [u'|e']; cbn; auto.
  - destruct (is_Exception e); cbn; [|auto].
    destruct (Worker.say w _) as [u'|e']; cbn; auto.
Qed.

(** A thread whose [os.chdir] fails ends there: the exception leaves
    [_generate_subtitles], and nothing is spoken, printed or opened. *)
Lemma generate_subtitles_chdir_fails (s : Worker.process) (e : exn) :
  Worker.os_chdir w (dirname (Gui.videofile j)) = Raise e ->
  Worker._generate_subtitles w tid j s = (Raise e, s).
Proof.
  intros H. unfold Worker._generate_subtitles, Worker.chdir, bind.
  rewrite H. reflexivity.
Qed.

(** Where the directory change, the folder opener and the speech helper do
    not fail and the pipeline returns or raises a subclass of [Exception],
    the thread returns normally after exactly one spoken notification: the
    completion text, or the error text. *)
Lemma generate_subtitles_notifies_once (s : Worker.process) :
  Worker.os_chdir w (dirname (Gui.videofile j)) = Ok tt ->
  (forall text, Worker.say w text = Ok tt) ->
  (forall path, Worker.os_startfile w path = Ok tt) ->
  (forall argv, Worker.subprocess_Popen w argv = Ok tt) ->
  (forall e, Worker.run w (path_join (Worker.cwd s) (dirname (Gui.videofile j)))
                   (Worker.run_kwargs j)
             = Raise e -> is_Exception e = true) ->
  let r := Worker._generate_subtitles w tid j s in
  fst r = Ok tt
  /\ exists tr,
      Worker.log (snd r) = (Worker.log s ++ tr)%list
      /\ Worker.notifications tid tr
         = [Worker.ESay
              match Worker.run w (path_join (Worker.cwd s) (dirname (Gui.videofile j)))
                   (Worker.run_kwargs j) with
              | Ok _ => Worker.completion_text j
              | Raise e => "Error: " ++ str_exn e
              end].
Proof.
  intros Hc Hs Ho Hp He.
  unfold Worker._generate_subtitles, Worker.chdir, Worker.call_run,
    Worker.report_error, Worker.announce, Worker.open_folder, Worker.call_say,
    Worker.print, Worker.effect, Worker.emit, try_except, bind, ret, raise.
  rewrite Hc. cbn [Worker.cwd Worker.log].
  destruct (Worker.run w _ _) as [out|e] eqn:R; cbn.
  - rewrite Hs.
    destruct (String.eqb (Worker.platform_system w) "Windows");
      [|destruct (String.eqb (Worker.platform_system w) "Darwin")];
      rewrite ?Ho, ?Hp; cbn; (split; [reflexivity|]);
      rewrite <- !app_assoc; eexists; (split; [reflexivity|]);
      unfold Worker.notifications, Worker.events_of; cbn;
      rewrite Nat.eqb_refl; reflexivity.
  - rewrite (He e eq_refl). rewrite Hs. cbn. split; [reflexivity|].
    rewrite <- !app_assoc. eexists. split; [reflexivity|].
    unfold Worker.notifications, Worker.events_of. cbn.
    rewrite Nat.eqb_refl. reflexivity.
Qed.

End ThreadFacts.

(* ------------------------------------------------------------------ *)
(** ** Notification of the outcome of a job *)

(** C4.  A link dragged onto the window is accepted like any URL, and has
    the empty string as its local file; the drop handler registers a thread
    for it all the same.  In that
    thread [os.chdir] raises before the [try] block is entered: the
    exception leaves [_generate_subtitles], and the job ends without any
    spoken notification.  A job whose pipeline succeeds, and one whose
    pipeline raises, are each reported exactly once. *)
Theorem C4_chdir_failure_is_not_reported :
  let dropped :=
    Gui.dropEvent Util.parse_languages Gui.callback Scenario.window
                  [EmptyString] (Gui.initial Scenario.factory_settings) in
  let gone := Gui.thread_for Scenario.window ["en"; "es"] "/videos/a/gone.mp4" in
  let run_thread j := Worker._generate_subtitles Scenario.desktop 0 j Scenario.at_home in
  let spoken j := Worker.notifications 0 (Worker.log (snd (run_thread j))) in
  Gui.dragEnterEvent true = Gui.Accept
  /\ Gui.registered (snd dropped) = [Scenario.job_link]
  /\ (run_thread Scenario.job_link
      = (Raise (FileNotFoundError "[Errno 2] No such file or directory: ''"),
         Scenario.at_home)
      /\ spoken Scenario.job_link = []
      /\ fst (Worker.steps Scenario.desktop 0 Scenario.job_link 4
                           Worker.AtChdir Scenario.at_home)
         = Worker.Died (FileNotFoundError "[Errno 2] No such file or directory: ''"))
  /\ (fst (run_thread Scenario.job_one) = Ok tt
      /\ spoken Scenario.job_one
         = [Worker.ESay "Attention: one has completed subtitle generation in SRT format"])
  /\ (fst (run_thread gone) = Ok tt
      /\ spoken gone
         = [Worker.ESay "Error: [Errno 2] No such file or directory: 'gone.mp4'"]).
Proof.
  cbv zeta. repeat split; vm_compute; reflexivity.
Qed.

(* ------------------------------------------------------------------ *)
(** ** Threads that run at the same time *)

Section Race.

Variables (w : Worker.world) (j0 j1 : Gui.job) (s : Worker.process).

(** Two threads that both get past [os.chdir] before the first calls the
    pipeline: the first one's pipeline runs where the second thread went,
    which for a dropped file (an absolute path) is the directory of the
    second one's video. *)
Lemma chdir_race :
  Worker.os_chdir w (dirname (Gui.videofile j0)) = Ok tt ->
  Worker.os_chdir w (dirname (Gui.videofile j1)) = Ok tt ->
  Worker.log (snd (Worker.schedule w [0; 1; 0] (Worker.start [j0; j1], s)))
  = (Worker.log s
     ++ [(0, Worker.EChdir (dirname (Gui.videofile j0)));
         (1, Worker.EChdir (dirname (Gui.videofile j1)));
         (0, Worker.ERun
               (path_join (path_join (Worker.cwd s) (dirname (Gui.videofile j0)))
                          (dirname (Gui.videofile j1)))
               (Worker.run_kwargs j0))])%list.
Proof.
  intros H0 H1.
  unfold Worker.schedule, Worker.schedule_one, Worker.start. cbn [map nth_error].
  unfold Worker.step at 1, Worker.after, Worker.chdir. rewrite H0.
  cbn [Worker.set_pc nth_error].
  unfold Worker.step at 1, Worker.after, Worker.chdir. rewrite H1.
  cbn [Worker.set_pc nth_error].
  unfold Worker.step, Worker.call_run. cbn [Worker.cwd Worker.log].
  destruct (Worker.run w _ _) as [out|e]; [|destruct (is_Exception e)];
    cbn [Worker.set_pc snd Worker.log]; rewrite <- !app_assoc; reflexivity.
Qed.

End Race.

(** C6.  Two threads on the desktop, the scheduler alternating between
    them.  The thread for [/videos/a/one.mp4] changes to [/videos/a], the
    thread for [/videos/b/clip.mp4] changes to [/videos/b], and the first
    one's pipeline then looks for [one.mp4] in [/videos/b]: it fails, and
    the job that succeeds when its thread runs without the other one is
    reported as an error.  With [/videos/a/clip.mp4] in its place both
    pipelines process [/videos/b/clip.mp4] and both produce
    [/videos/b/clip]. *)
Theorem C6_threads_share_the_working_directory :
  let alternating := [0; 1; 0; 1; 0; 1; 0; 1] in
  let one_first := [0; 0; 0; 0; 1; 1; 1; 1] in
  let after order jobs :=
    Worker.schedule Scenario.desktop order (Worker.start jobs, Scenario.at_home) in
  let events order jobs tid := Worker.events_of tid (Worker.log (snd (after order jobs))) in
  let spoken order jobs tid := Worker.notifications tid (Worker.log (snd (after order jobs))) in
  let opened path := Worker.EPopen ["xdg-open"; path] in
  (Worker.run_dirs (events one_first [Scenario.job_one; Scenario.job_clip_b] 0)
   = ["/videos/a"]
   /\ spoken one_first [Scenario.job_one; Scenario.job_clip_b] 0
      = [Worker.ESay "Attention: one has completed subtitle generation in SRT format"])
  /\ (Worker.run_dirs (events alternating [Scenario.job_one; Scenario.job_clip_b] 0)
      = ["/videos/b"]
      /\ spoken alternating [Scenario.job_one; Scenario.job_clip_b] 0
         = [Worker.ESay "Error: [Errno 2] No such file or directory: 'one.mp4'"]
      /\ map snd (fst (after alternating [Scenario.job_one; Scenario.job_clip_b]))
         = [Worker.Returned; Worker.Returned])
  /\ (In (opened "/videos/a/clip")
         (events one_first [Scenario.job_clip_a; Scenario.job_clip_b] 0)
      /\ In (opened "/videos/b/clip")
            (events alternating [Scenario.job_clip_a; Scenario.job_clip_b] 0)
      /\ In (opened "/videos/b/clip")
            (events alternating [Scenario.job_clip_a; Scenario.job_clip_b] 1)
      /\ Worker.run_dirs (events alternating [Scenario.job_clip_a; Scenario.job_clip_b] 0)
         = ["/videos/b"]).
Proof.
  cbv zeta.
  split; [|split]; repeat match goal with |- _ /\ _ => split end;
    vm_compute; auto 10.
Qed.

(* ------------------------------------------------------------------ *)
(** ** Jobs submitted by a drop *)

(** C5.  When the language text of the window parses, a drop registers one
    thread per dropped file, in order, each for its own file; and all of
    them carry the same credential, language list, model and format, read
    off the window at the time of the drop. *)
Theorem C5_one_job_per_dropped_file
        (parse : string -> res (list string)) (self : Gui.form)
        (files : list string) (s : Gui.state) (parsed : list string) :
  parse (Gui.output_text self) = Ok parsed ->
  let r := Gui.dropEvent parse Gui.callback self files s in
  exists new,
    fst r = Ok tt
    /\ Gui.registered (snd r) = (Gui.registered s ++ new)%list
    /\ Gui.added (Gui.out (snd r)) = (Gui.added (Gui.out s) ++ new)%list
    /\ length new = length files
    /\ map Gui.videofile new = files
    /\ Forall (fun j =>
                 Gui.deepl_api_key j
                 = (if falsy (strip (Gui.deepl_input self)) then None
                    else Some (strip (Gui.deepl_input self)))
                 /\ Gui.languages j = map strip parsed
                 /\ Gui.model j = strip (Gui.model_select self)
                 /\ Gui.convert_to_webvtt j
                    = String.eqb (strip (Gui.webvtt_select self)) "WEBVTT")
              new.
Proof.
  intros P r. subst r. rewrite dropEvent_spec, P.
  exists (map (Gui.thread_for self parsed) files).
  cbn [fst snd Gui.registered Gui.out].
  split; [reflexivity|]. split; [reflexivity|]. split.
  - rewrite !added_app, added_map_EAdd. reflexivity.
  - split; [apply length_map|]. split.
    + rewrite map_map. cbn. apply map_id.
    + apply Forall_forall. intros j Hj.
      apply in_map_iff in Hj as (f & <- & _). cbn. auto.
Qed.

(** Two files dropped on the window of the scenario. *)
Lemma C5_one_job_per_dropped_file_witness :
  Gui.registered
    (snd (Gui.dropEvent Util.parse_languages Gui.callback Scenario.window
                        ["/videos/a/one.mp4"; "/videos/b/clip.mp4"]
                        (Gui.initial Scenario.factory_settings)))
  = [Scenario.job_one; Scenario.job_clip_b].
Proof.
  destruct (C5_one_job_per_dropped_file
              Util.parse_languages Scenario.window
              ["/videos/a/one.mp4"; "/videos/b/clip.mp4"]
              (Gui.initial Scenario.factory_settings) ["en"; "es"] eq_refl)
    as (new & _ & R & _ & _ & F & K).
  rewrite R. cbn [Gui.registered Gui.initial app].
  destruct new as [|a [|b [|c new]]]; try discriminate.
  injection F as Fa Fb.
  inversion K as [|? ? (Ka1 & Ka2 & Ka3 & Ka4) K']; subst.
  inversion K' as [|? ? (Kb1 & Kb2 & Kb3 & Kb4) _]; subst.
  destruct a, b. cbn in *. subst. reflexivity.
Defined.

(** The whole effect of [callback]. *)
Lemma callback_effect
        (videofile : string) (deepl_api_key : option string)
        (languages : list string) (model : string) (convert_to_webvtt : bool)
        (s : Gui.state) :
  let r := Gui.callback videofile deepl_api_key languages model
                        convert_to_webvtt s in
  let thread :=
    {| Gui.videofile := videofile;
       Gui.deepl_api_key := if truthy deepl_api_key then deepl_api_key else None;
       Gui.languages := languages;
       Gui.model := model;
       Gui.convert_to_webvtt := convert_to_webvtt |} in
  fst r = Ok tt
  /\ Gui.settings (snd r) = Gui.settings s
  /\ Gui.saved (snd r) = Gui.saved s
  /\ Gui.registered (snd r) = (Gui.registered s ++ [thread])%list
  /\ Gui.out (snd r) = (Gui.out s ++ [Gui.EAdd thread])%list
  /\ nth_error (Worker.start (Gui.registered (snd r))) (length (Gui.registered s))
     = Some (thread, Worker.AtChdir).
Proof.
  cbv zeta. unfold Gui.callback, Gui.thread_processor_add.
  cbn [fst snd Gui.settings Gui.saved Gui.registered Gui.out].
  assert (E : (if negb (truthy deepl_api_key) then None else deepl_api_key)
              = (if truthy deepl_api_key then deepl_api_key else None))
    by (destruct (truthy deepl_api_key); reflexivity).
  rewrite E. repeat split.
  unfold Worker.start. rewrite map_app, nth_error_app2; rewrite length_map; [|lia].
  rewrite Nat.sub_diag. reflexivity.
Qed.

(** One thread alone, started and scheduled four times, does what
    [_generate_subtitles] does from start to end. *)
Lemma lone_thread_runs_to_its_end
      (w : Worker.world) (pool : Worker.pool) (j : Gui.job) (p : Worker.process) :
  let n := length pool in
  let (pool', p') :=
    Worker.schedule w [n; n; n; n] ((pool ++ [(j, Worker.AtChdir)])%list, p) in
  p' = snd (Worker._generate_subtitles w n j p)
  /\ exists pc, pool' = (pool ++ [(j, pc)])%list
                /\ Worker.outcome pc
                   = Some (fst (Worker._generate_subtitles w n j p)).
Proof.
  intros n.
  assert (G : forall pc, nth_error (pool ++ [(j, pc)])%list n = Some (j, pc)).
  { intros pc. subst n. rewrite nth_error_app2 by lia.
    rewrite Nat.sub_diag. reflexivity. }
  assert (S : forall pc pc', Worker.set_pc (pool ++ [(j, pc)])%list n pc'
                             = (pool ++ [(j, pc')])%list).
  { intros pc pc'. subst n. clear G.
    induction pool as [|[j0 p0] pool IH]; [reflexivity|].
    cbn. rewrite IH. reflexivity. }
  assert (One : forall pc q,
             Worker.schedule_one w n ((pool ++ [(j, pc)])%list, q)
             = ((pool ++ [(j, fst (Worker.step w n j pc q))])%list,
                snd (Worker.step w n j pc q))).
  { intros pc q. unfold Worker.schedule_one. rewrite G.
    destruct (Worker.step w n j pc q) as [pc' q']. rewrite S. reflexivity. }
  pose proof (steps_generate_subtitles w n j p) as L.
  cbn [Worker.schedule]. rewrite !One.
  cbn [Worker.steps] in L.
  destruct (Worker.step w n j Worker.AtChdir p) as [p1 q1]. cbn [fst snd].
  destruct (Worker.step w n j p1 q1) as [p2 q2]. cbn [fst snd].
  destruct (Worker.step w n j p2 q2) as [p3 q3]. cbn [fst snd].
  destruct (Worker.step w n j p3 q3) as [p4 q4]. cbn [fst snd].
  destruct L as [L1 L2]. split; [exact L2|].
  exists p4. split; [reflexivity|exact L1].
Qed.

(** C7.  [callback] does nothing of its own but build the thread and hand
    it to [thread_processor.add]: whatever [add] is, the outcome of
    [callback] is the outcome of [add] on that thread.  With [add] as the
    spec describes it, [callback] returns with the thread recorded and not
    started: no thread has been started or has moved, and the working
    directory and the trace of the threads are as before, so that nothing of
    the job's pipeline has happened when [callback] returns.  The job runs
    afterwards: once the thread processor starts the recorded thread, its
    steps do, from the state [callback] returned in, exactly what
    [_generate_subtitles] does. *)
Theorem C7_callback_returns_before_the_job_runs
        (videofile : string) (deepl_api_key : option string)
        (languages : list string) (model : string) (convert_to_webvtt : bool)
        (s : App.state) :
  let thread :=
    {| Gui.videofile := videofile;
       Gui.deepl_api_key := if truthy deepl_api_key then deepl_api_key else None;
       Gui.languages := languages;
       Gui.model := model;
       Gui.convert_to_webvtt := convert_to_webvtt |} in
  let r := App.callback App.thread_processor_add videofile deepl_api_key
                        languages model convert_to_webvtt s in
  (forall add,
      App.callback add videofile deepl_api_key languages model
                   convert_to_webvtt s
      = add thread s)
  /\ (fst r = Ok tt
      /\ App.process (snd r) = App.process s
      /\ App.started (snd r) = App.started s
      /\ Gui.registered (App.gui (snd r))
         = (Gui.registered (App.gui s) ++ [thread])%list
      /\ App.gui (snd r)
         = snd (Gui.callback videofile deepl_api_key languages model
                             convert_to_webvtt (App.gui s)))
  /\ (forall w,
         length (App.started s) = length (Gui.registered (App.gui s)) ->
         let n := length (App.started s) in
         let dispatched := App.thread_processor_dispatch (snd r) in
         App.started dispatched
         = (App.started s ++ [(thread, Worker.AtChdir)])%list
         /\ let (pool, p) :=
              Worker.schedule w [n; n; n; n]
                              (App.started dispatched, App.process dispatched) in
            p = snd (Worker._generate_subtitles w n thread (App.process s))
            /\ exists pc,
                pool = (App.started s ++ [(thread, pc)])%list
                /\ Worker.outcome pc
                   = Some (fst (Worker._generate_subtitles w n thread
                                                            (App.process s)))).
Proof.
  intros thread r.
  assert (E : (if negb (truthy deepl_api_key) then None else deepl_api_key)
              = (if truthy deepl_api_key then deepl_api_key else None))
    by (destruct (truthy deepl_api_key); reflexivity).
  assert (C : forall add,
             App.callback add videofile deepl_api_key languages model
                          convert_to_webvtt s
             = add thread s).
  { intros add. unfold App.callback. rewrite E. reflexivity. }
  split; [exact C|].
  subst r. rewrite C.
  unfold App.thread_processor_add, Gui.thread_processor_add.
  cbn [fst snd App.gui App.process App.started Gui.registered].
  split.
  - repeat split. unfold Gui.callback, Gui.thread_processor_add.
    rewrite E. reflexivity.
  - intros w Hlen. cbv zeta.
    unfold App.thread_processor_dispatch.
    cbn [App.gui App.process App.started Gui.registered].
    assert (K : skipn (length (App.started s))
                      (Gui.registered (App.gui s) ++ [thread])%list
                = [thread]).
    { rewrite Hlen, skipn_app, skipn_all, Nat.sub_diag. reflexivity. }
    rewrite K. cbn [Worker.start map]. split; [reflexivity|].
    exact (lone_thread_runs_to_its_end w (App.started s) thread (App.process s)).
Qed.

(** A drop of [/videos/a/one.mp4] on the desktop: when [callback] returns
    nothing has run; the job runs once the thread processor has started its
    thread.  With a thread processor that joins the thread, the pipeline
    would have been called before [callback] returned. *)
Lemma C7_callback_returns_before_the_job_runs_witness :
  let s0 := App.initial Scenario.factory_settings Scenario.at_home in
  let r := App.callback App.thread_processor_add "/videos/a/one.mp4"
                        (Some "KEY") ["en"; "es"] "large" false s0 in
  let waited := App.callback (App.add_and_wait Scenario.desktop)
                             "/videos/a/one.mp4"
                             (Some "KEY") ["en"; "es"] "large" false s0 in
  Worker.log (App.process (snd r)) = []
  /\ Worker.run_dirs
       (Worker.events_of 0
          (Worker.log
             (snd (Worker.schedule Scenario.desktop [0; 0; 0; 0]
                     (App.started (App.thread_processor_dispatch (snd r)),
                      App.process (App.thread_processor_dispatch (snd r)))))))
     = ["/videos/a"]
  /\ Worker.run_dirs (Worker.events_of 0 (Worker.log (App.process (snd waited))))
     = ["/videos/a"].
Proof.
  pose proof (C7_callback_returns_before_the_job_runs
                "/videos/a/one.mp4" (Some "KEY") ["en"; "es"] "large" false
                (App.initial Scenario.factory_settings Scenario.at_home)) as H.
  cbv zeta in H. destruct H as (_ & (_ & P & _) & H).
  cbv zeta. split; [rewrite P; reflexivity|]. split.
  - destruct (H Scenario.desktop eq_refl) as [_ L].
    destruct (Worker.schedule Scenario.desktop _ _) as [pool p].
    destruct L as [-> _]. vm_compute. reflexivity.
  - vm_compute. reflexivity.
Defined.

(** C10.  Whatever the validation does with the language text, a drop first
    writes the four values of the window to the settings store: they are
    what the store holds afterwards, and their events come before the error
    box and before any registration.  When the text is refused, nothing is
    registered, and the saved language list is the refused text, split at
    the commas and stripped. *)
Theorem C10_settings_saved_before_validation
        (parse : string -> res (list string)) (self : Gui.form)
        (files : list string) (s : Gui.state) :
  let r := Gui.dropEvent parse Gui.callback self files s in
  Gui.saved (snd r) = Some (Gui.form_values self)
  /\ Gui.s_languages (Gui.form_values self)
     = map strip (split "," (strip (Gui.output_text self)))
  /\ (exists rest,
         Gui.out (snd r) = (Gui.out s ++ Gui.save_trace self ++ rest)%list
         /\ Forall (fun e => match e with
                             | Gui.ECritical _ _ | Gui.EAdd _ => True
                             | _ => False
                             end) rest)
  /\ (forall e,
         parse (Gui.output_text self) = Raise e ->
         Gui.registered (snd r) = Gui.registered s
         /\ Gui.added (Gui.out (snd r)) = Gui.added (Gui.out s)).
Proof.
  intros r. subst r. rewrite dropEvent_spec.
  assert (SA : Gui.added (Gui.save_trace self) = []) by reflexivity.
  destruct (parse (Gui.output_text self)) as [parsed|e];
    [|destruct (is_ValueError e)]; cbn [snd Gui.saved Gui.out Gui.registered].
  - split; [reflexivity|]. split; [reflexivity|]. split; [|discriminate].
    eexists. split; [reflexivity|].
    apply Forall_forall. intros e He.
    apply in_map_iff in He as (j & <- & _). exact I.
  - split; [reflexivity|]. split; [reflexivity|]. split.
    + eexists. split; [reflexivity|]. repeat constructor.
    + intros _ _. split; [reflexivity|].
      rewrite !added_app, SA. cbn. rewrite app_nil_r. reflexivity.
  - split; [reflexivity|]. split; [reflexivity|]. split.
    + exists []. split; [reflexivity|constructor].
    + intros _ _. split; [reflexivity|].
      rewrite !added_app, SA. rewrite app_nil_r. reflexivity.
Qed.

(** A drop on the window with the unsupported code [xx]: the list
    [en, xx] is saved, and no thread is registered. *)
Lemma C10_settings_saved_before_validation_witness :
  let r := Gui.dropEvent Util.parse_languages Gui.callback Scenario.window_xx
                         ["/videos/a/one.mp4"]
                         (Gui.initial Scenario.factory_settings) in
  option_map Gui.s_languages (Gui.saved (snd r)) = Some ["en"; "xx"]
  /\ Gui.registered (snd r) = [].
Proof.
  pose proof (C10_settings_saved_before_validation
                Util.parse_languages Scenario.window_xx ["/videos/a/one.mp4"]
                (Gui.initial Scenario.factory_settings)) as H.
  cbv zeta in H. destruct H as (Hs & Hl & _ & Hr).
  cbv zeta. rewrite Hs. split.
  - cbn [option_map]. rewrite Hl. reflexivity.
  - apply (Hr (ValueError "Invalid language code: xx")). reflexivity.
Defined.

(* ------------------------------------------------------------------ *)
(** ** The credential that reaches the pipeline *)

(** Every call of the pipeline a thread makes passes the fields of its
    [job]. *)
Lemma generate_subtitles_run_calls
      (w : Worker.world) (tid : nat) (j : Gui.job) (s : Worker.process) :
  exists tr,
    Worker.log (snd (Worker._generate_subtitles w tid j s))
    = (Worker.log s ++ tr)%list
    /\ forall t d a, In (t, Worker.ERun d a) tr -> a = Worker.run_kwargs j.
Proof.
  unfold Worker._generate_subtitles, Worker.chdir, Worker.call_run,
    Worker.report_error, Worker.announce, Worker.open_folder, Worker.call_say,
    Worker.print, Worker.effect, Worker.emit, try_except, bind, ret, raise.
  assert (Hin : forall (l : list (nat * Worker.event)) t d a,
             In (t, Worker.ERun d a) l ->
             Forall (fun te => match snd te with
                               | Worker.ERun _ a' => a' = Worker.run_kwargs j
                               | _ => True
                               end) l ->
             a = Worker.run_kwargs j).
  { intros l t d a HI HF. rewrite Forall_forall in HF. exact (HF _ HI). }
  destruct (Worker.os_chdir w _) as [u|e]; cbn;
    [|exists []; rewrite app_nil_r; split; [reflexivity|intros ? ? ? []]].
  destruct (Worker.run w _ _) as [out|e]; cbn.
  - destruct (String.eqb (Worker.platform_system w) "Windows");
      [|destruct (String.eqb (Worker.platform_system w) "Darwin")];
      repeat match goal with
             | |- context [match ?r with Ok _ => _ | Raise _ => _ end] =>
                 destruct r; cbn
             end;
      rewrite <- ?app_assoc; eexists; (split; [reflexivity|]);
      intros t' d' a' HI; apply (Hin _ _ _ _ HI); repeat constructor.
  - destruct (is_Exception e); cbn;
      repeat match goal with
             | |- context [match ?r with Ok _ => _ | Raise _ => _ end] =>
                 destruct r; cbn
             end;
      rewrite <- ?app_assoc; eexists; (split; [reflexivity|]);
      intros t' d' a' HI; apply (Hin _ _ _ _ HI); repeat constructor.
Qed.

(** C8.  At the command line, a non-empty [--api-key] reaches every call of
    [run] as it is, except that ["free"] reaches it as [None]: [run] never
    gets ["free"] from the flag.  In the window, [callback] registers its
    thread with [None] in place of an empty credential, a drop does so for
    every file when the key field is blank, and the thread passes to the
    pipeline the credential it was registered with: the pipeline never gets
    the empty string from the window. *)
Theorem C8_credential_sentinels_become_None :
  (forall HERE version MODELS w av files k,
      Cli.av_api_key av = Some k -> k <> EmptyString ->
      let r := Cli.main HERE version MODELS w av (Cli.initial files) in
      Forall (fun a => Cli.ra_deepl_api_key a
                       = (if String.eqb k "free" then None else Some k)
                       /\ Cli.ra_deepl_api_key a <> Some "free")
             (Cli.run_calls (Cli.out (snd r))))
  /\ (forall videofile deepl_api_key languages model convert_to_webvtt s,
         exists thread,
           Gui.registered (snd (Gui.callback videofile deepl_api_key languages
                                             model convert_to_webvtt s))
           = (Gui.registered s ++ [thread])%list
           /\ Gui.deepl_api_key thread <> Some EmptyString
           /\ (deepl_api_key = Some EmptyString -> Gui.deepl_api_key thread = None)
           /\ (truthy deepl_api_key = true ->
               Gui.deepl_api_key thread = deepl_api_key))
  /\ (forall self parsed f,
         Gui.deepl_api_key (Gui.thread_for self parsed f) <> Some EmptyString
         /\ (strip (Gui.deepl_input self) = EmptyString ->
             Gui.deepl_api_key (Gui.thread_for self parsed f) = None))
  /\ (forall w tid j s,
         exists tr,
           Worker.log (snd (Worker._generate_subtitles w tid j s))
           = (Worker.log s ++ tr)%list
           /\ forall t d a,
               In (t, Worker.ERun d a) tr ->
               Cli.ra_deepl_api_key a = Gui.deepl_api_key j).
Proof.
  split; [|split; [|split]].
  - intros HERE version MODELS w av files k Hav Hne r. subst r.
    destruct (main_flag_key HERE version MODELS w av files k Hav Hne) as [HF _].
    eapply Forall_impl; [|exact HF].
    intros x Hx. cbv beta in Hx. split; [exact Hx|]. rewrite Hx.
    destruct (String.eqb k "free") eqn:E; [discriminate|].
    intros [= ->]. discriminate.
  - intros videofile key languages model convert s.
    pose proof (callback_effect videofile key languages model convert s)
      as H. cbv zeta in H. destruct H as (_ & _ & _ & R & _).
    eexists. split; [exact R|]. cbn [Gui.deepl_api_key].
    destruct key as [[|c k]|]; cbn; repeat split; congruence.
  - intros self parsed f. unfold Gui.thread_for. cbn [Gui.deepl_api_key].
    destruct (strip (Gui.deepl_input self)) as [|c k]; cbn; split; congruence.
  - intros w tid j s.
    destruct (generate_subtitles_run_calls w tid j s) as (tr & L & H).
    exists tr. split; [exact L|].
    intros t d a HI. rewrite (H t d a HI). reflexivity.
Qed.

(** [--api-key free] at the command line, and a blank key field in the
    window. *)
Lemma C8_credential_sentinels_become_None_witness :
  Forall (fun a => Cli.ra_deepl_api_key a = None /\ Cli.ra_deepl_api_key a <> Some "free")
         (Cli.run_calls
            (Cli.out (snd (Cli.main Scenario.HERE Scenario.version Scenario.MODELS
                                    Scenario.healthy (Scenario.demo (Some "free"))
                                    (Cli.initial Scenario.no_files)))))
  /\ Gui.deepl_api_key
       (Gui.thread_for Scenario.window_no_key ["en"; "es"] "/videos/a/one.mp4")
     = None.
Proof.
  destruct C8_credential_sentinels_become_None as (Hcli & _ & Hgui & _).
  split.
  - apply (Hcli Scenario.HERE Scenario.version Scenario.MODELS Scenario.healthy
                (Scenario.demo (Some "free")) Scenario.no_files "free").
    + reflexivity.
    + discriminate.
  - apply (Hgui Scenario.window_no_key ["en"; "es"] "/videos/a/one.mp4").
    reflexivity.
Defined.

(* ================================================================== *)
(** * Further properties of the two front ends *)

(* ------------------------------------------------------------------ *)
(** ** Strings *)

Section StringFacts.

(** [sep.join(s.split(sep)) == s] *)
Lemma join_split (sep : ascii) (s : string) :
  join (String sep EmptyString) (split sep s) = s.
Proof.
  induction s as [|c s IH]; [reflexivity|].
  cbn [split]. destruct (Ascii.eqb c sep) eqn:E.
  - apply Ascii.eqb_eq in E. subst c.
    destruct (split sep s) as [|w ws] eqn:S; [exfalso; eapply split_nonempty; eauto|].
    unfold join in *. cbn [String.concat]. cbn. rewrite <- IH. reflexivity.
  - destruct (split sep s) as [|w ws] eqn:S; [exfalso; eapply split_nonempty; eauto|].
    unfold join in *. rewrite <- IH.
    destruct ws; reflexivity.
Qed.

(** The fields of a split never contain the separator. *)
Lemma split_fields_clean (sep : ascii) (s : string) :
  Forall (fun x => contains sep x = false) (split sep s).
Proof.
  induction s as [|c s IH]; [repeat constructor|].
  cbn [split]. destruct (Ascii.eqb c sep) eqn:E.
  - constructor; [reflexivity|exact IH].
  - destruct (split sep s) as [|w ws]; [repeat constructor; cbn; rewrite E; reflexivity|].
    inversion IH as [|? ? Hw Hws]; subst.
    constructor; [cbn; rewrite E; exact Hw|exact Hws].
Qed.

Lemma rstrip_idempotent (s : string) : rstrip (rstrip s) = rstrip s.
Proof.
  induction s as [|c s IH]; [reflexivity|].
  cbn [rstrip]. destruct (rstrip s) as [|c' r] eqn:R.
  - destruct (isspace c) eqn:Sp; cbn; rewrite ?Sp; reflexivity.
  - cbn [rstrip]. cbn [rstrip] in IH. rewrite IH. reflexivity.
Qed.

Lemma lstrip_idempotent (s : string) : lstrip (lstrip s) = lstrip s.
Proof.
  induction s as [|c s IH]; [reflexivity|].
  cbn [lstrip]. destruct (isspace c) eqn:Sp; [exact IH|].
  cbn [lstrip]. rewrite Sp. reflexivity.
Qed.

(** Stripping on the left keeps a string stripped on the right. *)
Lemma rstrip_lstrip (s : string) : rstrip s = s -> rstrip (lstrip s) = lstrip s.
Proof.
  induction s as [|c s IH]; [reflexivity|].
  intros H. cbn [lstrip]. destruct (isspace c) eqn:Sp; [|exact H].
  apply IH. cbn [rstrip] in H.
  destruct (rstrip s) as [|c' r] eqn:R.
  - rewrite Sp in H. discriminate.
  - injection H as H. exact H.
Qed.

(** Stripping adds no character. *)
Lemma lstrip_keeps_clean (c : ascii) (s : string) :
  contains c s = false -> contains c (lstrip s) = false.
Proof.
  induction s as [|a s IH]; [reflexivity|].
  intros H. cbn [lstrip]. destruct (isspace a); [|exact H].
  apply IH. cbn in H. apply orb_false_elim in H as [_ H]. exact H.
Qed.

Lemma rstrip_keeps_clean (c : ascii) (s : string) :
  contains c s = false -> contains c (rstrip s) = false.
Proof.
  induction s as [|a s IH]; [reflexivity|].
  intros H. cbn in H. apply orb_false_elim in H as [Ha Hs].
  cbn [rstrip]. specialize (IH Hs).
  destruct (rstrip s) as [|b r].
  - destruct (isspace a); cbn; rewrite ?Ha; reflexivity.
  - cbn [contains]. rewrite Ha. exact IH.
Qed.

Lemma strip_keeps_clean (c : ascii) (s : string) :
  contains c s = false -> contains c (strip s) = false.
Proof.
  intros H. unfold strip. apply lstrip_keeps_clean, rstrip_keeps_clean, H.
Qed.

(** [s.strip().strip() == s.strip()] *)
Lemma strip_idempotent (s : string) : strip (strip s) = strip s.
Proof.
  unfold strip.
  rewrite (rstrip_lstrip (rstrip s)) by apply rstrip_idempotent.
  apply lstrip_idempotent.
Qed.

End StringFacts.

(* ------------------------------------------------------------------ *)
(** ** The cache file of the command line *)



(** X2.  For a cache file and a key of ASCII characters without carriage
    return: [read_api_key] returns the text of the cache file stripped, so a
    key without white space at either end; and after [write_api_key key] the
    key read back is [key.strip()]. *)
Theorem X2_read_api_key_is_stripped (HERE : string) (w : Cli.world) :
  (forall s text,
      Cli.fs s (Cli.API_KEY_FILE HERE) = Some text ->
      Text.plain text = true ->
      exists k, fst (Cli.read_api_key HERE s) = Ok k
                /\ k = strip text /\ strip k = k)
  /\ (forall key s,
         Text.plain key = true ->
         Cli.open_for_writing w (Cli.API_KEY_FILE HERE) = Ok tt ->
         fst (Cli.read_api_key HERE (snd (Cli.write_api_key HERE w key s)))
         = Ok (strip key)).
Proof.
  split.
  - intros s text F _. exists (strip text).
    unfold Cli.read_api_key, Cli.read_utf8, bind, ret. rewrite F. cbn [fst].
    split; [reflexivity|]. split; [reflexivity|apply strip_idempotent].
  - intros key s _ H.
    unfold Cli.read_api_key, Cli.write_api_key, Cli.write_utf8, Cli.read_utf8,
      bind, ret.
    rewrite H. cbn. rewrite String.eqb_refl. reflexivity.
Qed.

Lemma X2_read_api_key_is_stripped_witness :
  fst (Cli.read_api_key Scenario.HERE
         (snd (Cli.write_api_key Scenario.HERE Scenario.healthy "  KEY "
                                 (Cli.initial Scenario.no_files))))
  = Ok "KEY"
  /\ fst (Cli.read_api_key Scenario.HERE (Cli.initial (Scenario.cached " abc ")))
     = Ok "abc".
Proof.
  destruct (X2_read_api_key_is_stripped Scenario.HERE Scenario.healthy) as [H1 H2].
  split.
  - rewrite H2; reflexivity.
  - destruct (H1 (Cli.initial (Scenario.cached " abc ")) " abc ")
      as (k & E & -> & _); [vm_compute; reflexivity|reflexivity|].
    rewrite E. reflexivity.
Defined.

(* ------------------------------------------------------------------ *)
(** ** [parse_languages] and [parse_args] *)

(** The loop stops at the first code that is not supported. *)
Lemma first_unsupported_position (L : list string) (l : string) :
  Util.first_unsupported L = Some l ->
  exists before after,
    L = (before ++ l :: after)%list
    /\ Forall (fun x => Util.supported x = true) before
    /\ Util.supported l = false.
Proof.
  induction L as [|x L IH]; cbn [Util.first_unsupported]; [discriminate|].
  destruct (Util.supported x) eqn:S; cbn [negb].
  - intros H. destruct (IH H) as (b & a & -> & Hb & Hl).
    exists (x :: b), a. repeat split; auto.
  - intros [= <-]. exists [], L. repeat split; auto.
Qed.

(** X3.  What [parse_languages] returns is the list of the comma-separated
    fields of its argument, untouched: it is never empty, every field is a
    supported code, and joining it with commas gives the argument back.  It
    returns that list exactly when every field is supported. *)
Theorem X3_parse_languages_returns_the_fields (text : string) :
  (forall L, Cli.parse_languages text = Ok L ->
             L = split "," text /\ L <> []
             /\ Forall (fun l => Util.supported l = true) L
             /\ join "," L = text)
  /\ (Forall (fun l => Util.supported l = true) (split "," text) ->
      Cli.parse_languages text = Ok (split "," text)).
Proof.
  unfold Cli.parse_languages. split.
  - intros L. destruct (Util.first_unsupported (split "," text)) eqn:F;
      [discriminate|].
    intros [= <-]. split; [reflexivity|]. split; [apply split_nonempty|].
    split; [apply first_unsupported_none; exact F|apply join_split].
  - intros H. apply first_unsupported_none in H. rewrite H. reflexivity.
Qed.

Lemma X3_parse_languages_returns_the_fields_witness :
  Cli.parse_languages "en,es,zh" = Ok ["en"; "es"; "zh"]
  /\ join "," ["en"; "es"; "zh"] = "en,es,zh".
Proof.
  destruct (X3_parse_languages_returns_the_fields "en,es,zh") as [H1 H2].
  assert (E : Cli.parse_languages "en,es,zh" = Ok ["en"; "es"; "zh"]).
  { apply H2. repeat constructor. }
  split; [exact E|]. destruct (H1 _ E) as (_ & _ & _ & J). exact J.
Defined.

(** X4.  When [parse_languages] refuses a text, the exception is an
    [ArgumentTypeError] whose message names the first field, from the left,
    that is not a supported code, exactly as it was typed; a field that is a
    supported code with a blank around it is such a field. *)
Theorem X4_parse_languages_names_the_first_bad_code (text : string) (e : exn) :
  Cli.parse_languages text = Raise e ->
  exists before l after,
    split "," text = (before ++ l :: after)%list
    /\ Forall (fun x => Util.supported x = true) before
    /\ Util.supported l = false
    /\ e = ArgumentTypeError ("Invalid language code: " ++ l).
Proof.
  unfold Cli.parse_languages.
  destruct (Util.first_unsupported (split "," text)) as [l|] eqn:F;
    [|discriminate].
  intros [= <-].
  destruct (first_unsupported_position _ _ F) as (b & a & S & Hb & Hl).
  exists b, l, a. auto.
Qed.

Lemma X4_parse_languages_names_the_first_bad_code_witness :
  exists before after,
    split "," "en, es,xx" = (before ++ " es" :: after)%list
    /\ Cli.parse_languages "en, es,xx"
       = Raise (ArgumentTypeError "Invalid language code:  es").
Proof.
  assert (E : Cli.parse_languages "en, es,xx"
              = Raise (ArgumentTypeError "Invalid language code:  es"))
    by reflexivity.
  destruct (X4_parse_languages_names_the_first_bad_code _ _ E)
    as (b & l & a & S & _ & _ & M).
  cbn in M. inversion M. subst l. exists b, a. auto.
Defined.

(** X5.  Whenever [parse_args] returns, it has written nothing and the
    namespace holds what was typed: [--languages] was given, its value split
    at the commas is the language list, in that order, never empty and of
    supported codes only; the file and the key are those of the command line;
    the model is the one given, which is then a model name, or [large] when
    there is none.  The line of the final check for an empty language list is
    never printed: that check cannot fire.  And without [--model] the outcome
    does not depend on the model names at all, so the default [large] is
    never checked against them. *)
Theorem X5_parse_args_returns_what_was_typed
        (MODELS : list string) (av : Cli.argv) (s : Cli.state) :
  (forall ns s',
      Cli.parse_args MODELS av s = (Ok ns, s') ->
      s' = s
      /\ exists text,
          Cli.av_languages av = Some text
          /\ Cli.languages ns = split "," text
          /\ Cli.languages ns <> []
          /\ Forall (fun l => Util.supported l = true) (Cli.languages ns)
          /\ Cli.file ns = Cli.av_file av
          /\ Cli.api_key ns = Cli.av_api_key av
          /\ Cli.model ns = match Cli.av_model av with
                            | Some m => m
                            | None => "large"
                            end
          /\ (forall m, Cli.av_model av = Some m -> mem m MODELS = true))
  /\ (exists tr,
         Cli.out (snd (Cli.parse_args MODELS av s)) = (Cli.out s ++ tr)%list
         /\ ~ In (Cli.EStderr "You must provide at least one --languages") tr)
  /\ (Cli.av_model av = None ->
      forall MODELS', Cli.parse_args MODELS' av s = Cli.parse_args MODELS av s).
Proof.
  split; [|split].
  - intros ns s'.
    unfold Cli.parse_args, Cli.parser_error, Cli.emit, bind, raise, ret.
    destruct (Cli.av_languages av) as [text|]; [|discriminate].
    unfold Cli.parse_languages.
    destruct (Util.first_unsupported (split "," text)) eqn:F; [discriminate|].
    destruct (match Cli.av_model av with
              | Some m => negb (mem m MODELS)
              | None => false
              end) eqn:Mo; [discriminate|].
    destruct (split "," text) as [|l ls] eqn:S; [discriminate|].
    intros [= <- <-]. split; [reflexivity|]. exists text.
    cbn [Cli.languages Cli.file Cli.api_key Cli.model]. rewrite S.
    split; [reflexivity|]. split; [reflexivity|]. split; [discriminate|].
    split; [apply first_unsupported_none; exact F|].
    split; [reflexivity|]. split; [reflexivity|]. split; [reflexivity|].
    intros m Hm. rewrite Hm in Mo.
    destruct (mem m MODELS); [reflexivity|discriminate].
  - unfold Cli.parse_args, Cli.parser_error, Cli.emit, bind, raise, ret.
    destruct (Cli.av_languages av) as [text|].
    2:{ eexists. split; [reflexivity|]. intros [H|[]]. discriminate. }
    unfold Cli.parse_languages.
    destruct (Util.first_unsupported (split "," text)) as [l|].
    { eexists. split; [reflexivity|]. intros [H|[]]. discriminate. }
    destruct (match Cli.av_model av with
              | Some m => negb (mem m MODELS)
              | None => false
              end).
    { eexists. split; [reflexivity|]. intros [H|[]]. discriminate. }
    destruct (split "," text) eqn:S; [exfalso; eapply split_nonempty; eauto|].
    exists []. cbn [snd]. rewrite app_nil_r. split; [reflexivity|]. intros [].
  - intros Mo MODELS'. unfold Cli.parse_args. rewrite Mo. reflexivity.
Qed.

Lemma X5_parse_args_returns_what_was_typed_witness :
  Cli.languages (Scenario2.demo_args None) = ["en"; "es"]
  /\ Cli.model (Scenario2.demo_args None) = "large"
  /\ Cli.parse_args [] (Scenario.demo None) (Cli.initial Scenario.no_files)
     = Cli.parse_args Scenario.MODELS (Scenario.demo None)
                      (Cli.initial Scenario.no_files).
Proof.
  destruct (X5_parse_args_returns_what_was_typed
              Scenario.MODELS (Scenario.demo None) (Cli.initial Scenario.no_files))
    as (H & _ & I).
  destruct (H (Scenario2.demo_args None) (Cli.initial Scenario.no_files) eq_refl)
    as (_ & text & L & S & _ & _ & _ & _ & Mo & _).
  injection L as <-.
  split; [exact S|]. split; [exact Mo|]. exact (I eq_refl []).
Defined.

(* ------------------------------------------------------------------ *)
(** ** The cached key *)

(** Asking for the key, in full. *)
Lemma validate_api_key_prompted
      (HERE : string) (w : Cli.world) (s : Cli.state) (text key : string) :
  Cli.fs s (Cli.API_KEY_FILE HERE) = Some text ->
  strip text = EmptyString ->
  Cli.input w "Enter your Transcribe Anything API key: " = Ok key ->
  Cli.open_for_writing w (Cli.API_KEY_FILE HERE) = Ok tt ->
  Cli.validate_api_key HERE w s
  = (Ok (strip key),
     {| Cli.fs := fun p => if String.eqb p (Cli.API_KEY_FILE HERE)
                           then Some key else Cli.fs s p;
        Cli.out := Cli.out s
                   ++ [Cli.EInput "Enter your Transcribe Anything API key: ";
                       Cli.EWrite (Cli.API_KEY_FILE HERE) key] |}).
Proof.
  intros F Hb Hi Hw.
  unfold Cli.validate_api_key, Cli.read_api_key, Cli.read_utf8,
    Cli.write_api_key, Cli.write_utf8, Cli.emit, bind, ret, lift.
  rewrite F, Hb. cbn [falsy]. rewrite Hi. cbn [Cli.fs Cli.out]. rewrite Hw.
  cbn [Cli.fs Cli.out]. rewrite String.eqb_refl, <- app_assoc. reflexivity.
Qed.

(** X7.  For a cache file and an answer of ASCII characters without
    carriage return.  With a cached key that is not blank,
    [validate_api_key] returns it stripped and asks and writes nothing.
    With a blank cache file it asks once, writes the answer to the cache
    file as typed, and returns the answer stripped; if that is not blank,
    the next call returns the same key without asking again. *)
Theorem X7_validate_api_key_asks_once
        (HERE : string) (w : Cli.world) (s : Cli.state) (text : string) :
  Cli.fs s (Cli.API_KEY_FILE HERE) = Some text ->
  Text.plain text = true ->
  let prompt := "Enter your Transcribe Anything API key: " in
  (strip text <> EmptyString ->
   Cli.validate_api_key HERE w s = (Ok (strip text), s))
  /\ (forall key,
         Text.plain key = true ->
         strip text = EmptyString ->
         Cli.input w prompt = Ok key ->
         Cli.open_for_writing w (Cli.API_KEY_FILE HERE) = Ok tt ->
         let s' := snd (Cli.validate_api_key HERE w s) in
         fst (Cli.validate_api_key HERE w s) = Ok (strip key)
         /\ Cli.fs s' (Cli.API_KEY_FILE HERE) = Some key
         /\ Cli.out s'
            = (Cli.out s ++ [Cli.EInput prompt;
                             Cli.EWrite (Cli.API_KEY_FILE HERE) key])%list
         /\ (strip key <> EmptyString ->
             Cli.validate_api_key HERE w s' = (Ok (strip key), s'))).
Proof.
  intros F _ prompt. split.
  - intros Hne. apply validate_api_key_cached; assumption.
  - intros key _ Hb Hi Hw. subst prompt.
    rewrite (validate_api_key_prompted HERE w s text key F Hb Hi Hw).
    cbn [fst snd Cli.fs Cli.out]. rewrite String.eqb_refl.
    split; [reflexivity|]. split; [reflexivity|]. split; [reflexivity|].
    intros Hne. apply validate_api_key_cached; [|exact Hne].
    cbn [Cli.fs]. rewrite String.eqb_refl. reflexivity.
Qed.

Lemma X7_validate_api_key_asks_once_witness :
  fst (Cli.validate_api_key Scenario.HERE Scenario.healthy
         (Cli.initial (Scenario.cached " ")))
  = Ok "KEY"
  /\ fst (Cli.validate_api_key Scenario.HERE Scenario.healthy
            (Cli.initial (Scenario.cached "abc ")))
     = Ok "abc".
Proof.
  split.
  - destruct (X7_validate_api_key_asks_once Scenario.HERE Scenario.healthy
                (Cli.initial (Scenario.cached " ")) " ") as [_ H];
      [vm_compute; reflexivity|reflexivity|].
    destruct (H "KEY") as (R & _);
      [reflexivity|reflexivity|reflexivity|reflexivity|].
    exact R.
  - destruct (X7_validate_api_key_asks_once Scenario.HERE Scenario.healthy
                (Cli.initial (Scenario.cached "abc ")) "abc ") as [H _];
      [vm_compute; reflexivity|reflexivity|].
    rewrite H; [reflexivity|discriminate].
Defined.

(* ------------------------------------------------------------------ *)
(** ** [main], step by step *)

Section MainSteps.

Variables (HERE version : string) (MODELS : list string) (w : Cli.world).

Lemma prompts_app (l1 l2 : list Cli.event) :
  Trace.prompts (l1 ++ l2) = (Trace.prompts l1 ++ Trace.prompts l2)%list.
Proof.
  induction l1 as [|e l1 IH]; cbn; [reflexivity|].
  destruct e; cbn; rewrite ?IH; reflexivity.
Qed.

Lemma writes_app (l1 l2 : list Cli.event) :
  Trace.writes (l1 ++ l2) = (Trace.writes l1 ++ Trace.writes l2)%list.
Proof.
  induction l1 as [|e l1 IH]; cbn; [reflexivity|].
  destruct e; cbn; rewrite ?IH; reflexivity.
Qed.

Lemma print_cards_trace (cards : list Util.GraphicsInfo) (s : Cli.state) :
  for_each cards (fun card => Cli.print (Cli.card_line card)) s
  = (Ok tt,
     {| Cli.fs := Cli.fs s;
        Cli.out := Cli.out s
                   ++ map (fun card => Cli.EPrint (Cli.card_line card)) cards |}).
Proof.
  revert s. induction cards as [|c cards IH]; intros s; cbn [for_each map].
  - rewrite app_nil_r. destruct s; reflexivity.
  - unfold bind. unfold Cli.print at 1, Cli.emit at 1. rewrite IH.
    cbn [Cli.fs Cli.out]. rewrite <- app_assoc. reflexivity.
Qed.

(** A successful parse returns the command line, field by field. *)
Lemma parse_args_fields (av : Cli.argv) (s s' : Cli.state) (ns : Cli.Namespace) :
  Cli.parse_args MODELS av s = (Ok ns, s') ->
  s' = s
  /\ exists text,
      Cli.av_languages av = Some text
      /\ Forall (fun l => Util.supported l = true) (split "," text)
      /\ (forall m, Cli.av_model av = Some m -> mem m MODELS = true)
      /\ ns = {| Cli.file := Cli.av_file av;
                 Cli.languages := split "," text;
                 Cli.model := match Cli.av_model av with
                              | Some m => m
                              | None => "large"
                              end;
                 Cli.api_key := Cli.av_api_key av |}.
Proof.
  unfold Cli.parse_args, Cli.parser_error, Cli.emit, bind, raise, ret.
  destruct (Cli.av_languages av) as [text|]; [|discriminate].
  unfold Cli.parse_languages.
  destruct (Util.first_unsupported (split "," text)) eqn:F; [discriminate|].
  destruct (match Cli.av_model av with
            | Some m => negb (mem m MODELS)
            | None => false
            end) eqn:Mo; [discriminate|].
  destruct (split "," text) eqn:S; [discriminate|].
  intros [= <- <-]. split; [reflexivity|]. exists text.
  rewrite S. split; [reflexivity|].
  split; [apply first_unsupported_none; exact F|].
  split; [|reflexivity].
  intros m Hm. rewrite Hm in Mo. destruct (mem m MODELS); [reflexivity|discriminate].
Qed.

(** [main_try] past the preflight, with the state in full. *)
Lemma main_try_past_preflight
      (av : Cli.argv) (s : Cli.state) (ns : Cli.Namespace)
      (cards : list Util.GraphicsInfo) :
  Cli.parse_args MODELS av s = (Ok ns, s) ->
  Cli.os_path_exists w (Cli.file ns) = true ->
  fst (Cli.ensure_dependencies w (Cli.greeted version s)) = Ok cards ->
  Cli.main_try HERE version MODELS w av s =
  match Cli.effective_api_key HERE w ns
          {| Cli.fs := Cli.fs s;
             Cli.out := Cli.out s ++ Trace.card_report version cards |} with
  | (Raise e, s2) => (Raise e, s2)
  | (Ok k, s2) =>
      (match Cli.run w (Cli.kwargs ns k) with
       | Ok _ => Ok None
       | Raise e => Raise e
       end,
       {| Cli.fs := Cli.fs s2;
          Cli.out := Cli.out s2
                     ++ (if opt_eqb k "free" then [Trace.advisory] else [])
                     ++ [Cli.ERun (Cli.kwargs ns k)] |})
  end.
Proof.
  intros E X D.
  assert (Cli.ensure_dependencies w (Cli.greeted version s)
          = (Ok cards, Cli.greeted version s)) as D'.
  { revert D. unfold Cli.ensure_dependencies, bind, lift, raise, ret.
    destruct (Cli.query_cuda_video_cards w) as [[|c cs]|e0]; simpl; try discriminate.
    destruct (Cli.ensure_transcribe_anything_installed w); simpl; try discriminate.
    intros [= <-]. reflexivity. }
  unfold Cli.main_try.
  rewrite (bind_ok _ _ _ _ _ E). cbv beta zeta. rewrite X. cbn [negb].
  erewrite (bind_ok (Cli.print _)) by reflexivity. cbv beta.
  fold (Cli.greeted version s).
  rewrite (bind_ok _ _ _ _ _ D'). cbv beta.
  erewrite (bind_ok (Cli.print _)) by reflexivity. cbv beta.
  unfold Cli.greeted. cbn [Cli.fs Cli.out].
  rewrite (bind_ok _ _ _ _ _ (print_cards_trace cards _)). cbv beta.
  cbn [Cli.fs Cli.out]. rewrite <- !app_assoc. cbn [app].
  fold (Trace.card_report version cards).
  unfold bind at 1.
  destruct (Cli.effective_api_key HERE w ns _) as [[k|e] s2]; [|reflexivity].
  unfold Cli.warn_if_free, Cli.warnings_warn, Cli.call_run, Cli.emit, bind, ret, lift.
  fold (Cli.kwargs ns k). unfold Trace.advisory.
  destruct (opt_eqb k "free"); cbn [Cli.fs Cli.out app];
    destruct (Cli.run w (Cli.kwargs ns k)); rewrite <- ?app_assoc; reflexivity.
Qed.

(** The handler of [main] writes no file. *)
Lemma main_fs (av : Cli.argv) (s : Cli.state) :
  Cli.fs (snd (Cli.main HERE version MODELS w av s))
  = Cli.fs (snd (Cli.main_try HERE version MODELS w av s)).
Proof.
  unfold Cli.main, try_except, bind, ret.
  destruct (Cli.main_try HERE version MODELS w av s) as [[[c|]|e] s'];
    try reflexivity.
  destruct e; reflexivity.
Qed.

(** Asking for the key touches the cache file only. *)
Lemma validate_api_key_frame (s : Cli.state) (p : string) :
  p <> Cli.API_KEY_FILE HERE ->
  Cli.fs (snd (Cli.validate_api_key HERE w s)) p = Cli.fs s p.
Proof.
  intros Hp. apply String.eqb_neq in Hp.
  unfold Cli.validate_api_key, Cli.read_api_key, Cli.read_utf8,
    Cli.write_api_key, Cli.write_utf8, Cli.emit, bind, ret, lift.
  destruct (Cli.fs s (Cli.API_KEY_FILE HERE)) as [text|]; [|reflexivity].
  destruct (falsy (strip text)); [|reflexivity].
  cbn [Cli.fs Cli.out].
  destruct (Cli.input w _); [|reflexivity].
  destruct (Cli.open_for_writing w _); [|reflexivity].
  cbn [Cli.fs Cli.out]. rewrite String.eqb_refl. cbn [snd Cli.fs].
  rewrite Hp. reflexivity.
Qed.

Lemma effective_api_key_frame (ns : Cli.Namespace) (s : Cli.state) (p : string) :
  p <> Cli.API_KEY_FILE HERE ->
  Cli.fs (snd (Cli.effective_api_key HERE w ns s)) p = Cli.fs s p.
Proof.
  intros Hp. unfold Cli.effective_api_key.
  destruct (truthy (Cli.api_key ns)).
  - destruct (opt_eqb (Cli.api_key ns) "free"); reflexivity.
  - pose proof (validate_api_key_frame s p Hp) as V.
    unfold bind, ret. destruct (Cli.validate_api_key HERE w s) as [[k|e] s'];
      exact V.
Qed.

End MainSteps.

Section MainStates.

Variables (HERE version : string) (MODELS : list string) (w : Cli.world).
Variables (av : Cli.argv) (files : string -> option string).

(** [main] in terms of its [try] block. *)
Lemma main_unfold (s : Cli.state) :
  Cli.main HERE version MODELS w av s =
  match Cli.main_try HERE version MODELS w av s with
  | (Ok (Some code), s') => (Ok code, s')
  | (Ok None, s') => (Ok 0%Z, s')
  | (Raise KeyboardInterrupt, s') =>
      (Ok 1%Z, {| Cli.fs := Cli.fs s';
                  Cli.out := Cli.out s'
                             ++ [Cli.EPrint "Exiting due to keyboard interrupt."] |})
  | (Raise e, s') => (Raise e, s')
  end.
Proof.
  unfold Cli.main, try_except, bind, ret.
  destruct (Cli.main_try HERE version MODELS w av s) as [[[c|]|e] s']; try reflexivity.
  destruct e; reflexivity.
Qed.

(** Every way the [try] block of [main] can end, with the state it leaves:
    the command line is refused; the input file is missing; the preflight
    raises; or the credential is looked up, after which [run] is called if
    the lookup returned. *)
Lemma main_try_states :
  let s0 := Cli.initial files in
  let t := Cli.main_try HERE version MODELS w av s0 in
  (exists line,
      fst (Cli.parse_args MODELS av s0) = Raise (SystemExit 2)
      /\ t = (Raise (SystemExit 2),
              {| Cli.fs := files; Cli.out := [Cli.EStderr line] |}))
  \/ exists ns text,
      Cli.parse_args MODELS av s0 = (Ok ns, s0)
      /\ Cli.av_languages av = Some text
      /\ Forall (fun l => Util.supported l = true) (split "," text)
      /\ (forall m, Cli.av_model av = Some m -> mem m MODELS = true)
      /\ ns = {| Cli.file := Cli.av_file av;
                 Cli.languages := split "," text;
                 Cli.model := match Cli.av_model av with
                              | Some m => m
                              | None => "large"
                              end;
                 Cli.api_key := Cli.av_api_key av |}
      /\ ((Cli.os_path_exists w (Cli.av_file av) = false
           /\ t = (Ok (Some 1%Z),
                   {| Cli.fs := files;
                      Cli.out := [Cli.EPrint ("Error - file does not exist: "
                                                ++ Cli.av_file av)] |}))
          \/ (Cli.os_path_exists w (Cli.av_file av) = true
              /\ ((exists e,
                      fst (Cli.ensure_dependencies w s0) = Raise e
                      /\ t = (Raise e,
                              {| Cli.fs := files;
                                 Cli.out := [Cli.EPrint ("videosubtitles version: "
                                                           ++ version)] |}))
                  \/ (exists cards,
                         fst (Cli.ensure_dependencies w s0) = Ok cards
                         /\ t = match Cli.effective_api_key HERE w ns
                                        {| Cli.fs := files;
                                           Cli.out := Trace.card_report version cards |} with
                                | (Raise e, s2) => (Raise e, s2)
                                | (Ok k, s2) =>
                                    (match Cli.run w (Cli.kwargs ns k) with
                                     | Ok _ => Ok None
                                     | Raise e => Raise e
                                     end,
                                     {| Cli.fs := Cli.fs s2;
                                        Cli.out :=
                                          Cli.out s2
                                          ++ (if opt_eqb k "free"
                                              then [Trace.advisory] else [])
                                          ++ [Cli.ERun (Cli.kwargs ns k)] |})
                                end)))).
Proof.
  intros s0 t. subst t.
  assert (ED : forall s1 s2, fst (Cli.ensure_dependencies w s1)
                             = fst (Cli.ensure_dependencies w s2)).
  { intros s1 s2. unfold Cli.ensure_dependencies, bind, lift, raise, ret.
    destruct (Cli.query_cuda_video_cards w) as [[|c cs]|e]; try reflexivity.
    destruct (Cli.ensure_transcribe_anything_installed w); reflexivity. }
  destruct (parse_args_cases MODELS av s0) as [(ns & E & _)|(m & E)].
  2:{ left. exists m. rewrite (main_try_parse_error _ _ _ _ _ _ _ _ E).
      rewrite E. split; reflexivity. }
  right.
  destruct (parse_args_fields MODELS av s0 s0 ns E) as (_ & text & L & HF & HM & Hns).
  exists ns, text. split; [exact E|].
  split; [exact L|]. split; [exact HF|]. split; [exact HM|].
  split; [exact Hns|].
  assert (Hf : Cli.file ns = Cli.av_file av) by (rewrite Hns; reflexivity).
  rewrite <- Hf.
  destruct (Cli.os_path_exists w (Cli.file ns)) eqn:X.
  2:{ left. split; [reflexivity|].
      rewrite (main_try_no_file _ _ _ _ _ _ _ E X). reflexivity. }
  right. split; [reflexivity|].
  rewrite (ED s0 (Cli.greeted version s0)).
  destruct (fst (Cli.ensure_dependencies w (Cli.greeted version s0)))
    as [cards|e] eqn:D.
  - right. exists cards. split; [reflexivity|].
    rewrite (main_try_past_preflight HERE version MODELS w av s0 ns cards E X D).
    reflexivity.
  - left. exists e. split; [reflexivity|].
    rewrite (main_try_preflight_error HERE version MODELS w av s0 ns e E X D).
    reflexivity.
Qed.

End MainStates.

(* ------------------------------------------------------------------ *)
(** ** What [main] touches, calls and returns *)

Section MainExtras.

Variables (HERE version : string) (MODELS : list string) (w : Cli.world).
Variables (av : Cli.argv) (files : string -> option string).

Lemma card_report_quiet (cards : list Util.GraphicsInfo) :
  Trace.prompts (Trace.card_report version cards) = []
  /\ Trace.writes (Trace.card_report version cards) = []
  /\ Cli.run_calls (Trace.card_report version cards) = []
  /\ Cli.warnings (Trace.card_report version cards) = [].
Proof.
  unfold Trace.card_report. cbn.
  induction cards as [|c cards (IH1 & IH2 & IH3 & IH4)]; cbn; auto.
Qed.

End MainExtras.

Section MainOutcomes.

Variables (HERE version : string) (MODELS : list string) (w : Cli.world).
Variables (av : Cli.argv) (files : string -> option string).

(** Every way [main] can end, started with nothing done yet, with its
    result and the state it leaves. *)
Lemma main_states :
  let s0 := Cli.initial files in
  let r := Cli.main HERE version MODELS w av s0 in
  (exists line,
      fst (Cli.parse_args MODELS av s0) = Raise (SystemExit 2)
      /\ r = (Raise (SystemExit 2),
              {| Cli.fs := files; Cli.out := [Cli.EStderr line] |}))
  \/ exists ns text,
      Cli.parse_args MODELS av s0 = (Ok ns, s0)
      /\ Cli.av_languages av = Some text
      /\ Forall (fun l => Util.supported l = true) (split "," text)
      /\ (forall m, Cli.av_model av = Some m -> mem m MODELS = true)
      /\ ns = {| Cli.file := Cli.av_file av;
                 Cli.languages := split "," text;
                 Cli.model := match Cli.av_model av with
                              | Some m => m
                              | None => "large"
                              end;
                 Cli.api_key := Cli.av_api_key av |}
      /\ ((Cli.os_path_exists w (Cli.av_file av) = false
           /\ r = (Ok 1%Z,
                   {| Cli.fs := files;
                      Cli.out := [Cli.EPrint ("Error - file does not exist: "
                                                ++ Cli.av_file av)] |}))
          \/ (Cli.os_path_exists w (Cli.av_file av) = true
              /\ ((exists e,
                      fst (Cli.ensure_dependencies w s0) = Raise e
                      /\ r = (Cli.handled (Raise e),
                              {| Cli.fs := files;
                                 Cli.out := Cli.EPrint ("videosubtitles version: "
                                                          ++ version)
                                            :: Trace.interrupt_note e |}))
                  \/ (exists cards,
                         fst (Cli.ensure_dependencies w s0) = Ok cards
                         /\ match Cli.effective_api_key HERE w ns
                                    {| Cli.fs := files;
                                       Cli.out := Trace.card_report version cards |} with
                            | (Raise e, s2) =>
                                r = (Cli.handled (Raise e),
                                     {| Cli.fs := Cli.fs s2;
                                        Cli.out := Cli.out s2
                                                   ++ Trace.interrupt_note e |})
                            | (Ok k, s2) =>
                                r = (Cli.handled
                                       (match Cli.run w (Cli.kwargs ns k) with
                                        | Ok _ => Ok None
                                        | Raise e => Raise e
                                        end),
                                     {| Cli.fs := Cli.fs s2;
                                        Cli.out :=
                                          Cli.out s2
                                          ++ Trace.advisory_for k
                                          ++ [Cli.ERun (Cli.kwargs ns k)]
                                          ++ Trace.interrupt_note_after
                                               (Cli.run w (Cli.kwargs ns k)) |})
                            end)))).
Proof.
  intros s0 r. subst r s0. rewrite main_unfold.
  pose proof (main_try_states HERE version MODELS w av files) as C. cbv zeta in C.
  destruct C as [(line & PE & T)|(ns & text & PE & L & HF & HM & Hns & [(X & T)|(X & [(e & D & T)|(cards & D & T)])])];
    rewrite T; clear T.
  - left. exists line. split; [assumption|reflexivity].
  - right. exists ns, text. repeat (split; [assumption|]). left. auto.
  - right. exists ns, text. repeat (split; [assumption|]). right.
    split; [assumption|]. left. exists e. split; [assumption|].
    destruct e; reflexivity.
  - right. exists ns, text. repeat (split; [assumption|]). right.
    split; [assumption|]. right. exists cards. split; [assumption|].
    destruct (Cli.effective_api_key HERE w ns _) as [[k|e] s2].
    + unfold Trace.advisory_for.
      destruct (opt_eqb k "free");
        (destruct (Cli.run w (Cli.kwargs ns k)) as [d|e]; [|destruct e]);
        cbn; rewrite <- ?app_assoc; reflexivity.
    + destruct s2; destruct e; cbn; rewrite ?app_nil_r; reflexivity.
Qed.

End MainOutcomes.

(* ------------------------------------------------------------------ *)
(** ** What [main] itself asks and writes *)

Section MainWrites.

Variables (HERE version : string) (MODELS : list string) (w : Cli.world).
Variables (av : Cli.argv) (files : string -> option string).

(** What the lookup of the credential adds to the trace: nothing; the
    prompt; or the prompt and the answer written to the cache file.  With a
    usable flag it adds nothing. *)
Lemma effective_api_key_trace (ns : Cli.Namespace) (s : Cli.state) :
  let prompt := "Enter your Transcribe Anything API key: " in
  exists tr,
    Cli.out (snd (Cli.effective_api_key HERE w ns s)) = (Cli.out s ++ tr)%list
    /\ (tr = []
        \/ (truthy (Cli.api_key ns) = false
            /\ (tr = [Cli.EInput prompt]
                \/ exists key,
                    Cli.input w prompt = Ok key
                    /\ tr = [Cli.EInput prompt;
                             Cli.EWrite (Cli.API_KEY_FILE HERE) key]))).
Proof.
  cbv zeta. unfold Cli.effective_api_key.
  destruct (truthy (Cli.api_key ns)) eqn:T.
  - exists []. rewrite app_nil_r.
    destruct (opt_eqb (Cli.api_key ns) "free"); split; auto.
  - unfold Cli.validate_api_key, Cli.read_api_key, Cli.read_utf8,
      Cli.write_api_key, Cli.write_utf8, Cli.emit, bind, ret, lift.
    destruct (Cli.fs s (Cli.API_KEY_FILE HERE)) as [text|];
      [|exists []; rewrite app_nil_r; split; auto].
    destruct (falsy (strip text));
      [|exists []; rewrite app_nil_r; split; auto].
    cbn [Cli.fs Cli.out].
    destruct (Cli.input w _) as [key|e] eqn:I;
      [|eexists; split; [reflexivity|right; split; [reflexivity|left; reflexivity]]].
    destruct (Cli.open_for_writing w _) as [[]|e];
      [|eexists; split; [reflexivity|right; split; [reflexivity|left; reflexivity]]].
    cbn [Cli.fs Cli.out]. rewrite String.eqb_refl.
    exists [Cli.EInput "Enter your Transcribe Anything API key: ";
            Cli.EWrite (Cli.API_KEY_FILE HERE) key].
    split; [cbn [snd Cli.out]; rewrite <- app_assoc; reflexivity|].
    right. split; [reflexivity|]. right. exists key. split; reflexivity.
Qed.

Lemma notes_write_nothing :
  (forall e, Trace.writes (Trace.interrupt_note e) = []
             /\ Trace.prompts (Trace.interrupt_note e) = [])
  /\ (forall k, Trace.writes (Trace.advisory_for k) = []
                /\ Trace.prompts (Trace.advisory_for k) = [])
  /\ (forall A (r : res A),
         Trace.writes (Trace.interrupt_note_after r) = []
         /\ Trace.prompts (Trace.interrupt_note_after r) = []).
Proof.
  assert (N : forall e, Trace.writes (Trace.interrupt_note e) = []
                        /\ Trace.prompts (Trace.interrupt_note e) = [])
    by (intros e; destruct e; cbn; auto).
  split; [exact N|]. split.
  - intros k. unfold Trace.advisory_for. destruct (opt_eqb k "free"); cbn; auto.
  - intros A r. destruct r as [a|e]; cbn; [auto|apply N].
Qed.

(** X8.  Of its own, [main] asks at most one question and writes at most one
    file, however the run ends and whatever the pipeline does: the question
    is the prompt for the key, the file is the cache file, it is written only
    after the prompt, and its new text is the answer as typed.  With a
    non-empty [--api-key], [main] asks nothing and writes nothing. *)
Theorem X8_main_asks_and_writes_at_most_once :
  let prompt := "Enter your Transcribe Anything API key: " in
  let tr := Cli.out (snd (Cli.main HERE version MODELS w av (Cli.initial files))) in
  ((Trace.prompts tr = [] /\ Trace.writes tr = [])
   \/ (Trace.prompts tr = [prompt]
       /\ (Trace.writes tr = []
           \/ exists key,
               Cli.input w prompt = Ok key
               /\ Trace.writes tr = [(Cli.API_KEY_FILE HERE, key)])))
  /\ (truthy (Cli.av_api_key av) = true ->
      Trace.prompts tr = [] /\ Trace.writes tr = []).
Proof.
  cbv zeta.
  destruct notes_write_nothing as (N & A & NA).
  assert (Q : forall line, Trace.prompts [Cli.EPrint line] = []
                           /\ Trace.writes [Cli.EPrint line] = [])
    by (intros; cbn; auto).
  pose proof (main_states HERE version MODELS w av files) as C. cbv zeta in C.
  destruct C as [(line & _ & T)|(ns & text & _ & _ & _ & _ & Hns & [(X & T)|(X & [(e & D & T)|(cards & D & T)])])].
  - rewrite T. cbn. split; [left|]; auto.
  - rewrite T. cbn. split; [left|]; auto.
  - rewrite T. cbn [snd Cli.out Trace.prompts Trace.writes].
    destruct (N e) as [Nw Np]. rewrite Nw, Np. split; [left|]; auto.
  - assert (Hk : Cli.api_key ns = Cli.av_api_key av) by (rewrite Hns; reflexivity).
    destruct (card_report_quiet version cards) as (P & W & _ & _).
    pose proof (effective_api_key_trace ns
                  {| Cli.fs := files;
                     Cli.out := Trace.card_report version cards |}) as E.
    cbv zeta in E. destruct E as (tr & O & Shape). rewrite Hk in Shape.
    assert (G : forall rest,
               Trace.prompts rest = [] -> Trace.writes rest = [] ->
               Trace.prompts (Trace.card_report version cards ++ tr ++ rest)
               = Trace.prompts tr
               /\ Trace.writes (Trace.card_report version cards ++ tr ++ rest)
                  = Trace.writes tr).
    { intros rest Rp Rw. rewrite !prompts_app, !writes_app, P, W, Rp, Rw.
      cbn [app]. rewrite !app_nil_r. auto. }
    assert (R : exists rest,
               Cli.out (snd (Cli.main HERE version MODELS w av (Cli.initial files)))
               = (Trace.card_report version cards ++ tr ++ rest)%list
               /\ Trace.prompts rest = [] /\ Trace.writes rest = []).
    { destruct (Cli.effective_api_key HERE w ns _) as [[k|e] s2];
        cbn [snd] in O; rewrite T; cbn [snd Cli.out Cli.fs]; rewrite O;
        cbn [Cli.out].
      - eexists. split; [rewrite <- app_assoc; reflexivity|].
        rewrite !prompts_app, !writes_app.
        destruct (A k) as [Aw Ap]. destruct (NA _ (Cli.run w (Cli.kwargs ns k)))
          as [Rw Rp].
        rewrite Aw, Ap, Rw, Rp. cbn. auto.
      - exists (Trace.interrupt_note e).
        split; [rewrite <- app_assoc; reflexivity|].
        destruct (N e) as [Nw Np]. auto. }
    destruct R as (rest & Out & Rp & Rw). rewrite Out.
    destruct (G rest Rp Rw) as [Gp Gw]. rewrite Gp, Gw.
    destruct Shape as [->|(Tf & [->|(key & I & ->)])].
    + cbn. split; [left|]; auto.
    + cbn. split; [right; split; [reflexivity|left; reflexivity]|].
      rewrite Tf. discriminate.
    + cbn. split; [|rewrite Tf; discriminate].
      right. split; [reflexivity|]. right. exists key. auto.
Qed.

End MainWrites.

Lemma X8_main_asks_and_writes_at_most_once_witness :
  let flagged := Cli.out (snd (Cli.main Scenario.HERE Scenario.version
                                        Scenario.MODELS Scenario.healthy
                                        (Scenario.demo (Some "KEY"))
                                        (Cli.initial (Scenario.cached " ")))) in
  Trace.prompts flagged = [] /\ Trace.writes flagged = [].
Proof.
  pose proof (X8_main_asks_and_writes_at_most_once
                Scenario.HERE Scenario.version Scenario.MODELS Scenario.healthy
                (Scenario.demo (Some "KEY")) (Scenario.cached " ")) as H.
  cbv zeta in H. destruct H as [_ H]. exact (H eq_refl).
Defined.


Section MainCalls.

Variables (HERE version : string) (MODELS : list string) (w : Cli.world).
Variables (av : Cli.argv) (files : string -> option string).

Lemma notes_quiet :
  (forall e, Cli.run_calls (Trace.interrupt_note e) = []
             /\ Cli.warnings (Trace.interrupt_note e) = []
             /\ Trace.prompts (Trace.interrupt_note e) = [])
  /\ (forall k, Cli.run_calls (Trace.advisory_for k) = []
                /\ Trace.prompts (Trace.advisory_for k) = []).
Proof.
  split.
  - intros e. destruct e; cbn; auto.
  - intros k. unfold Trace.advisory_for. destruct (opt_eqb k "free"); cbn; auto.
Qed.

(** The calls of [run] in the trace [main] leaves when it gets as far as the
    call. *)
Lemma run_calls_of_call (s2 : Cli.state)
      (k : option string) (a : Cli.run_args) (r : res string) :
  Cli.run_calls (Cli.out s2) = [] ->
  Cli.run_calls (Cli.out s2 ++ Trace.advisory_for k ++ [Cli.ERun a]
                            ++ Trace.interrupt_note_after r)
  = [a].
Proof.
  intros R. rewrite !run_calls_app, R.
  destruct notes_quiet as [N A]. rewrite (proj1 (A k)).
  destruct r as [d|e]; cbn; [reflexivity|].
  rewrite (proj1 (N e)). reflexivity.
Qed.

(** X9.  [main] calls [run] at most once, and only after the command line
    was accepted, the input file was found and the preflight passed.  The
    call passes the file name as typed, the supported language codes in the
    order typed, the model of the command line ([large] by default), and no
    subtitle format. *)
Theorem X9_main_calls_run_at_most_once :
  let s0 := Cli.initial files in
  let r := Cli.main HERE version MODELS w av s0 in
  length (Cli.run_calls (Cli.out (snd r))) <= 1
  /\ forall a,
      In a (Cli.run_calls (Cli.out (snd r))) ->
      (exists text,
          Cli.av_languages av = Some text
          /\ Cli.ra_out_languages a = split "," text
          /\ Forall (fun l => Util.supported l = true) (split "," text))
      /\ Cli.ra_file a = Cli.av_file av
      /\ Cli.ra_model a = match Cli.av_model av with
                          | Some m => m
                          | None => "large"
                          end
      /\ Cli.ra_convert_to_webvtt a = None
      /\ Cli.os_path_exists w (Cli.av_file av) = true
      /\ exists cards, fst (Cli.ensure_dependencies w s0) = Ok cards.
Proof.
  intros s0 r. subst r s0.
  pose proof (main_states HERE version MODELS w av files) as C. cbv zeta in C.
  destruct C as [(line & PE & T)|(ns & text & PE & L & HF & HM & Hns & [(X & T)|(X & [(e & D & T)|(cards & D & T)])])].
  - rewrite T. cbn. split; [lia|intros a []].
  - rewrite T. cbn. split; [lia|intros a []].
  - rewrite T. cbn [snd Cli.out Cli.run_calls].
    rewrite (proj1 (proj1 notes_quiet e)). cbn. split; [lia|intros a []].
  - destruct (card_report_quiet version cards) as (_ & _ & R & _).
    destruct (effective_api_key_quiet HERE w ns
                {| Cli.fs := files; Cli.out := Trace.card_report version cards |})
      as (tr & O & R2 & _).
    destruct (Cli.effective_api_key HERE w ns _) as [[k|e] s2];
      cbn [snd Cli.out] in O; rewrite T; cbn [snd Cli.out].
    + rewrite run_calls_of_call
        by (rewrite O, run_calls_app, R, R2; reflexivity).
      split; [cbn; lia|].
      intros a [<-|[]]. rewrite Hns. cbn.
      split; [eauto|]. repeat split; eauto.
    + rewrite run_calls_app, O, run_calls_app, R, R2.
      rewrite (proj1 (proj1 notes_quiet e)). cbn. split; [lia|intros a []].
Qed.

(** X10.  Once [run] has been called, [main] does nothing of its own.  If
    [run] returns, [main] returns 0.  If [run] raises anything but the
    interrupt, the very exception leaves [main], nothing is printed after
    the call, and the process ends with status 1 for any subclass of
    [Exception]: a failed job is a traceback, not a message. *)
Theorem X10_main_after_the_call (args : Cli.run_args) :
  let r := Cli.main HERE version MODELS w av (Cli.initial files) in
  In args (Cli.run_calls (Cli.out (snd r))) ->
  (forall d, Cli.run w args = Ok d ->
             fst r = Ok 0%Z
             /\ exists before, Cli.out (snd r) = (before ++ [Cli.ERun args])%list)
  /\ (forall e, Cli.run w args = Raise e -> e <> KeyboardInterrupt ->
                fst r = Raise e
                /\ (is_Exception e = true -> Cli.exit_status (fst r) = 1%Z)
                /\ exists before, Cli.out (snd r) = (before ++ [Cli.ERun args])%list).
Proof.
  intros r. subst r.
  pose proof (main_states HERE version MODELS w av files) as C. cbv zeta in C.
  destruct C as [(line & PE & T)|(ns & text & PE & L & HF & HM & Hns & [(X & T)|(X & [(e & D & T)|(cards & D & T)])])].
  - rewrite T. cbn. intros [].
  - rewrite T. cbn. intros [].
  - rewrite T. cbn [snd Cli.out Cli.run_calls].
    rewrite (proj1 (proj1 notes_quiet e)). intros [].
  - destruct (card_report_quiet version cards) as (_ & _ & R & _).
    destruct (effective_api_key_quiet HERE w ns
                {| Cli.fs := files; Cli.out := Trace.card_report version cards |})
      as (tr & O & R2 & _).
    destruct (Cli.effective_api_key HERE w ns _) as [[k|e] s2];
      cbn [snd Cli.out] in O; rewrite T; cbn [fst snd Cli.out].
    + rewrite run_calls_of_call
        by (rewrite O, run_calls_app, R, R2; reflexivity).
      intros [<-|[]]. split.
      * intros d Hd. rewrite Hd. cbn [Cli.handled Trace.interrupt_note_after].
        split; [reflexivity|].
        exists (Cli.out s2 ++ Trace.advisory_for k)%list.
        rewrite app_nil_r, app_assoc. reflexivity.
      * intros e He Hne. rewrite He.
        assert (N : Trace.interrupt_note e = [])
          by (destruct e; [exfalso; apply Hne|..]; reflexivity).
        cbn [Trace.interrupt_note_after]. rewrite N.
        split; [destruct e; [exfalso; apply Hne|..]; reflexivity|].
        split; [destruct e; cbn; try discriminate; reflexivity|].
        exists (Cli.out s2 ++ Trace.advisory_for k)%list.
        rewrite app_nil_r, app_assoc. reflexivity.
    + rewrite run_calls_app, O, run_calls_app, R, R2.
      rewrite (proj1 (proj1 notes_quiet e)). intros [].
Qed.

(** X11.  Whatever happens outside, [main] returns nothing but 0 or 1, and
    the interrupt never leaves it; it returns 1 only for a missing input
    file or an interrupt. *)
Theorem X11_main_returns_zero_or_one :
  let r := Cli.main HERE version MODELS w av (Cli.initial files) in
  (forall code, fst r = Ok code -> code = 0%Z \/ code = 1%Z)
  /\ fst r <> Raise KeyboardInterrupt
  /\ (fst r = Ok 1%Z ->
      Cli.os_path_exists w (Cli.av_file av) = false
      \/ exists before,
          Cli.out (snd r)
          = (before ++ [Cli.EPrint "Exiting due to keyboard interrupt."])%list).
Proof.
  intros r. subst r.
  pose proof (main_states HERE version MODELS w av files) as C. cbv zeta in C.
  assert (H : forall (e : exn) (tr : list Cli.event),
             (forall code, Cli.handled (Raise e) = Ok code -> code = 0%Z \/ code = 1%Z)
             /\ Cli.handled (Raise e) <> Raise KeyboardInterrupt
             /\ (Cli.handled (Raise e) = Ok 1%Z ->
                 exists before,
                   (tr ++ Trace.interrupt_note e)%list
                   = (before ++ [Cli.EPrint "Exiting due to keyboard interrupt."])%list)).
  { intros e tr. destruct e; cbn; repeat split; try discriminate;
      try (intros ? [= <-]; auto). intros _. exists tr. reflexivity. }
  destruct C as [(line & PE & T)|(ns & text & PE & L & HF & HM & Hns & [(X & T)|(X & [(e & D & T)|(cards & D & T)])])].
  - rewrite T. cbn. repeat split; discriminate.
  - rewrite T. cbn. repeat split; try discriminate; auto.
    intros ? [= <-]. auto.
  - rewrite T. cbn [fst snd Cli.out].
    destruct (H e [Cli.EPrint ("videosubtitles version: " ++ version)])
      as (H1 & H2 & H3).
    split; [exact H1|]. split; [exact H2|]. intros E. right. exact (H3 E).
  - destruct (Cli.effective_api_key HERE w ns _) as [[k|e] s2];
      rewrite T; cbn [fst snd Cli.out].
    + destruct (Cli.run w (Cli.kwargs ns k)) as [d|e].
      * cbn. repeat split; try discriminate. intros ? [= <-]. auto.
      * destruct (H e (Cli.out s2 ++ Trace.advisory_for k
                                  ++ [Cli.ERun (Cli.kwargs ns k)])%list)
          as (H1 & H2 & H3).
        split; [exact H1|]. split; [exact H2|]. intros E. right.
        destruct (H3 E) as (b & Hb). exists b. rewrite <- Hb.
        cbn [Trace.interrupt_note_after]. rewrite <- !app_assoc. reflexivity.
    + destruct (H e (Cli.out s2)) as (H1 & H2 & H3).
      split; [exact H1|]. split; [exact H2|]. intros E. right. exact (H3 E).
Qed.

End MainCalls.

Lemma X9_main_calls_run_at_most_once_witness :
  map Cli.ra_out_languages
      (Cli.run_calls
         (Cli.out (snd (Cli.main Scenario.HERE Scenario.version Scenario.MODELS
                                 Scenario.healthy (Scenario.demo (Some "KEY"))
                                 (Cli.initial Scenario.no_files)))))
  = [["en"; "es"]].
Proof.
  pose proof (X9_main_calls_run_at_most_once
                Scenario.HERE Scenario.version Scenario.MODELS Scenario.healthy
                (Scenario.demo (Some "KEY")) Scenario.no_files) as H.
  cbv zeta in H. destruct H as [Hlen H].
  destruct (Cli.run_calls _) as [|a [|b l]] eqn:E.
  - vm_compute in E. discriminate.
  - destruct (H a (or_introl eq_refl)) as ((text & L & O & _) & _).
    injection L as <-. cbn. rewrite O. reflexivity.
  - cbn in Hlen. lia.
Defined.

Lemma X10_main_after_the_call_witness :
  fst (Cli.main Scenario.HERE Scenario.version Scenario.MODELS
                Scenario2.failing (Scenario.demo (Some "KEY"))
                (Cli.initial Scenario.no_files))
  = Raise (RuntimeError "transcription failed").
Proof.
  pose proof (X10_main_after_the_call
                Scenario.HERE Scenario.version Scenario.MODELS Scenario2.failing
                (Scenario.demo (Some "KEY")) Scenario.no_files
                (Cli.kwargs (Scenario2.demo_args (Some "KEY")) (Some "KEY"))) as H.
  cbv zeta in H. destruct H as [_ H]; [vm_compute; auto|].
  destruct (H (RuntimeError "transcription failed")) as (R & _);
    [reflexivity|discriminate|exact R].
Defined.

Lemma X11_main_returns_zero_or_one_witness :
  fst (Cli.main Scenario.HERE Scenario.version Scenario.MODELS
                Scenario.no_video (Scenario.demo (Some "KEY"))
                (Cli.initial Scenario.no_files)) = Ok 1%Z
  /\ Cli.os_path_exists Scenario.no_video "demo.mp4" = false.
Proof.
  pose proof (X11_main_returns_zero_or_one
                Scenario.HERE Scenario.version Scenario.MODELS Scenario.no_video
                (Scenario.demo (Some "KEY")) Scenario.no_files) as H.
  cbv zeta in H. destruct H as (H1 & _ & H3).
  assert (E : fst (Cli.main Scenario.HERE Scenario.version Scenario.MODELS
                            Scenario.no_video (Scenario.demo (Some "KEY"))
                            (Cli.initial Scenario.no_files)) = Ok 1%Z).
  { destruct (fst (Cli.main _ _ _ _ _ _)) as [c|e] eqn:F;
      [|vm_compute in F; discriminate].
    destruct (H1 c eq_refl) as [-> | ->]; [vm_compute in F; discriminate|reflexivity]. }
  split; [exact E|]. reflexivity.
Defined.

(* ------------------------------------------------------------------ *)
(** ** The credential from the cache file, end to end *)

Section CachedKey.

Variables (HERE version : string) (MODELS : list string) (w : Cli.world).
Variables (av : Cli.argv) (files : string -> option string).
Variables (ns : Cli.Namespace) (cards : list Util.GraphicsInfo).

Hypothesis no_flag : truthy (Cli.av_api_key av) = false.
Hypothesis parsed : Cli.parse_args MODELS av (Cli.initial files)
                    = (Ok ns, Cli.initial files).
Hypothesis found : Cli.os_path_exists w (Cli.av_file av) = true.
Hypothesis preflight : fst (Cli.ensure_dependencies w (Cli.initial files)) = Ok cards.

(** Past the preflight and without a usable flag, [main] is the lookup of
    the cached key followed by the call. *)
Lemma main_by_cache :
  match Cli.validate_api_key HERE w
          {| Cli.fs := files; Cli.out := Trace.card_report version cards |} with
  | (Raise e, s2) =>
      Cli.main HERE version MODELS w av (Cli.initial files)
      = (Cli.handled (Raise e),
         {| Cli.fs := Cli.fs s2;
            Cli.out := Cli.out s2 ++ Trace.interrupt_note e |})
  | (Ok k, s2) =>
      Cli.main HERE version MODELS w av (Cli.initial files)
      = (Cli.handled (match Cli.run w (Cli.kwargs ns (Some k)) with
                      | Ok _ => Ok None
                      | Raise e => Raise e
                      end),
         {| Cli.fs := Cli.fs s2;
            Cli.out := Cli.out s2
                       ++ Trace.advisory_for (Some k)
                       ++ [Cli.ERun (Cli.kwargs ns (Some k))]
                       ++ Trace.interrupt_note_after
                            (Cli.run w (Cli.kwargs ns (Some k))) |})
  end.
Proof.
  pose proof (main_states HERE version MODELS w av files) as C. cbv zeta in C.
  destruct C as [(line & PE & T)|(ns' & text & PE & L & HF & HM & Hns & [(X & T)|(X & [(e & D & T)|(cards' & D & T)])])].
  - rewrite parsed in PE. discriminate.
  - congruence.
  - congruence.
  - rewrite parsed in PE. injection PE as <-.
    rewrite preflight in D. injection D as <-.
    assert (Hk : truthy (Cli.api_key ns) = false).
    { destruct (parse_args_ok _ _ _ _ parsed) as [_ Hk]. rewrite Hk. exact no_flag. }
    rewrite (effective_api_key_cache HERE w ns _ Hk) in T.
    destruct (Cli.validate_api_key HERE w _) as [[k|e] s2]; exact T.
Qed.

(** X12.  Without a usable [--api-key] and with a cache file of ASCII
    characters without carriage return whose key is not blank, an invocation
    that gets past the preflight prints its report and calls [run] with the
    cached key, stripped but otherwise as it is, the word [free] included;
    it warns just before the call exactly when the key is [free], and of its
    own it asks nothing and writes nothing. *)
Theorem X12_cached_key_is_passed_as_is (text : string) :
  files (Cli.API_KEY_FILE HERE) = Some text ->
  Text.plain text = true ->
  strip text <> EmptyString ->
  let r := Cli.main HERE version MODELS w av (Cli.initial files) in
  let call := Cli.kwargs ns (Some (strip text)) in
  Cli.out (snd r)
  = (Trace.card_report version cards
     ++ (if String.eqb (strip text) "free" then [Trace.advisory] else [])
     ++ [Cli.ERun call]
     ++ Trace.interrupt_note_after (Cli.run w call))%list
  /\ Trace.prompts (Cli.out (snd r)) = []
  /\ Trace.writes (Cli.out (snd r)) = []
  /\ fst r = Cli.handled (match Cli.run w call with
                          | Ok _ => Ok None
                          | Raise e => Raise e
                          end).
Proof.
  intros F _ Hne r call. subst r call.
  pose proof main_by_cache as M.
  rewrite (validate_api_key_cached HERE w
             {| Cli.fs := files; Cli.out := Trace.card_report version cards |}
             text F Hne) in M.
  rewrite M. cbn [fst snd Cli.fs Cli.out].
  unfold Trace.advisory_for. cbn [opt_eqb].
  destruct (card_report_quiet version cards) as (P & W & _ & _).
  split; [reflexivity|].
  rewrite !prompts_app, !writes_app, P, W.
  destruct (String.eqb (strip text) "free"); cbn;
    (destruct (Cli.run w _) as [d|e]; [|destruct e]); cbn; auto.
Qed.

(** X13.  Without a usable [--api-key] and with a blank cache file, an
    invocation that gets past the preflight asks for the key once, after its
    report, writes the answer to the cache file as typed, and, for an answer
    of ASCII characters without carriage return, calls [run] with the answer
    stripped: a blank answer reaches the pipeline as the empty string, and
    is not asked for again. *)
Theorem X13_prompted_key_is_stored_and_passed (text key : string) :
  files (Cli.API_KEY_FILE HERE) = Some text ->
  Text.plain text = true ->
  strip text = EmptyString ->
  Cli.input w "Enter your Transcribe Anything API key: " = Ok key ->
  Text.plain key = true ->
  Cli.open_for_writing w (Cli.API_KEY_FILE HERE) = Ok tt ->
  let r := Cli.main HERE version MODELS w av (Cli.initial files) in
  let call := Cli.kwargs ns (Some (strip key)) in
  Cli.out (snd r)
  = (Trace.card_report version cards
     ++ [Cli.EInput "Enter your Transcribe Anything API key: ";
         Cli.EWrite (Cli.API_KEY_FILE HERE) key]
     ++ (if String.eqb (strip key) "free" then [Trace.advisory] else [])
     ++ [Cli.ERun call]
     ++ Trace.interrupt_note_after (Cli.run w call))%list
  /\ Trace.writes (Cli.out (snd r)) = [(Cli.API_KEY_FILE HERE, key)]
  /\ Cli.run_calls (Cli.out (snd r)) = [call]
  /\ Trace.prompts (Cli.out (snd r)) = ["Enter your Transcribe Anything API key: "].
Proof.
  intros F _ Hb Hi _ Hw r call. subst r call.
  pose proof main_by_cache as M.
  rewrite (validate_api_key_prompted HERE w
             {| Cli.fs := files; Cli.out := Trace.card_report version cards |}
             text key F Hb Hi Hw) in M.
  rewrite M. cbn [fst snd Cli.fs Cli.out].
  unfold Trace.advisory_for. cbn [opt_eqb].
  destruct (card_report_quiet version cards) as (P & W & R & _).
  split; [rewrite <- !app_assoc; reflexivity|].
  rewrite !run_calls_app, !prompts_app, !writes_app, R, P, W.
  destruct (String.eqb (strip key) "free"); cbn;
    (destruct (Cli.run w _) as [d|e]; [|destruct e]); cbn; auto.
Qed.

End CachedKey.

Lemma X12_cached_key_is_passed_as_is_witness :
  map Cli.ra_deepl_api_key
      (Cli.run_calls
         (Cli.out (snd (Cli.main Scenario.HERE Scenario.version Scenario.MODELS
                                 Scenario.healthy (Scenario.demo None)
                                 (Cli.initial (Scenario.cached " abc "))))))
  = [Some "abc"].
Proof.
  pose proof (X12_cached_key_is_passed_as_is
                Scenario.HERE Scenario.version Scenario.MODELS Scenario.healthy
                (Scenario.demo None) (Scenario.cached " abc ")
                (Scenario2.demo_args None) [Scenario.card]
                eq_refl eq_refl eq_refl eq_refl " abc ") as H.
  cbv zeta in H.
  destruct H as (O & _); [vm_compute; reflexivity|reflexivity|discriminate|].
  rewrite O. vm_compute. reflexivity.
Defined.

Lemma X13_prompted_key_is_stored_and_passed_witness :
  let r := Cli.main Scenario.HERE Scenario.version Scenario.MODELS
                    Scenario2.silent_user (Scenario.demo None)
                    (Cli.initial (Scenario.cached EmptyString)) in
  map Cli.ra_deepl_api_key (Cli.run_calls (Cli.out (snd r))) = [Some EmptyString]
  /\ Trace.writes (Cli.out (snd r)) = [(Cli.API_KEY_FILE Scenario.HERE, " ")].
Proof.
  pose proof (X13_prompted_key_is_stored_and_passed
                Scenario.HERE Scenario.version Scenario.MODELS Scenario2.silent_user
                (Scenario.demo None) (Scenario.cached EmptyString)
                (Scenario2.demo_args None) [Scenario.card]
                eq_refl eq_refl eq_refl eq_refl EmptyString " ") as H.
  cbv zeta in H.
  destruct H as (_ & F & R & _);
    [vm_compute; reflexivity|reflexivity|reflexivity|reflexivity|reflexivity
    |reflexivity|].
  cbv zeta. rewrite R. split; [reflexivity|exact F].
Defined.

(* ------------------------------------------------------------------ *)
(** ** The report on the cards *)

Section CardReport.

Variables (HERE version : string) (MODELS : list string) (w : Cli.world).
Variables (av : Cli.argv) (files : string -> option string) (ns : Cli.Namespace).

(** X14.  For an accepted command line and an input file that exists: if
    the preflight passes, what [main] prints first is its version, a header
    and one line per card the query reported, in the order reported, each
    of the form [  [idx]: name, memory GB]; if the preflight raises, the
    version line is all there is, apart from the note on an interrupt. *)
Theorem X14_cards_are_reported_in_order :
  Cli.parse_args MODELS av (Cli.initial files) = (Ok ns, Cli.initial files) ->
  Cli.os_path_exists w (Cli.av_file av) = true ->
  let r := Cli.main HERE version MODELS w av (Cli.initial files) in
  (forall cards,
      fst (Cli.ensure_dependencies w (Cli.initial files)) = Ok cards ->
      Cli.query_cuda_video_cards w = Ok cards
      /\ exists rest,
          Cli.out (snd r)
          = (Cli.EPrint ("videosubtitles version: " ++ version)
             :: Cli.EPrint "Found the following Nvidia/CUDA video cards:"
             :: map (fun card =>
                       Cli.EPrint ("  [" ++ str_nat (Util.idx card) ++ "]: "
                                        ++ Util.name card ++ ", "
                                        ++ Util.memory_gb card ++ " GB"))
                    cards
             ++ rest)%list)
  /\ (forall e,
         fst (Cli.ensure_dependencies w (Cli.initial files)) = Raise e ->
         Cli.out (snd r)
         = Cli.EPrint ("videosubtitles version: " ++ version)
           :: Trace.interrupt_note e).
Proof.
  intros parsed found r. subst r.
  pose proof (main_states HERE version MODELS w av files) as C. cbv zeta in C.
  destruct C as [(line & PE & T)|(ns' & text & PE & L & HF & HM & Hns & [(X & T)|(X & [(e & D & T)|(cards' & D & T)])])].
  - rewrite parsed in PE. discriminate.
  - congruence.
  - split; [intros cards Hc; congruence|].
    intros e' He. rewrite D in He. injection He as <-. rewrite T. reflexivity.
  - split; [|intros e He; congruence].
    intros cards Hc. rewrite D in Hc. injection Hc as <-.
    split.
    + revert D. unfold Cli.ensure_dependencies, bind, lift, raise, ret.
      destruct (Cli.query_cuda_video_cards w) as [[|c cs]|e]; cbn; try discriminate.
      destruct (Cli.ensure_transcribe_anything_installed w); cbn; try discriminate.
      intros [= <-]. reflexivity.
    + destruct (effective_api_key_quiet HERE w ns'
                  {| Cli.fs := files; Cli.out := Trace.card_report version cards' |})
        as (tr & O & _).
      cbn [Cli.out] in O.
      destruct (Cli.effective_api_key HERE w ns' _) as [[k|e] s2];
        cbn [snd] in O; rewrite T; cbn [snd Cli.out]; rewrite O;
        rewrite <- !app_assoc; eexists; reflexivity.
Qed.

End CardReport.

Lemma X14_cards_are_reported_in_order_witness :
  exists rest,
    Cli.out (snd (Cli.main Scenario.HERE Scenario.version Scenario.MODELS
                           Scenario.healthy (Scenario.demo (Some "KEY"))
                           (Cli.initial Scenario.no_files)))
    = (Cli.EPrint "videosubtitles version: 1.0.0"
       :: Cli.EPrint "Found the following Nvidia/CUDA video cards:"
       :: Cli.EPrint "  [0]: NVIDIA GeForce RTX 3080, 10.0 GB"
       :: rest)%list.
Proof.
  pose proof (X14_cards_are_reported_in_order
                Scenario.HERE Scenario.version Scenario.MODELS Scenario.healthy
                (Scenario.demo (Some "KEY")) Scenario.no_files
                (Scenario2.demo_args (Some "KEY")) eq_refl eq_refl) as H.
  cbv zeta in H. destruct H as [H _].
  destruct (H [Scenario.card] eq_refl) as (_ & rest & O).
  exists rest. rewrite O. reflexivity.
Defined.

(* ------------------------------------------------------------------ *)
(** ** More on the drop handler *)

(** X15.  [dropEvent] turns a [ValueError] of the validation into an error
    box showing the text of the exception, and returns.  Any other
    exception of the validation leaves [dropEvent] as it is, with no box.
    In both cases the settings have been saved and no thread is
    registered. *)
Theorem X15_only_ValueError_becomes_a_box
        (parse : string -> res (list string)) (self : Gui.form)
        (files : list string) (s : Gui.state) (e : exn) :
  parse (Gui.output_text self) = Raise e ->
  let r := Gui.dropEvent parse Gui.callback self files s in
  Gui.saved (snd r) = Some (Gui.form_values self)
  /\ Gui.registered (snd r) = Gui.registered s
  /\ (is_ValueError e = true ->
      fst r = Ok tt
      /\ Gui.out (snd r)
         = (Gui.out s ++ Gui.save_trace self
                    ++ [Gui.ECritical "Error" (str_exn e)])%list)
  /\ (is_ValueError e = false ->
      fst r = Raise e
      /\ Gui.out (snd r) = (Gui.out s ++ Gui.save_trace self)%list).
Proof.
  intros P r. subst r. rewrite dropEvent_spec, P.
  destruct (is_ValueError e); cbn; repeat split; discriminate.
Qed.

Lemma X15_only_ValueError_becomes_a_box_witness :
  fst (Gui.dropEvent Cli.parse_languages Gui.callback Scenario.window_xx
                     ["/videos/a/one.mp4"] (Gui.initial Scenario.factory_settings))
  = Raise (ArgumentTypeError "Invalid language code: xx").
Proof.
  destruct (X15_only_ValueError_becomes_a_box
              Cli.parse_languages Scenario.window_xx ["/videos/a/one.mp4"]
              (Gui.initial Scenario.factory_settings)
              (ArgumentTypeError "Invalid language code: xx") eq_refl)
    as (_ & _ & _ & H).
  destruct (H eq_refl) as [R _]. exact R.
Defined.

(** X16.  Two drops, one after the other, both with a language text that
    parses: the threads of the second are registered after those of the
    first, which keep the values of the window at the time of the first
    drop; and the settings store ends up with the values of the window at
    the time of the second. *)
Theorem X16_drops_accumulate
        (parse : string -> res (list string))
        (first second : Gui.form) (files1 files2 parsed1 parsed2 : list string)
        (s : Gui.state) :
  parse (Gui.output_text first) = Ok parsed1 ->
  parse (Gui.output_text second) = Ok parsed2 ->
  let s1 := snd (Gui.dropEvent parse Gui.callback first files1 s) in
  let r := Gui.dropEvent parse Gui.callback second files2 s1 in
  fst r = Ok tt
  /\ Gui.registered (snd r)
     = (Gui.registered s ++ map (Gui.thread_for first parsed1) files1
                         ++ map (Gui.thread_for second parsed2) files2)%list
  /\ Gui.saved (snd r) = Some (Gui.form_values second)
  /\ length (Gui.registered (snd r))
     = length (Gui.registered s) + length files1 + length files2.
Proof.
  intros P1 P2 s1 r. subst r s1.
  rewrite !dropEvent_spec, P1, P2. cbn [fst snd Gui.registered Gui.saved].
  rewrite <- app_assoc. repeat split.
  rewrite !length_app, !length_map. lia.
Qed.

Lemma X16_drops_accumulate_witness :
  Gui.registered
    (snd (Gui.dropEvent Util.parse_languages Gui.callback Scenario.window_no_key
            ["/videos/b/clip.mp4"]
            (snd (Gui.dropEvent Util.parse_languages Gui.callback Scenario.window
                                ["/videos/a/one.mp4"]
                                (Gui.initial Scenario.factory_settings)))))
  = [Scenario.job_one;
     Gui.thread_for Scenario.window_no_key ["en"; "es"] "/videos/b/clip.mp4"].
Proof.
  destruct (X16_drops_accumulate
              Util.parse_languages Scenario.window Scenario.window_no_key
              ["/videos/a/one.mp4"] ["/videos/b/clip.mp4"]
              ["en"; "es"] ["en"; "es"]
              (Gui.initial Scenario.factory_settings) eq_refl eq_refl)
    as (_ & R & _).
  rewrite R. reflexivity.
Defined.

(** X17.  What [save_settings] stores depends on the window alone, not on
    what the store held; every stored text carries no white space at either
    end; the stored language list is never empty and holds no comma; and a
    blank language field is stored as the list of one empty code. *)
Theorem X17_saved_values_are_stripped (self : Gui.form) (s : Gui.state) :
  let s' := snd (Gui.save_settings self s) in
  let v := Gui.form_values self in
  Gui.settings s' = v /\ Gui.saved s' = Some v
  /\ Gui.registered s' = Gui.registered s
  /\ strip (Gui.s_deepl_key v) = Gui.s_deepl_key v
  /\ strip (Gui.s_model v) = Gui.s_model v
  /\ strip (Gui.s_subtitle_format v) = Gui.s_subtitle_format v
  /\ Gui.s_languages v <> []
  /\ Forall (fun l => strip l = l /\ contains "," l = false) (Gui.s_languages v)
  /\ (strip (Gui.output_text self) = EmptyString ->
      Gui.s_languages v = [EmptyString]).
Proof.
  cbv zeta. rewrite save_settings_spec. cbn [snd Gui.settings Gui.saved Gui.registered].
  unfold Gui.form_values. cbn [Gui.s_deepl_key Gui.s_model Gui.s_subtitle_format
                               Gui.s_languages].
  repeat (split; [first [reflexivity | apply strip_idempotent]|]).
  split; [|split].
  - intros H. apply map_eq_nil in H. exact (split_nonempty _ _ H).
  - apply Forall_forall. intros l Hl.
    apply in_map_iff in Hl as (x & <- & Hx).
    split; [apply strip_idempotent|].
    pose proof (split_fields_clean "," (strip (Gui.output_text self))) as C.
    rewrite Forall_forall in C. specialize (C x Hx).
    apply strip_keeps_clean. exact C.
  - intros ->. reflexivity.
Qed.

Lemma X17_saved_values_are_stripped_witness :
  Gui.s_languages
    (Gui.form_values {| Gui.deepl_input := "KEY"; Gui.model_select := "large";
                        Gui.output_text := "  "; Gui.webvtt_select := "SRT" |})
  = [EmptyString].
Proof.
  pose proof (X17_saved_values_are_stripped
                {| Gui.deepl_input := "KEY"; Gui.model_select := "large";
                   Gui.output_text := "  "; Gui.webvtt_select := "SRT" |}
                (Gui.initial Scenario.factory_settings)) as H.
  cbv zeta in H. destruct H as (_ & _ & _ & _ & _ & _ & _ & _ & H).
  apply H. reflexivity.
Defined.

(* ------------------------------------------------------------------ *)
(** ** What a thread leaves behind *)

Section ThreadTraces.

Variables (w : Worker.world) (tid : nat) (j : Gui.job) (s : Worker.process).

Lemma open_folder_launch (path : string) (p : Worker.process) :
  Worker.open_folder w tid path p
  = Worker.effect tid (Launch.event_for w path) (Launch.outcome w path) p.
Proof.
  unfold Worker.open_folder, Launch.event_for, Launch.outcome.
  destruct (String.eqb (Worker.platform_system w) "Windows"); [reflexivity|].
  destruct (String.eqb (Worker.platform_system w) "Darwin"); reflexivity.
Qed.

(** The thread up to the end of its call of the pipeline. *)
Lemma generate_subtitles_unfold :
  Worker.os_chdir w (dirname (Gui.videofile j)) = Ok tt ->
  let dir := path_join (Worker.cwd s) (dirname (Gui.videofile j)) in
  let called :=
    {| Worker.cwd := dir;
       Worker.log := Worker.log s
                     ++ [(tid, Worker.EChdir (dirname (Gui.videofile j)));
                         (tid, Worker.ERun dir (Worker.run_kwargs j))] |} in
  Worker._generate_subtitles w tid j s
  = match Worker.run w dir (Worker.run_kwargs j) with
    | Ok out =>
        bind (Worker.effect tid (Launch.event_for w out) (Launch.outcome w out))
             (fun _ => Worker.announce w tid j) called
    | Raise e =>
        if is_Exception e then Worker.report_error w tid e called
        else (Raise e, called)
    end.
Proof.
  intros Hc dir called. subst dir called.
  unfold Worker._generate_subtitles, Worker.chdir, Worker.call_run,
    try_except, bind at 1 2 3, ret.
  rewrite Hc. cbn [Worker.cwd Worker.log].
  destruct (Worker.run w _ _) as [out|e].
  - rewrite <- app_assoc. cbn [app]. unfold bind.
    rewrite open_folder_launch. reflexivity.
  - rewrite <- app_assoc. cbn [app].
    destruct (is_Exception e); [|reflexivity].
    unfold bind, ret.
    destruct (Worker.report_error w tid e _) as [[[]|e'] s']; reflexivity.
Qed.

(** X18.  A job whose directory change, pipeline, folder launch and speech
    all succeed leaves exactly five events, in this order: the directory
    change, the call of the pipeline with the bare file name, the launch of
    the folder the pipeline returned, the printed line, and the spoken
    completion.  The process stays in the directory of the video. *)
Theorem X18_successful_job_trace (out : string) :
  Worker.os_chdir w (dirname (Gui.videofile j)) = Ok tt ->
  let dir := path_join (Worker.cwd s) (dirname (Gui.videofile j)) in
  Worker.run w dir (Worker.run_kwargs j) = Ok out ->
  Launch.outcome w out = Ok tt ->
  Worker.say w (Worker.completion_text j) = Ok tt ->
  Worker._generate_subtitles w tid j s
  = (Ok tt,
     {| Worker.cwd := dir;
        Worker.log :=
          Worker.log s
          ++ [(tid, Worker.EChdir (dirname (Gui.videofile j)));
              (tid, Worker.ERun dir (Worker.run_kwargs j));
              (tid, Launch.event_for w out);
              (tid, Worker.EPrint ("Generating subtitles for "
                                     ++ basename (Gui.videofile j)));
              (tid, Worker.ESay (Worker.completion_text j))] |}).
Proof.
  intros Hc dir Hr Hl Hs. subst dir.
  pose proof (generate_subtitles_unfold Hc) as U. cbv zeta in U.
  rewrite U, Hr, Hl.
  unfold bind, Worker.effect, Worker.emit, Worker.announce, Worker.print,
    Worker.call_say, bind, Worker.effect, Worker.emit.
  cbn [Worker.cwd Worker.log]. rewrite Hs.
  cbn [Worker.cwd Worker.log]. rewrite <- !app_assoc. reflexivity.
Qed.

(** X19.  A job whose pipeline raises a subclass of [Exception] prints the
    text of the exception, speaks it after the word [Error:], and returns:
    four events, and no folder is opened. *)
Theorem X19_failed_job_trace (e : exn) :
  Worker.os_chdir w (dirname (Gui.videofile j)) = Ok tt ->
  let dir := path_join (Worker.cwd s) (dirname (Gui.videofile j)) in
  Worker.run w dir (Worker.run_kwargs j) = Raise e ->
  is_Exception e = true ->
  Worker.say w ("Error: " ++ str_exn e) = Ok tt ->
  let r := Worker._generate_subtitles w tid j s in
  r = (Ok tt,
       {| Worker.cwd := dir;
          Worker.log :=
            Worker.log s
            ++ [(tid, Worker.EChdir (dirname (Gui.videofile j)));
                (tid, Worker.ERun dir (Worker.run_kwargs j));
                (tid, Worker.EPrint (str_exn e));
                (tid, Worker.ESay ("Error: " ++ str_exn e))] |})
  /\ exists tr,
      Worker.log (snd r) = (Worker.log s ++ tr)%list
      /\ Launch.opened (map snd tr) = [].
Proof.
  intros Hc dir Hr He Hs r. subst dir r.
  pose proof (generate_subtitles_unfold Hc) as U. cbv zeta in U.
  rewrite U, Hr, He.
  unfold Worker.report_error, Worker.print, Worker.call_say, bind,
    Worker.effect, Worker.emit.
  cbn [Worker.cwd Worker.log]. rewrite Hs.
  cbn [Worker.cwd Worker.log]. rewrite <- !app_assoc. cbn [app].
  split; [reflexivity|]. eexists. split; [reflexivity|reflexivity].
Qed.

(** X20.  Three ways a job ends without a word.  If the pipeline raises
    outside [Exception] (an interrupt, an exit), the exception leaves the
    thread after the call and nothing is printed or spoken.  If the pipeline
    returns but the launch of the folder fails, that exception leaves the
    thread and the completion is never announced.  If the pipeline fails and
    the speech helper fails in turn, the error was printed but not
    spoken. *)
Theorem X20_endings_without_notification :
  Worker.os_chdir w (dirname (Gui.videofile j)) = Ok tt ->
  let dir := path_join (Worker.cwd s) (dirname (Gui.videofile j)) in
  let called :=
    (Worker.log s
     ++ [(tid, Worker.EChdir (dirname (Gui.videofile j)));
         (tid, Worker.ERun dir (Worker.run_kwargs j))])%list in
  let r := Worker._generate_subtitles w tid j s in
  (forall e, Worker.run w dir (Worker.run_kwargs j) = Raise e ->
             is_Exception e = false ->
             fst r = Raise e /\ Worker.log (snd r) = called)
  /\ (forall out e, Worker.run w dir (Worker.run_kwargs j) = Ok out ->
                    Launch.outcome w out = Raise e ->
                    fst r = Raise e /\ Worker.log (snd r) = called)
  /\ (forall e e', Worker.run w dir (Worker.run_kwargs j) = Raise e ->
                   is_Exception e = true ->
                   Worker.say w ("Error: " ++ str_exn e) = Raise e' ->
                   fst r = Raise e'
                   /\ Worker.log (snd r)
                      = (called ++ [(tid, Worker.EPrint (str_exn e))])%list).
Proof.
  intros Hc dir called r. subst dir called r.
  pose proof (generate_subtitles_unfold Hc) as U. cbv zeta in U.
  rewrite U. clear U. split; [|split].
  - intros e Hr He. rewrite Hr, He. split; reflexivity.
  - intros out e Hr Hl. rewrite Hr, Hl. split; reflexivity.
  - intros e e' Hr He Hs. rewrite Hr, He.
    unfold Worker.report_error, Worker.print, Worker.call_say, bind,
      Worker.effect, Worker.emit.
    cbn [Worker.cwd Worker.log]. rewrite Hs. split; reflexivity.
Qed.

End ThreadTraces.

Lemma X18_successful_job_trace_witness :
  map snd (Worker.log (snd (Worker._generate_subtitles Scenario.desktop 0
                              Scenario.job_one Scenario.at_home)))
  = [Worker.EChdir "/videos/a";
     Worker.ERun "/videos/a" (Worker.run_kwargs Scenario.job_one);
     Worker.EPopen ["xdg-open"; "/videos/a/one"];
     Worker.EPrint "Generating subtitles for one.mp4";
     Worker.ESay "Attention: one has completed subtitle generation in SRT format"].
Proof.
  rewrite (X18_successful_job_trace Scenario.desktop 0 Scenario.job_one
             Scenario.at_home "/videos/a/one" eq_refl eq_refl eq_refl eq_refl).
  reflexivity.
Defined.

Lemma X19_failed_job_trace_witness :
  map snd (Worker.log (snd (Worker._generate_subtitles Scenario.desktop 0
                              Scenario2.job_gone Scenario.at_home)))
  = [Worker.EChdir "/videos/a";
     Worker.ERun "/videos/a" (Worker.run_kwargs Scenario2.job_gone);
     Worker.EPrint "[Errno 2] No such file or directory: 'gone.mp4'";
     Worker.ESay "Error: [Errno 2] No such file or directory: 'gone.mp4'"].
Proof.
  destruct (X19_failed_job_trace Scenario.desktop 0 Scenario2.job_gone
              Scenario.at_home
              (FileNotFoundError "[Errno 2] No such file or directory: 'gone.mp4'")
              eq_refl eq_refl eq_refl eq_refl) as [R _].
  cbv zeta in R. rewrite R. reflexivity.
Defined.

Lemma X20_endings_without_notification_witness :
  let r := Worker._generate_subtitles Scenario2.no_opener 0 Scenario.job_one
                                      Scenario.at_home in
  fst r = Raise (FileNotFoundError "[Errno 2] No such file or directory: 'xdg-open'")
  /\ Worker.notifications 0 (Worker.log (snd r)) = [].
Proof.
  pose proof (X20_endings_without_notification Scenario2.no_opener 0
                Scenario.job_one Scenario.at_home eq_refl) as H.
  cbv zeta in H. destruct H as (_ & H & _).
  destruct (H "/videos/a/one"
              (FileNotFoundError "[Errno 2] No such file or directory: 'xdg-open'")
              eq_refl eq_refl) as [R L].
  cbv zeta. rewrite R, L. split; reflexivity.
Defined.

(* ------------------------------------------------------------------ *)
(** ** Directory and file name of a dropped path *)

Section Paths.



(** The last component holds no slash. *)
Lemma basename_clean (p : string) : contains "/" (basename p) = false.
Proof.
  unfold basename. induction p as [|c p IH]; [reflexivity|].
  cbn [split_last_sep]. destruct (split_last_sep p) as [h t]. cbn [snd] in IH.
  destruct h as [|a h]; [|exact IH].
  destruct (Ascii.eqb c "/") eqn:E; cbn [snd]; [exact IH|].
  cbn. rewrite E. exact IH.
Qed.








End Paths.



(* ------------------------------------------------------------------ *)
(** ** The spoken name *)

Section VoiceName.

Lemma split_last_sep_name (t : string) :
  contains "/" t = false -> split_last_sep t = (EmptyString, t).
Proof.
  induction t as [|c t IH]; [reflexivity|].
  cbn [contains]. intros H. apply orb_false_elim in H as [Hc Ht].
  cbn [split_last_sep]. rewrite (IH Ht), Hc. reflexivity.
Qed.

Lemma basename_of_name (t : string) :
  contains "/" t = false -> basename t = t.
Proof.
  intros H. unfold basename. rewrite (split_last_sep_name t H). reflexivity.
Qed.

(** The fields of a split keep out what the string keeps out. *)
Lemma split_fields_without (sep c : ascii) (s : string) :
  contains c s = false ->
  Forall (fun x => contains c x = false) (split sep s).
Proof.
  induction s as [|a s IH]; [repeat constructor|].
  cbn [contains]. intros H. apply orb_false_elim in H as [Ha Hs].
  specialize (IH Hs). cbn [split].
  destruct (Ascii.eqb a sep).
  - constructor; [reflexivity|exact IH].
  - destruct (split sep s) as [|x xs]; [repeat constructor; cbn; rewrite Ha; reflexivity|].
    inversion IH as [|? ? Hx Hxs]; subst.
    constructor; [cbn; rewrite Ha; exact Hx|exact Hxs].
Qed.

Lemma hd_split_without (sep c : ascii) (s : string) :
  contains c s = false -> contains c (hd EmptyString (split sep s)) = false.
Proof.
  intros H. pose proof (split_fields_without sep c s H) as F.
  destruct (split sep s); [reflexivity|]. inversion F; assumption.
Qed.

Lemma hd_split_clean (sep : ascii) (s : string) :
  contains sep (hd EmptyString (split sep s)) = false.
Proof.
  pose proof (split_fields_clean sep s) as F.
  destruct (split sep s); [reflexivity|]. inversion F; assumption.
Qed.

(** Replacing [a] by [b] leaves no [a], and brings in nothing but [b]. *)
Lemma replace_removes (a b : ascii) (s : string) :
  Ascii.eqb b a = false -> contains a (replace a b s) = false.
Proof.
  intros Hab. induction s as [|c s IH]; [reflexivity|].
  cbn. rewrite IH. destruct (Ascii.eqb c a) eqn:E; [rewrite Hab|rewrite E]; reflexivity.
Qed.

Lemma replace_without (a b c : ascii) (s : string) :
  Ascii.eqb b c = false -> contains c s = false ->
  contains c (replace a b s) = false.
Proof.
  intros Hbc. induction s as [|x s IH]; [reflexivity|].
  cbn [contains replace]. intros H. apply orb_false_elim in H as [Hx Hs].
  rewrite (IH Hs). destruct (Ascii.eqb x a); [rewrite Hbc|rewrite Hx]; reflexivity.
Qed.

(** X22.  The completion announcement names the video by the part of its
    file name before the first dot, with every underscore turned into a
    blank: the spoken name holds no underscore, no dot and no slash; for a
    file name [stem.rest] with no dot in [stem] it is [stem] with blanks for
    underscores; and for a file name that starts with a dot it is empty. *)
Theorem X22_spoken_name (j : Gui.job) :
  Worker.completion_text j
  = "Attention: " ++ Launch.voicename j
                  ++ " has completed subtitle generation in "
                  ++ (if Gui.convert_to_webvtt j then "WEBVTT" else "SRT")
                  ++ " format"
  /\ contains "_" (Launch.voicename j) = false
  /\ contains "." (Launch.voicename j) = false
  /\ contains "/" (Launch.voicename j) = false
  /\ (forall stem rest,
         basename (Gui.videofile j) = stem ++ String "." rest ->
         contains "." stem = false ->
         Launch.voicename j = replace "_" " " stem).
Proof.
  split; [reflexivity|].
  unfold Launch.voicename.
  rewrite (basename_of_name _ (basename_clean (Gui.videofile j))).
  split; [apply replace_removes; reflexivity|].
  split; [apply replace_without; [reflexivity|apply hd_split_clean]|].
  split.
  - apply replace_without; [reflexivity|].
    apply hd_split_without, basename_clean.
  - intros stem rest Hb Hs. rewrite Hb, split_field by exact Hs. reflexivity.
Qed.

End VoiceName.

Lemma X22_spoken_name_witness :
  Launch.voicename
    (Gui.thread_for Scenario.window ["en"] "/videos/a/my_first_clip.v2.mp4")
  = "my first clip".
Proof.
  destruct (X22_spoken_name
              (Gui.thread_for Scenario.window ["en"] "/videos/a/my_first_clip.v2.mp4"))
    as (_ & _ & _ & _ & H).
  rewrite (H "my_first_clip" "v2.mp4"); reflexivity.
Defined.
